(** * achandswim: ACH payment file to SWIM settlement file

    A shallow embedding of [achandswim.py] and the properties of its
    parser, its file reconstruction, its settlement lines and its routing
    number validator.

    Conventions of the embedding.
    - A Python [str] is a [string], a character standing for the code point
      of its number: the text of the files is taken to have code points below
      256, as an ACH file has, and on such text the primitives below are
      those of Python (Unicode 14.0).  The argument of the routing number
      validator is any [str]: there a [str] is also modelled as a [text],
      the list of its code points.
    - A Python [int] is a [Z].
    - A raised exception is the constructor [Raise] of [res]; the functions of
      the script that catch every exception and return [False] are the ones
      whose result is read with [ok].
    - The mutable [ScriptData] object is passed explicitly: a function that
      mutates it returns the new value.
    - The input file is the list of its lines, in the order the [for] loop
      over the file object yields them.
    - The route number of the institution is taken to be digits, so that the
      pattern the parser builds from it matches it as it is written. *)

From Stdlib Require Import String Ascii ZArith List Bool Arith Lia.
Import ListNotations.

Local Open Scope string_scope.
Local Open Scope list_scope.

Infix "+++" := String.append (right associativity, at level 60).

(** ** Python primitives used by the script *)

Module Py.

(** Exceptions the script can raise in the code that is modelled. *)
Inductive exn : Type :=
| ValueError
| IndexError
| KeyError
| TypeError.

Inductive res (A : Type) : Type :=
| Ok (a : A)
| Raise (e : exn).

Arguments Ok {A} a.
Arguments Raise {A} e.

Definition bind {A B : Type} (m : res A) (k : A -> res B) : res B :=
  match m with
  | Ok a => k a
  | Raise e => Raise e
  end.

Definition map_res {A B : Type} (f : A -> B) (m : res A) : res B :=
  match m with
  | Ok a => Ok (f a)
  | Raise e => Raise e
  end.

Definition ok {A : Type} (m : res A) : bool :=
  match m with
  | Ok _ => true
  | Raise _ => false
  end.

(** *** Characters *)

Definition is_digit (c : ascii) : bool :=
  let n := nat_of_ascii c in (48 <=? n)%nat && (n <=? 57)%nat.

Definition digit_val (c : ascii) : Z := Z.of_nat (nat_of_ascii c - 48).

Definition digit_char (d : Z) : ascii := ascii_of_nat (48 + Z.to_nat d).

(** White space of [str.strip] below 256: TAB, LF, VT, FF, CR, the four
    separators 28..31, the space, NEL (133) and the no-break space (160). *)
Definition is_space (c : ascii) : bool :=
  let n := nat_of_ascii c in
  ((9 <=? n)%nat && (n <=? 13)%nat) || ((28 <=? n)%nat && (n <=? 32)%nat) ||
  (n =? 133)%nat || (n =? 160)%nat.

(** White space that [int] skips around a literal: the same without the
    separators 28..31, which [int] refuses. *)
Definition is_space_int (c : ascii) : bool :=
  let n := nat_of_ascii c in
  ((9 <=? n)%nat && (n <=? 13)%nat) || (n =? 32)%nat ||
  (n =? 133)%nat || (n =? 160)%nat.

(** The characters below 256 that [str.isdigit] accepts: the decimal digits
    and the superscripts two, three (178, 179) and one (185), which [int]
    refuses. *)
Definition is_digit_or_superscript (c : ascii) : bool :=
  let n := nat_of_ascii c in
  is_digit c || (n =? 178)%nat || (n =? 179)%nat || (n =? 185)%nat.

(** *** Slices *)

(** [s[a:b]] for [0 <= a <= b]; the slice is clipped to the string. *)
Definition slice (a b : nat) (s : string) : string := substring a (b - a) s.

(** [s[-n:]] *)
Definition suffix (n : nat) (s : string) : string :=
  substring (String.length s - n) n s.

(** [s[:-n]] for [n > 0] *)
Definition drop_last (n : nat) (s : string) : string :=
  substring 0 (String.length s - n) s.

(** [s[i]], which raises [IndexError] out of range. *)
Definition index (i : nat) (s : string) : res ascii :=
  match get i s with
  | Some c => Ok c
  | None => Raise IndexError
  end.

Definition startswith (p s : string) : bool := prefix p s.

Definition endswith (p s : string) : bool :=
  (String.length p <=? String.length s)%nat && (suffix (String.length p) s =? p)%string.

(** [p in s] *)
Fixpoint contains (p s : string) : bool :=
  prefix p s ||
  match s with
  | EmptyString => false
  | String _ r => contains p r
  end.

(** *** Stripping *)

Fixpoint lstrip_where (f : ascii -> bool) (s : string) : string :=
  match s with
  | EmptyString => EmptyString
  | String c r => if f c then lstrip_where f r else s
  end.

Fixpoint rstrip_where (f : ascii -> bool) (s : string) : string :=
  match s with
  | EmptyString => EmptyString
  | String c r =>
      let r' := rstrip_where f r in
      if f c && (r' =? "")%string then EmptyString else String c r'
  end.

(** [s.strip()] *)
Definition strip (s : string) : string :=
  rstrip_where is_space (lstrip_where is_space s).

(** [s.lstrip('0')] *)
Definition lstrip0 (s : string) : string :=
  lstrip_where (fun c => (c =? "0")%char) s.

(** [s.replace(' ', '')] *)
Fixpoint remove_spaces (s : string) : string :=
  match s with
  | EmptyString => EmptyString
  | String c r =>
      if (c =? " ")%char then remove_spaces r else String c (remove_spaces r)
  end.

(** [s or '0'] *)
Definition or_zero (s : string) : string :=
  if (s =? "")%string then "0" else s.

Definition truthy (s : string) : bool := negb (s =? "")%string.

Fixpoint all_digits (s : string) : bool :=
  match s with
  | EmptyString => true
  | String c r => is_digit c && all_digits r
  end.

Fixpoint all_chars (f : ascii -> bool) (s : string) : bool :=
  match s with
  | EmptyString => true
  | String c r => f c && all_chars f r
  end.

(** [s.isdigit()]: at least one character, and every character one that
    [str.isdigit] accepts. *)
Definition isdigit (s : string) : bool :=
  truthy s && all_chars is_digit_or_superscript s.

Fixpoint repeat_char (c : ascii) (n : nat) : string :=
  match n with
  | O => EmptyString
  | S k => String c (repeat_char c k)
  end.

Definition nl : string := String (ascii_of_nat 10) EmptyString.

(** ['\n'.join(lines) + '\n'] *)
Definition join_lines (lines : list string) : string :=
  String.concat nl lines +++ nl.

(** *** [str(int)] *)

Fixpoint digits_fuel (fuel : nat) (n : Z) (acc : string) : string :=
  match fuel with
  | O => acc
  | S f =>
      let acc' := String (digit_char (n mod 10)) acc in
      if (n / 10 =? 0)%Z then acc' else digits_fuel f (n / 10) acc'
  end.

(** Decimal digits of [n >= 0]; [S (log2 n)] digits are always enough. *)
Definition str_nonneg (n : Z) : string :=
  digits_fuel (S (Z.to_nat (Z.log2 n))) n EmptyString.

Definition str (z : Z) : string :=
  if (z <? 0)%Z then String "-" (str_nonneg (- z)) else str_nonneg z.

(** *** [int(str)] *)

(** The digits of a decimal literal: a digit, then digits each optionally
    preceded by one underscore.  [prev] tells that the previous character
    was a digit. *)
Fixpoint parse_digits (s : string) (acc : Z) (prev : bool) : option Z :=
  match s with
  | EmptyString => if prev then Some acc else None
  | String c r =>
      if is_digit c then parse_digits r (10 * acc + digit_val c)%Z true
      else if (c =? "_")%char && prev then parse_digits r acc false
      else None
  end.

Definition int (s : string) : res Z :=
  let t := rstrip_where is_space_int (lstrip_where is_space_int s) in
  let signed :=
    match t with
    | String "+" r => parse_digits r 0 false
    | String "-" r => option_map Z.opp (parse_digits r 0 false)
    | _ => parse_digits t 0 false
    end in
  match signed with
  | Some z => Ok z
  | None => Raise ValueError
  end.

(** *** Format specifications *)

(** [{:c>w s}]: right aligned in width [w], filled with [c]; never cut. *)
Definition pad_left (c : ascii) (w : nat) (s : string) : string :=
  repeat_char c (w - String.length s) +++ s.

(** [{:c<w s}]: left aligned in width [w], filled with [c]; never cut. *)
Definition pad_right (c : ascii) (w : nat) (s : string) : string :=
  s +++ repeat_char c (w - String.length s).

(** [{:0wd}]: zero padding after the sign. *)
Definition fmt_0d (w : nat) (z : Z) : string :=
  if (z <? 0)%Z
  then String "-" (pad_left "0" (w - 1) (str_nonneg (- z)))
  else pad_left "0" w (str_nonneg z).

(** [{:>0wd}]: the alignment is given, so the zeros go before the sign. *)
Definition fmt_r0d (w : nat) (z : Z) : string := pad_left "0" w (str z).

(** *** Text of any code points *)

(** A [str] as the list of its code points. *)
Definition text : Type := list N.

Definition code_points (s : string) : text :=
  map N_of_ascii (list_ascii_of_string s).

(** The decimal digits of Unicode 14.0 come in 66 runs of ten, from the
    digit zero to the digit nine of a script; these are the code points of
    the zeros. *)
Definition decimal_zeros : list N :=
  [48; 1632; 1776; 1984; 2406; 2534; 2662; 2790; 2918; 3046; 3174; 3302;
   3430; 3558; 3664; 3792; 3872; 4160; 4240; 6112; 6160; 6470; 6608; 6784;
   6800; 6992; 7088; 7232; 7248; 42528; 43216; 43264; 43472; 43504; 43600;
   44016; 65296; 66720; 68912; 69734; 69872; 69942; 70096; 70384; 70736;
   70864; 71248; 71360; 71472; 71904; 72016; 72784; 73040; 73120; 92768;
   92864; 93008; 120782; 120792; 120802; 120812; 120822; 123200; 123632;
   125264; 130032]%N.

(** The value of a decimal digit. *)
Definition decimal (c : N) : option Z :=
  match find (fun z => (z <=? c)%N && (c <? z + 10)%N) decimal_zeros with
  | Some z => Some (Z.of_N (c - z))
  | None => None
  end.

(** [c.isdecimal()] *)
Definition is_decimal (c : N) : bool :=
  match decimal c with
  | Some _ => true
  | None => false
  end.

(** The digits that are no decimal digits (superscripts, subscripts,
    circled digits and the like), as ranges of code points. *)
Definition other_digits : list (N * N) :=
  [(178, 179); (185, 185); (4969, 4977); (6618, 6618); (8304, 8304);
   (8308, 8313); (8320, 8329); (9312, 9320); (9332, 9340); (9352, 9360);
   (9450, 9450); (9461, 9469); (9471, 9471); (10102, 10110);
   (10112, 10120); (10122, 10130); (68160, 68163); (69216, 69224);
   (69714, 69722); (127232, 127242)]%N.

(** [c.isdigit()] for one character. *)
Definition is_digit_point (c : N) : bool :=
  is_decimal c ||
  existsb (fun r => (fst r <=? c)%N && (c <=? snd r)%N) other_digits.

(** [s.isdigit()] on a [text]. *)
Definition isdigit_text (s : text) : bool :=
  match s with
  | [] => false
  | _ => forallb is_digit_point s
  end.

(** [int(c)] for a [str] of the one character [c]: the value of a decimal
    digit; no other character is a literal on its own. *)
Definition int_point (c : N) : res Z :=
  match decimal c with
  | Some d => Ok d
  | None => Raise ValueError
  end.

(** [s[a:b]] on a [text], for [0 <= a <= b]. *)
Definition slice_text (a b : nat) (s : text) : text :=
  firstn (b - a) (skipn a s).

(** [s == t] on texts. *)
Fixpoint text_eqb (s t : text) : bool :=
  match s, t with
  | [], [] => true
  | c :: s', d :: t' => (c =? d)%N && text_eqb s' t'
  | _, _ => false
  end.

End Py.

Notation "x <- m ;; k" := (Py.bind m (fun x => k))
  (at level 61, m at next level, right associativity).
Notation "' p <- m ;; k" := (Py.bind m (fun p => k))
  (at level 61, p pattern, m at next level, right associativity).

(** ** The script *)

Module Ach.
Import Py.

(** Command line arguments read by the modelled code.  The database (the
    business date of the holds and the holds staged per record) and the
    report-only switch that guards it are left out: a failed insert is
    caught and only printed, and none of it touches a field below. *)
Record Args : Type := {
  FTFCU_ROUTENBR : string;
  GL_ACCTNBR : string;
  CASH_BOX_NUMBER : string;
  EFFDATE : string
}.

(** An element of the lists the script builds with mixed contents. *)
Inductive PyVal : Type :=
| VStr (s : string)
| VInt (z : Z).

(** [swim_file_info]: the format strings are the functions [rptFmt] is never
    used and [swimFmt] is [swimFmt_format] below; [achToDnaTc] is
    [achToDnaTc] below. *)
Record SwimFileInfo : Type := {
  effDate : string;
  swimCt : Z;
  extPmtCt : Z;
  glDrAmt : Z;
  glCrAmt : Z;
  extPmtAmt : Z
}.

(** [ScriptData] without the database handles and the configuration.
    [swim_file_info] is [None] while it is the empty dict. *)
Record ScriptData : Type := {
  args : Args;
  newach_data : list (list string);
  all_onus_data : list (list PyVal);
  entry_hash_cnt : Z;
  total_credit : Z;
  total_debit : Z;
  total_record_cnt : Z;
  file_header : string;
  swim_file_info : option SwimFileInfo;
  swm_lines : list string;
  gl_cr_line : string
}.

Definition initialize (a : Args) : ScriptData :=
  {| args := a;
     newach_data := [];
     all_onus_data := [];
     entry_hash_cnt := 0;
     total_credit := 0;
     total_debit := 0;
     total_record_cnt := 0;
     file_header := "";
     swim_file_info := None;
     swm_lines := [];
     gl_cr_line := "" |}.

Definition set_file_header (h : string) (sd : ScriptData) : ScriptData :=
  {| args := args sd;
     newach_data := newach_data sd;
     all_onus_data := all_onus_data sd;
     entry_hash_cnt := entry_hash_cnt sd;
     total_credit := total_credit sd;
     total_debit := total_debit sd;
     total_record_cnt := total_record_cnt sd;
     file_header := h;
     swim_file_info := swim_file_info sd;
     swm_lines := swm_lines sd;
     gl_cr_line := gl_cr_line sd |}.

Definition set_newach_data (d : list (list string)) (sd : ScriptData)
  : ScriptData :=
  {| args := args sd;
     newach_data := d;
     all_onus_data := all_onus_data sd;
     entry_hash_cnt := entry_hash_cnt sd;
     total_credit := total_credit sd;
     total_debit := total_debit sd;
     total_record_cnt := total_record_cnt sd;
     file_header := file_header sd;
     swim_file_info := swim_file_info sd;
     swm_lines := swm_lines sd;
     gl_cr_line := gl_cr_line sd |}.

Definition set_all_onus_data (d : list (list PyVal)) (sd : ScriptData)
  : ScriptData :=
  {| args := args sd;
     newach_data := newach_data sd;
     all_onus_data := d;
     entry_hash_cnt := entry_hash_cnt sd;
     total_credit := total_credit sd;
     total_debit := total_debit sd;
     total_record_cnt := total_record_cnt sd;
     file_header := file_header sd;
     swim_file_info := swim_file_info sd;
     swm_lines := swm_lines sd;
     gl_cr_line := gl_cr_line sd |}.

(** The four run totals, updated together at the end of [rebuild_batch]. *)
Definition add_totals (h c d n : Z) (sd : ScriptData) : ScriptData :=
  {| args := args sd;
     newach_data := newach_data sd;
     all_onus_data := all_onus_data sd;
     entry_hash_cnt := entry_hash_cnt sd + h;
     total_credit := total_credit sd + c;
     total_debit := total_debit sd + d;
     total_record_cnt := total_record_cnt sd + n;
     file_header := file_header sd;
     swim_file_info := swim_file_info sd;
     swm_lines := swm_lines sd;
     gl_cr_line := gl_cr_line sd |}.

Definition set_swim_file_info (i : option SwimFileInfo) (sd : ScriptData)
  : ScriptData :=
  {| args := args sd;
     newach_data := newach_data sd;
     all_onus_data := all_onus_data sd;
     entry_hash_cnt := entry_hash_cnt sd;
     total_credit := total_credit sd;
     total_debit := total_debit sd;
     total_record_cnt := total_record_cnt sd;
     file_header := file_header sd;
     swim_file_info := i;
     swm_lines := swm_lines sd;
     gl_cr_line := gl_cr_line sd |}.

Definition set_swm_lines (l : list string) (sd : ScriptData) : ScriptData :=
  {| args := args sd;
     newach_data := newach_data sd;
     all_onus_data := all_onus_data sd;
     entry_hash_cnt := entry_hash_cnt sd;
     total_credit := total_credit sd;
     total_debit := total_debit sd;
     total_record_cnt := total_record_cnt sd;
     file_header := file_header sd;
     swim_file_info := swim_file_info sd;
     swm_lines := l;
     gl_cr_line := gl_cr_line sd |}.

Definition set_gl_cr_line (l : string) (sd : ScriptData) : ScriptData :=
  {| args := args sd;
     newach_data := newach_data sd;
     all_onus_data := all_onus_data sd;
     entry_hash_cnt := entry_hash_cnt sd;
     total_credit := total_credit sd;
     total_debit := total_debit sd;
     total_record_cnt := total_record_cnt sd;
     file_header := file_header sd;
     swim_file_info := swim_file_info sd;
     swm_lines := swm_lines sd;
     gl_cr_line := l |}.

(** *** [parse_ach_detail_record] *)

Record Detail : Type := {
  rtnbr : string;
  acctnbr : string;
  ach_tc : string;
  amt : Z;
  trace_nbr : string;
  sequence_nbr : string;
  has_addenda : ascii
}.

Definition parse_ach_detail_record (ach_detail_rec : string) : res Detail :=
  let rtnbr := slice 3 12 ach_detail_rec in
  let acctnbr := remove_spaces (slice 12 29 ach_detail_rec) in
  let ach_tc := slice 1 3 ach_detail_rec in
  amt <- int (or_zero (lstrip0 (slice 29 39 ach_detail_rec))) ;;
  let trace_nbr := slice 79 94 ach_detail_rec in
  has_addenda <- index 78 ach_detail_rec ;;
  let sequence_nbr := suffix 7 trace_nbr in
  Ok {| rtnbr := rtnbr; acctnbr := acctnbr; ach_tc := ach_tc; amt := amt;
        trace_nbr := trace_nbr; sequence_nbr := sequence_nbr;
        has_addenda := has_addenda |}.

(** *** [parse_ach_file] *)

(** [re.match(f'^6[23]2{ftfcu_routenbr}', line)].  The route number is
    spliced into the pattern; it is read here as literal text, which is what
    the pattern means for a route number made of digits. *)
Definition onus_match (route line : string) : bool :=
  match line with
  | String c0 (String c1 (String c2 rest)) =>
      (c0 =? "6")%char && ((c1 =? "2")%char || (c1 =? "3")%char) &&
      (c2 =? "2")%char && prefix route rest
  | _ => false
  end.

Fixpoint no_newline (s : string) : bool :=
  match s with
  | EmptyString => true
  | String c r => negb (c =? ascii_of_nat 10)%char && no_newline r
  end.

(** [re.match(r'^705(.+)\d{3}$', line)], giving [group(1)].  The three
    digits are the last three characters ([$] also matches before one final
    newline), so the greedy group is all that lies between ["705"] and them;
    [.] does not match a newline. *)
Definition re_match_705 (line : string) : option string :=
  let body := if endswith nl line then drop_last 1 line else line in
  let n := String.length body in
  let g := slice 3 (n - 3) body in
  if startswith "705" body && (7 <=? n)%nat && all_digits (suffix 3 body)
     && no_newline g
  then Some g
  else None.

(** The local variables of the loop of [parse_ach_file], with the script
    data.  [is_onus] is [0] or a sequence number in the script; both [0] and
    the empty string are false, so [0] is the empty string here. *)
Record PState : Type := {
  p_sd : ScriptData;
  current_batch : list string;
  onus_data : list PyVal;
  is_onus : string
}.

Inductive Ctl : Type :=
| Continue (st : PState)
| Break (st : PState).

Definition ctl_state (c : Ctl) : PState :=
  match c with
  | Continue st => st
  | Break st => st
  end.

(** [onus_data.pop()].  The only non-empty list the loop ever holds ends
    with the raw detail line, a [str]; a popped [int] could not be appended
    to the batch of lines and is an error here. *)
Definition pop_line (l : list PyVal) : res string :=
  match rev l with
  | [] => Raise IndexError
  | VStr s :: _ => Ok s
  | VInt _ :: _ => Raise TypeError
  end.

Definition nonempty {A : Type} (l : list A) : bool :=
  match l with
  | [] => false
  | _ :: _ => true
  end.

(** The flush shared by the branches for ['8'] and ['6']:
    [if is_onus and onus_data: ...]. *)
Definition flush_pending (st : PState) : res PState :=
  if truthy (is_onus st) && nonempty (onus_data st) then
    last_line <- pop_line (onus_data st) ;;
    Ok {| p_sd := p_sd st;
          current_batch := current_batch st ++ [last_line];
          onus_data := [];
          is_onus := "" |}
  else Ok st.

(** The body of the loop for one line of the file. *)
Definition parse_line (st : PState) (raw : string) : res Ctl :=
  let line := strip raw in
  if negb (truthy line) then Ok (Continue st)
  else if startswith "101" line then
    Ok (Continue {| p_sd := set_file_header line (p_sd st);
                    current_batch := current_batch st;
                    onus_data := onus_data st;
                    is_onus := is_onus st |})
  else if startswith "9" line then Ok (Break st)
  else if startswith "8" line then
    if nonempty (current_batch st) then
      st1 <- flush_pending st ;;
      Ok (Continue
            {| p_sd := set_newach_data
                         (newach_data (p_sd st1) ++ [current_batch st1])
                         (p_sd st1);
               current_batch := [];
               onus_data := onus_data st1;
               is_onus := is_onus st1 |})
    else Ok (Continue st)
  else if startswith "5" line then
    Ok (Continue {| p_sd := p_sd st;
                    current_batch := [line];
                    onus_data := onus_data st;
                    is_onus := is_onus st |})
  else if startswith "7" line then
    if negb (truthy (is_onus st)) then
      Ok (Continue {| p_sd := p_sd st;
                      current_batch := current_batch st ++ [line];
                      onus_data := onus_data st;
                      is_onus := is_onus st |})
    else if negb (contains "EXT OAO" line) then
      last_line <- pop_line (onus_data st) ;;
      Ok (Continue {| p_sd := p_sd st;
                      current_batch := current_batch st ++ [last_line; line];
                      onus_data := [];
                      is_onus := "" |})
    else
      match re_match_705 line with
      | Some g =>
          let description := slice 0 128 (strip g) in
          Ok (Continue
                {| p_sd := set_all_onus_data
                             (all_onus_data (p_sd st)
                                ++ [onus_data st ++ [VStr description]])
                             (p_sd st);
                   current_batch := current_batch st;
                   onus_data := [];
                   is_onus := "" |})
      | None => Ok (Continue st)
      end
  else if startswith "6" line then
    st1 <- flush_pending st ;;
    if onus_match (FTFCU_ROUTENBR (args (p_sd st1))) line then
      d <- parse_ach_detail_record line ;;
      Ok (Continue
            {| p_sd := p_sd st1;
               current_batch := current_batch st1;
               onus_data := [VStr (rtnbr d); VStr (acctnbr d);
                             VStr (ach_tc d); VInt (amt d);
                             VStr (trace_nbr d); VStr line];
               is_onus := sequence_nbr d |})
    else
      Ok (Continue {| p_sd := p_sd st1;
                      current_batch := current_batch st1 ++ [line];
                      onus_data := onus_data st1;
                      is_onus := is_onus st1 |})
  else Ok (Continue st).

(** The [for] loop over the lines of the file, left at a [break]. *)
Fixpoint parse_lines (st : PState) (lines : list string) : res PState :=
  match lines with
  | [] => Ok st
  | raw :: rest =>
      c <- parse_line st raw ;;
      match c with
      | Continue st1 => parse_lines st1 rest
      | Break st1 => Ok st1
      end
  end.

(** The same loop over the first lines of the file, telling whether it was
    left at a [break]. *)
Fixpoint parse_lines_ctl (st : PState) (lines : list string) : res Ctl :=
  match lines with
  | [] => Ok (Continue st)
  | raw :: rest =>
      c <- parse_line st raw ;;
      match c with
      | Continue st1 => parse_lines_ctl st1 rest
      | Break st1 => Ok (Break st1)
      end
  end.

Definition parse_start (sd : ScriptData) : PState :=
  {| p_sd := sd; current_batch := []; onus_data := []; is_onus := "" |}.

(** [parse_ach_file] on a file with the given lines.  The script returns
    [False] where this is a [Raise]. *)
Definition parse_ach_file (sd : ScriptData) (achfile : list string)
  : res ScriptData :=
  st <- parse_lines (parse_start sd) achfile ;;
  Ok (p_sd st).

(** *** [rebuild_batch] *)

Local Open Scope Z_scope.

(** The locals of the loop of [rebuild_batch]. *)
Record BatchAcc : Type := {
  entry_hash_total : Z;
  debit_total : Z;
  credit_total : Z;
  batch_record_cnt : Z;
  new_batch : list string
}.

(** One turn of [for line in batch_data[1:]]. *)
Definition rebuild_line (acc : BatchAcc) (line : string) : res BatchAcc :=
  acc1 <-
    (if startswith "6" line then
       d <- parse_ach_detail_record line ;;
       let rtnbr_no_checksum := slice 0 8 (rtnbr d) in
       h <- int rtnbr_no_checksum ;;
       let credit :=
         if endswith "2" (ach_tc d) then credit_total acc + amt d
         else credit_total acc in
       let debit :=
         if endswith "2" (ach_tc d) then debit_total acc
         else if endswith "7" (ach_tc d) then debit_total acc + amt d
         else debit_total acc in
       Ok {| entry_hash_total := entry_hash_total acc + h;
             debit_total := debit;
             credit_total := credit;
             batch_record_cnt := batch_record_cnt acc;
             new_batch := new_batch acc |}
     else Ok acc) ;;
  Ok {| entry_hash_total := entry_hash_total acc1;
        debit_total := debit_total acc1;
        credit_total := credit_total acc1;
        batch_record_cnt := batch_record_cnt acc1 + 1;
        new_batch := new_batch acc1 ++ [line] |}.

Fixpoint rebuild_lines (acc : BatchAcc) (lines : list string)
  : res BatchAcc :=
  match lines with
  | [] => Ok acc
  | line :: rest =>
      acc1 <- rebuild_line acc line ;;
      rebuild_lines acc1 rest
  end.

Definition message_auth_cd : string := repeat_char " " 18.
Definition reserved_batch : string := repeat_char " " 8.

(** The f-string of the batch control record. *)
Definition batch_control_footer
  (service_class_code : string) (total_record_cnt entry_hash : Z)
  (debit_total credit_total : Z) (company_id odfi new_number : string)
  : string :=
  "8" +++ service_class_code +++ fmt_0d 6 total_record_cnt +++
  fmt_0d 10 entry_hash +++ fmt_0d 12 debit_total +++
  fmt_0d 12 credit_total +++ company_id +++ message_auth_cd +++
  reserved_batch +++ odfi +++ new_number.

Definition rebuild_batch (sd : ScriptData) (batch_data : list string)
  (control_nbr : Z) : res (list string * ScriptData) :=
  match batch_data with
  | [] => Ok ([], sd)
  | batch_header :: lines =>
      let service_class_code := slice 1 4 batch_header in
      let company_id := slice 40 49 batch_header in
      let odfi := slice 79 87 batch_header in
      let new_number := fmt_0d 7 control_nbr in
      let batch_header := drop_last 7 batch_header +++ new_number in
      acc <- rebuild_lines
               {| entry_hash_total := 0; debit_total := 0; credit_total := 0;
                  batch_record_cnt := 0; new_batch := [batch_header] |}
               lines ;;
      if (batch_record_cnt acc =? 0)%Z then Ok ([], sd)
      else
        let entry_hash := suffix 10 (str (entry_hash_total acc)) in
        h <- int entry_hash ;;
        let sd1 := add_totals h (credit_total acc) (debit_total acc)
                     (batch_record_cnt acc) sd in
        Ok (new_batch acc
              ++ [batch_control_footer service_class_code
                    (batch_record_cnt acc) h (debit_total acc)
                    (credit_total acc) company_id odfi new_number],
            sd1)
  end.

(** *** [rebuild_file] *)

(** The loop over the batches: the running batch number, the lines so far
    and the script data with its totals. *)
Fixpoint rebuild_batches (sd : ScriptData) (ach_data : list (list string))
  (batch_cnt : Z) (new_ach_file : list string)
  : res (Z * list string * ScriptData) :=
  match ach_data with
  | [] => Ok (batch_cnt, new_ach_file, sd)
  | batch_data :: rest =>
      let batch_cnt1 := (batch_cnt + 1)%Z in
      r <- rebuild_batch sd batch_data batch_cnt1 ;;
      let (batch_file, sd1) := r in
      if nonempty batch_file
      then rebuild_batches sd1 rest batch_cnt1 (new_ach_file ++ batch_file)
      else rebuild_batches sd1 rest (batch_cnt1 - 1)%Z new_ach_file
  end.

Definition extra_row : string := repeat_char "9" 94.
Definition reserved_file : string := repeat_char " " 39.

(** The f-string of the file control record. *)
Definition file_control_footer
  (batch_cnt block_cnt total_record_cnt entry_hash : Z)
  (total_debit total_credit : Z) : string :=
  "9" +++ fmt_0d 6 batch_cnt +++ fmt_0d 6 block_cnt +++
  fmt_0d 8 total_record_cnt +++ fmt_0d 10 entry_hash +++
  fmt_0d 12 total_debit +++ fmt_0d 12 total_credit +++ reserved_file.

Definition rebuild_file (sd : ScriptData)
  : res (list string * ScriptData) :=
  r <- rebuild_batches sd (newach_data sd) 0 [file_header sd] ;;
  let '(batch_cnt, new_ach_file, sd1) := r in
  let entry_hash := suffix 10 (str (entry_hash_cnt sd1)) in
  let line_cnt := (1 + Z.of_nat (List.length new_ach_file))%Z in
  let mod_ := (line_cnt mod 10)%Z in
  let extra_lines := if (mod_ =? 0)%Z then 0%Z else (10 - mod_)%Z in
  let new_count := (line_cnt + extra_lines)%Z in
  let block_cnt := (new_count / 10)%Z in
  h <- int entry_hash ;;
  Ok (new_ach_file
        ++ [file_control_footer batch_cnt block_cnt (total_record_cnt sd1)
              h (total_debit sd1) (total_credit sd1)]
        ++ repeat extra_row (Z.to_nat extra_lines),
      sd1).

(** [write_new_ach_file]: the text written to the output file. *)
Definition write_new_ach_file (sd : ScriptData)
  : res (string * ScriptData) :=
  r <- rebuild_file sd ;;
  let (newfile_data, sd1) := r in
  Ok (join_lines newfile_data, sd1).

(** *** [get_swim_file_info], [create_swim_line], [offset_gl] *)

Definition get_swim_file_info (sd : ScriptData) : ScriptData :=
  set_swim_file_info
    (Some {| effDate := EFFDATE (args sd); swimCt := 0; extPmtCt := 0;
             glDrAmt := 0; glCrAmt := 0; extPmtAmt := 0 |})
    sd.

(** [swim_file_info['achToDnaTc'][tc]], as the pair of its ['osiTC'] and
    its ['desc']. *)
Definition achToDnaTc (tc : PyVal) : res (string * string) :=
  match tc with
  | VStr s =>
      if (s =? "22")%string then Ok ("DEPD", "OAO External Transfer")
      else if (s =? "32")%string then Ok ("DEPD", "OAO External Transfer")
      else Raise KeyError
  | VInt _ => Raise KeyError
  end.

(** A replacement field of type [s], and one of type [d]. *)
Definition fmt_s (f : string -> string) (v : PyVal) : res string :=
  match v with
  | VStr s => Ok (f s)
  | VInt _ => Raise ValueError
  end.

Definition fmt_d (f : Z -> string) (v : PyVal) : res string :=
  match v with
  | VInt z => Ok (f z)
  | VStr _ => Raise ValueError
  end.

(** [swim_file_info['swimFmt'].format(...)], the format string being
    [{:0>17s}{:<4s}{:>010d}{:>06s}{:>8s}{:<45s}{:>15s}{:>10s}{:>4s}{:>4s}{:<4s}{:<4s}{:<4s}{:>10s}{:<4s}{:<4s}{:1s}]. *)
Definition swimFmt_format (a : list PyVal) : res string :=
  match a with
  | [a1; a2; a3; a4; a5; a6; a7; a8; a9; a10; a11; a12; a13; a14; a15; a16;
     a17] =>
      s1 <- fmt_s (pad_left "0" 17) a1 ;;
      s2 <- fmt_s (pad_right " " 4) a2 ;;
      s3 <- fmt_d (fmt_r0d 10) a3 ;;
      s4 <- fmt_s (pad_left "0" 6) a4 ;;
      s5 <- fmt_s (pad_left " " 8) a5 ;;
      s6 <- fmt_s (pad_right " " 45) a6 ;;
      s7 <- fmt_s (pad_left " " 15) a7 ;;
      s8 <- fmt_s (pad_left " " 10) a8 ;;
      s9 <- fmt_s (pad_left " " 4) a9 ;;
      s10 <- fmt_s (pad_left " " 4) a10 ;;
      s11 <- fmt_s (pad_right " " 4) a11 ;;
      s12 <- fmt_s (pad_right " " 4) a12 ;;
      s13 <- fmt_s (pad_right " " 4) a13 ;;
      s14 <- fmt_s (pad_left " " 10) a14 ;;
      s15 <- fmt_s (pad_right " " 4) a15 ;;
      s16 <- fmt_s (pad_right " " 4) a16 ;;
      s17 <- fmt_s (pad_right " " 1) a17 ;;
      Ok (s1 +++ s2 +++ s3 +++ s4 +++ s5 +++ s6 +++ s7 +++ s8 +++ s9 +++
          s10 +++ s11 +++ s12 +++ s13 +++ s14 +++ s15 +++ s16 +++ s17)
  | _ => Raise IndexError
  end.

(** The arguments of [format] that both kinds of line share: everything
    after the account, the code, the amount, and around the description and
    the trace number. *)
Definition swim_args (acct code amount eff desc trace cash_box : PyVal)
  : list PyVal :=
  [acct; code; amount; VStr ""; eff; desc; trace; cash_box;
   VStr ""; VStr ""; VStr "EL"; VStr "INTR"; VStr "IMED";
   VStr ""; VStr ""; VStr ""; VStr ""].

(** [data[i]] *)
Definition item (data : list PyVal) (i : nat) : res PyVal :=
  match nth_error data i with
  | Some v => Ok v
  | None => Raise IndexError
  end.

(** [swim_file_info[key]] for a key set by [get_swim_file_info]. *)
Definition info (sd : ScriptData) : res SwimFileInfo :=
  match swim_file_info sd with
  | Some i => Ok i
  | None => Raise KeyError
  end.

Definition create_swim_line (sd : ScriptData) (data : list PyVal)
  : res string :=
  let cash_box_nbr := CASH_BOX_NUMBER (args sd) in
  amt <- item data 3 ;;
  i <- info sd ;;
  tc <- item data 2 ;;
  m <- achToDnaTc tc ;;
  let (osi_tc, desc) := m in
  acct <- item data 1 ;;
  trace <- item data 4 ;;
  swimFmt_format
    (swim_args acct (VStr osi_tc) amt (VStr (effDate i)) (VStr desc) trace
       (VStr cash_box_nbr)).

Definition offset_gl (sd : ScriptData) : res ScriptData :=
  let cash_box_nbr := CASH_BOX_NUMBER (args sd) in
  let gl_nbr := GL_ACCTNBR (args sd) in
  i <- info sd ;;
  l <- swimFmt_format
         (swim_args (VStr gl_nbr) (VStr "GLD") (VInt (glDrAmt i))
            (VStr (effDate i)) (VStr "DNA ACH GL debit offset") (VStr "")
            (VStr cash_box_nbr)) ;;
  Ok (set_gl_cr_line l sd).

(** *** [loop_through_onus_data_create_swim_file_and_stage_holds] *)

Definition add_glDrAmt (z : Z) (i : SwimFileInfo) : SwimFileInfo :=
  {| effDate := effDate i; swimCt := swimCt i; extPmtCt := extPmtCt i;
     glDrAmt := glDrAmt i + z; glCrAmt := glCrAmt i;
     extPmtAmt := extPmtAmt i |}.

Definition incr_swimCt (i : SwimFileInfo) : SwimFileInfo :=
  {| effDate := effDate i; swimCt := swimCt i + 1; extPmtCt := extPmtCt i;
     glDrAmt := glDrAmt i; glCrAmt := glCrAmt i;
     extPmtAmt := extPmtAmt i |}.

(** [data[3]] where the script computes with it. *)
Definition item_int (data : list PyVal) (i : nat) : res Z :=
  v <- item data i ;;
  match v with
  | VInt z => Ok z
  | VStr _ => Raise TypeError
  end.

(** One turn of [for data in script_data.all_onus_data]. *)
Definition swim_record (sd : ScriptData) (data : list PyVal)
  : res ScriptData :=
  a <- item_int data 3 ;;
  i <- info sd ;;
  let sd1 := set_swim_file_info (Some (add_glDrAmt a i)) sd in
  swim_line <- create_swim_line sd1 data ;;
  let sd2 := set_swm_lines (swm_lines sd1 ++ [swim_line]) sd1 in
  i2 <- info sd2 ;;
  Ok (set_swim_file_info (Some (incr_swimCt i2)) sd2).

Fixpoint swim_records (sd : ScriptData) (datas : list (list PyVal))
  : res ScriptData :=
  match datas with
  | [] => Ok sd
  | data :: rest =>
      sd1 <- swim_record sd data ;;
      swim_records sd1 rest
  end.

(** The text written to the settlement file comes with the script data. *)
Definition loop_through_onus_data_create_swim_file_and_stage_holds
  (sd : ScriptData) : res (string * ScriptData) :=
  sd1 <- swim_records sd (all_onus_data sd) ;;
  sd2 <- offset_gl sd1 ;;
  let sd3 := set_swm_lines (swm_lines sd2 ++ [gl_cr_line sd2]) sd2 in
  Ok (join_lines (swm_lines sd3), sd3).

(** *** [run] *)

(** What a run leaves behind: the two files, when written, and the
    status. *)
Record Outputs : Type := {
  new_ach_file_text : option string;
  swim_file_text : option string;
  status : bool
}.

(** [run], the business date of the holds being found by the database or
    not ([hold_biz_date_found]). *)
Definition run (a : Args) (achfile : list string)
  (hold_biz_date_found : bool) : Outputs :=
  let failed t :=
    {| new_ach_file_text := t; swim_file_text := None; status := false |} in
  match parse_ach_file (initialize a) achfile with
  | Raise _ => failed None
  | Ok sd1 =>
      match write_new_ach_file sd1 with
      | Raise _ => failed None
      | Ok (text, sd2) =>
          let sd3 := get_swim_file_info sd2 in
          if negb hold_biz_date_found then failed (Some text)
          else
            match
              loop_through_onus_data_create_swim_file_and_stage_holds sd3
            with
            | Raise _ => failed (Some text)
            | Ok (swim, _) =>
                {| new_ach_file_text := Some text;
                   swim_file_text := Some swim;
                   status := true |}
            end
      end
  end.

(** *** The routing number validator *)

(** [[int(d) for d in rtnbr]] *)
Fixpoint int_each (s : string) : res (list Z) :=
  match s with
  | EmptyString => Ok []
  | String d r =>
      z <- int (String d EmptyString) ;;
      zs <- int_each r ;;
      Ok (z :: zs)
  end.

(** [digits[i]] *)
Definition item_Z (digits : list Z) (i : nat) : res Z :=
  match nth_error digits i with
  | Some z => Ok z
  | None => Raise IndexError
  end.

Definition validate_routing_number_checksum (rtnbr : string) : res bool :=
  digits <- int_each rtnbr ;;
  d0 <- item_Z digits 0 ;; d1 <- item_Z digits 1 ;; d2 <- item_Z digits 2 ;;
  d3 <- item_Z digits 3 ;; d4 <- item_Z digits 4 ;; d5 <- item_Z digits 5 ;;
  d6 <- item_Z digits 6 ;; d7 <- item_Z digits 7 ;; d8 <- item_Z digits 8 ;;
  let checksum :=
    (d0 * 3 + d1 * 7 + d2 * 1 + d3 * 3 + d4 * 7 + d5 * 1 +
     d6 * 3 + d7 * 7 + d8 * 1) mod 10 in
  Ok (checksum =? 0).

Definition fed_districts : list string :=
  ["01"; "02"; "03"; "04"; "05"; "06"; "07"; "08"; "09"; "10"; "11"; "12";
   "21"; "22"; "23"; "24"; "25"; "26"; "27"; "28"; "29"; "20"; "21"; "22";
   "31"; "32"; "33"; "34"; "35"; "36"; "37"; "38"; "39"; "30"; "31"; "32"].

Definition is_valid_fed_symbol (rtnbr : string) : bool :=
  let fed_district := slice 2 4 rtnbr in
  existsb (fun d => (fed_district =? d)%string) fed_districts.

(** [validate_route_number]: the value returned and the lines printed. *)
Definition validate_route_number (rtnbr : string)
  : res (bool * list string) :=
  if negb (isdigit rtnbr) then
    Ok (false, ["Routing number must be all digits"])
  else if negb (String.length rtnbr =? 9)%nat then
    Ok (false, ["Routing number too short"])
  else if negb (is_valid_fed_symbol rtnbr) then
    Ok (false, ["Invalid fed district"])
  else
    c <- validate_routing_number_checksum rtnbr ;;
    if negb c then Ok (false, ["Invalid checksum"])
    else Ok (true, []).

(** *** The validator on any text

    The same four functions for a routing number that is any [str], given
    as the list of its code points. *)

Module OnText.

(** [[int(d) for d in rtnbr]] *)
Fixpoint int_each (s : text) : res (list Z) :=
  match s with
  | [] => Ok []
  | d :: r =>
      z <- int_point d ;;
      zs <- int_each r ;;
      Ok (z :: zs)
  end.

Definition validate_routing_number_checksum (rtnbr : text) : res bool :=
  digits <- int_each rtnbr ;;
  d0 <- item_Z digits 0 ;; d1 <- item_Z digits 1 ;; d2 <- item_Z digits 2 ;;
  d3 <- item_Z digits 3 ;; d4 <- item_Z digits 4 ;; d5 <- item_Z digits 5 ;;
  d6 <- item_Z digits 6 ;; d7 <- item_Z digits 7 ;; d8 <- item_Z digits 8 ;;
  let checksum :=
    (d0 * 3 + d1 * 7 + d2 * 1 + d3 * 3 + d4 * 7 + d5 * 1 +
     d6 * 3 + d7 * 7 + d8 * 1) mod 10 in
  Ok (checksum =? 0).

Definition is_valid_fed_symbol (rtnbr : text) : bool :=
  let fed_district := slice_text 2 4 rtnbr in
  existsb (fun d => text_eqb fed_district (code_points d)) fed_districts.

(** [validate_route_number]: the value returned and the lines printed. *)
Definition validate_route_number (rtnbr : text)
  : res (bool * list string) :=
  if negb (isdigit_text rtnbr) then
    Ok (false, ["Routing number must be all digits"])
  else if negb (List.length rtnbr =? 9)%nat then
    Ok (false, ["Routing number too short"])
  else if negb (is_valid_fed_symbol rtnbr) then
    Ok (false, ["Invalid fed district"])
  else
    c <- validate_routing_number_checksum rtnbr ;;
    if negb c then Ok (false, ["Invalid checksum"])
    else Ok (true, []).

End OnText.

End Ach.

(** ** The quantities the specification names *)

Module Spec.
Import Py.

Local Open Scope Z_scope.

(** The number a run of decimal digits denotes. *)
Fixpoint digits_value_from (acc : Z) (s : string) : Z :=
  match s with
  | EmptyString => acc
  | String c r => digits_value_from (10 * acc + digit_val c) r
  end.

Definition digits_value (s : string) : Z := digits_value_from 0 s.

(** Fields of an entry detail line, by their positions in the record. *)
Definition is_detail (line : string) : bool := startswith "6" line.
Definition transaction_code (line : string) : string := slice 1 3 line.
Definition routing_number (line : string) : string := slice 3 12 line.
Definition amount (line : string) : Z := digits_value (slice 29 39 line).

(** The first 8 digits of the routing number, as a number. *)
Definition routing8 (line : string) : Z :=
  digits_value (slice 0 8 (routing_number line)).

(** Sum of [f] over the entry detail lines among [lines] that satisfy
    [p]. *)
Fixpoint sum_details (p : string -> bool) (f : string -> Z)
  (lines : list string) : Z :=
  match lines with
  | [] => 0
  | l :: rest =>
      (if is_detail l && p l then f l else 0) + sum_details p f rest
  end.

Definition rightmost10 (z : Z) : Z := z mod 10 ^ 10.

Definition routing_sum (lines : list string) : Z :=
  sum_details (fun _ => true) routing8 lines.

(** Batch control fields, from the kept lines of the batch. *)
Definition entry_hash (lines : list string) : Z :=
  rightmost10 (routing_sum lines).

Definition debit_total (lines : list string) : Z :=
  sum_details (fun l => endswith "7" (transaction_code l)) amount lines.

Definition credit_total (lines : list string) : Z :=
  sum_details (fun l => endswith "2" (transaction_code l)) amount lines.

(** An entry detail line whose numeric fields are filled as the format
    asks: long enough to hold the addenda indicator, digits in the first 8
    places of the routing number and in the amount. *)
Definition detail_ok (line : string) : bool :=
  (79 <=? String.length line)%nat &&
  all_digits (slice 3 11 line) && all_digits (slice 29 39 line).

Definition lines_ok (lines : list string) : bool :=
  forallb (fun l => implb (is_detail l) (detail_ok l)) lines.

(** A batch is kept when a line is left after its header. *)
Definition kept (batch : list string) : bool :=
  match batch with
  | _ :: _ :: _ => true
  | _ => false
  end.

Definition kept_batches (batches : list (list string))
  : list (list string) :=
  filter kept batches.

(** The kept lines of all kept batches, headers left out. *)
Definition all_kept_lines (batches : list (list string)) : list string :=
  flat_map (fun b => tl b) (kept_batches batches).

Definition batches_ok (batches : list (list string)) : bool :=
  forallb (fun b => lines_ok (tl b)) batches.

(** The batch as the reconstruction writes it under the number [n]: the
    header with its last 7 characters replaced by the number, the kept lines,
    and the control record computed from them. *)
Definition rebuilt_batch (n : Z) (batch : list string) : list string :=
  match batch with
  | header :: lines =>
      (drop_last 7 header +++ fmt_0d 7 n) :: lines ++
      [Ach.batch_control_footer (slice 1 4 header)
         (Z.of_nat (List.length lines)) (entry_hash lines)
         (debit_total lines) (credit_total lines)
         (slice 40 49 header) (slice 79 87 header) (fmt_0d 7 n)]
  | [] => []
  end.

(** The kept batches in order, numbered from [n + 1] without a gap. *)
Fixpoint rebuilt_batches (n : Z) (batches : list (list string))
  : list string :=
  match batches with
  | [] => []
  | b :: rest =>
      if kept b then rebuilt_batch (n + 1) b ++ rebuilt_batches (n + 1) rest
      else rebuilt_batches n rest
  end.

Fixpoint sum_Z (l : list Z) : Z :=
  match l with
  | [] => 0
  | z :: rest => z + sum_Z rest
  end.

(** File control fields. *)
Definition batch_count (batches : list (list string)) : Z :=
  Z.of_nat (List.length (kept_batches batches)).

(** Entry and addenda lines of the kept batches: per batch, the lines after
    its header. *)
Definition entry_addenda_count (batches : list (list string)) : Z :=
  sum_Z (map (fun b => Z.of_nat (List.length (tl b))) (kept_batches batches)).

Definition file_entry_hash (batches : list (list string)) : Z :=
  rightmost10 (routing_sum (all_kept_lines batches)).

Definition file_debit_total (batches : list (list string)) : Z :=
  sum_Z (map (fun b => debit_total (tl b)) (kept_batches batches)).

Definition file_credit_total (batches : list (list string)) : Z :=
  sum_Z (map (fun b => credit_total (tl b)) (kept_batches batches)).

(** Lines needed after the file control record to make [n] lines a multiple
    of 10. *)
Definition padding (n : nat) : nat := (10 - n mod 10) mod 10.

(** Every line of the rebuilt batches, their headers and control records
    included. *)
Definition rebuilt_line_count (batches : list (list string)) : Z :=
  Z.of_nat (List.length (rebuilt_batches 0 batches)).

(** The fields of the script data that [rebuild_batches] leaves alone. *)
Definition same_inputs (sd1 sd2 : Ach.ScriptData) : Prop :=
  Ach.args sd1 = Ach.args sd2 /\ Ach.newach_data sd1 = Ach.newach_data sd2 /\
  Ach.all_onus_data sd1 = Ach.all_onus_data sd2 /\
  Ach.file_header sd1 = Ach.file_header sd2 /\
  Ach.swim_file_info sd1 = Ach.swim_file_info sd2 /\
  Ach.swm_lines sd1 = Ach.swm_lines sd2 /\ Ach.gl_cr_line sd1 = Ach.gl_cr_line sd2.

(** The run totals that [rebuild_batch] adds to. *)
Definition same_totals (sd1 sd2 : Ach.ScriptData) : Prop :=
  Ach.entry_hash_cnt sd1 = Ach.entry_hash_cnt sd2 /\
  Ach.total_credit sd1 = Ach.total_credit sd2 /\
  Ach.total_debit sd1 = Ach.total_debit sd2 /\
  Ach.total_record_cnt sd1 = Ach.total_record_cnt sd2.

(** Two results that agree on what they return or raise, up to [R]. *)
Definition res_rel {A : Type} (R : A -> A -> Prop) (m1 m2 : Py.res A)
  : Prop :=
  match m1, m2 with
  | Py.Ok a1, Py.Ok a2 => R a1 a2
  | Py.Raise e1, Py.Raise e2 => e1 = e2
  | _, _ => False
  end.

(** The file control record of a rebuilt file: the line after the header
    and the rebuilt batches. *)
Definition file_control_record (batches : list (list string))
  (out : list string) : option string :=
  nth_error out (1 + List.length (rebuilt_batches 0 batches)).

(** The reading of the record count as the number of all the lines of the
    rebuilt batches: characters 14-21 of the file control record hold that
    number. *)
Definition record_count_is_line_count (sd : Ach.ScriptData) : Prop :=
  forall out sd' r,
    Ach.rebuild_file sd = Ok (out, sd') ->
    file_control_record (Ach.newach_data sd) out = Some r ->
    int (slice 13 21 r) = Ok (rebuilt_line_count (Ach.newach_data sd)).

(** *** On-us records *)

(** A finalized on-us record: route number, account, transaction code 22 or
    32, amount, trace number, raw detail line, description. *)
Definition onus_record_ok (data : list Ach.PyVal) : bool :=
  match data with
  | [Ach.VStr _; Ach.VStr _; Ach.VStr tc; Ach.VInt _; Ach.VStr _; Ach.VStr _;
     Ach.VStr _] => (tc =? "22")%string || (tc =? "32")%string
  | _ => false
  end.

(** A candidate held back: the same without the description, or nothing. *)
Definition pending_ok (data : list Ach.PyVal) : bool :=
  match data with
  | [] => true
  | [Ach.VStr _; Ach.VStr _; Ach.VStr tc; Ach.VInt _; Ach.VStr _; Ach.VStr _]
    => (tc =? "22")%string || (tc =? "32")%string
  | _ => false
  end.

Definition onus_amount (data : list Ach.PyVal) : Z :=
  match nth_error data 3 with
  | Some (Ach.VInt z) => z
  | _ => 0
  end.

(** The payment related information of an addenda line, characters 4-83,
    and the description the specification takes from it. *)
Definition payment_info (addenda : string) : string := slice 3 83 addenda.

Definition description (addenda : string) : string :=
  slice 0 128 (strip (payment_info addenda)).

(** What the parser never touches: the arguments, the run totals and the
    settlement fields. *)
Definition parse_frame (sd1 sd2 : Ach.ScriptData) : Prop :=
  Ach.args sd1 = Ach.args sd2 /\ same_totals sd1 sd2 /\
  Ach.swim_file_info sd1 = Ach.swim_file_info sd2 /\
  Ach.swm_lines sd1 = Ach.swm_lines sd2 /\
  Ach.gl_cr_line sd1 = Ach.gl_cr_line sd2.

(** The state of the parser is sound: the records extracted so far and the
    candidate are well formed, and the flag is set only with a candidate. *)
Definition pstate_ok (st : Ach.PState) : bool :=
  forallb onus_record_ok (Ach.all_onus_data (Ach.p_sd st)) &&
  pending_ok (Ach.onus_data st) &&
  implb (truthy (Ach.is_onus st)) (Ach.nonempty (Ach.onus_data st)).

(** *** Settlement lines *)

(** The settlement line of an on-us record, and the ledger offset line for a
    total: both come from the one formatter. *)
Definition settlement_line (a : Ach.Args) (eff : string)
  (data : list Ach.PyVal) : res string :=
  acct <- Ach.item data 1 ;;
  trace <- Ach.item data 4 ;;
  Ach.swimFmt_format
    (Ach.swim_args acct (Ach.VStr "DEPD") (Ach.VInt (onus_amount data))
       (Ach.VStr eff) (Ach.VStr "OAO External Transfer") trace
       (Ach.VStr (Ach.CASH_BOX_NUMBER a))).

Definition offset_line (a : Ach.Args) (eff : string) (total : Z)
  : res string :=
  Ach.swimFmt_format
    (Ach.swim_args (Ach.VStr (Ach.GL_ACCTNBR a)) (Ach.VStr "GLD")
       (Ach.VInt total) (Ach.VStr eff) (Ach.VStr "DNA ACH GL debit offset")
       (Ach.VStr "") (Ach.VStr (Ach.CASH_BOX_NUMBER a))).

Definition onus_total (datas : list (list Ach.PyVal)) : Z :=
  sum_Z (map onus_amount datas).

(** *** Routing numbers *)

(** Exactly 9 digits. *)
Definition nine_digits (s : string) : bool :=
  (String.length s =? 9)%nat && all_digits s.

(** The [i]-th digit, counted from 1. *)
Definition digit_at (i : nat) (s : string) : Z :=
  match get (i - 1) s with
  | Some c => digit_val c
  | None => 0
  end.

(** Digits 3-4 are a district prefix: 01-12, 20-29 or 30-39. *)
Definition district_ok (s : string) : bool :=
  let d := 10 * digit_at 3 s + digit_at 4 s in
  ((1 <=? d) && (d <=? 12)) || ((20 <=? d) && (d <=? 29)) ||
  ((30 <=? d) && (d <=? 39)).

Definition weighted_sum (s : string) : Z :=
  3 * digit_at 1 s + 7 * digit_at 2 s + 1 * digit_at 3 s +
  3 * digit_at 4 s + 7 * digit_at 5 s + 1 * digit_at 6 s +
  3 * digit_at 7 s + 7 * digit_at 8 s + 1 * digit_at 9 s.

Definition checksum_ok (s : string) : bool := weighted_sum s mod 10 =? 0.

(** *** Routing numbers of any text *)

(** Exactly 9 decimal digits, of any script. *)
Definition nine_decimals (s : text) : bool :=
  (List.length s =? 9)%nat && forallb is_decimal s.

(** The value of the [i]-th digit, counted from 1. *)
Definition value_at (i : nat) (s : text) : Z :=
  match nth_error s (i - 1) with
  | Some c =>
      match decimal c with
      | Some d => d
      | None => 0
      end
  | None => 0
  end.

(** The [i]-th character is an ASCII digit. *)
Definition ascii_digit_at (i : nat) (s : text) : bool :=
  match nth_error s (i - 1) with
  | Some c => (48 <=? c)%N && (c <=? 57)%N
  | None => false
  end.

(** Characters 3-4 are the ASCII digits of a district prefix: 01-12, 20-29
    or 30-39. *)
Definition district_prefix_ok (s : text) : bool :=
  ascii_digit_at 3 s && ascii_digit_at 4 s &&
  let d := 10 * value_at 3 s + value_at 4 s in
  (((1 <=? d) && (d <=? 12)) || ((20 <=? d) && (d <=? 29)) ||
   ((30 <=? d) && (d <=? 39))).

Definition weighted_value_sum (s : text) : Z :=
  3 * value_at 1 s + 7 * value_at 2 s + 1 * value_at 3 s +
  3 * value_at 4 s + 7 * value_at 5 s + 1 * value_at 6 s +
  3 * value_at 7 s + 7 * value_at 8 s + 1 * value_at 9 s.

Definition value_sum_ok (s : text) : bool := weighted_value_sum s mod 10 =? 0.

(** Every character that [str.isdigit] accepts is one that [int] converts:
    no superscript, subscript or circled digit. *)
Definition digits_convert (s : text) : bool :=
  forallb (fun c => implb (is_digit_point c) (is_decimal c)) s.

(** Every character is an ASCII digit. *)
Definition ascii_digits (s : text) : bool :=
  forallb (fun c => (48 <=? c)%N && (c <=? 57)%N) s.

End Spec.

(** ** Sample records

    Lines of 94 characters laid out as the record formats ask, for the
    statements that are made at a concrete file. *)

Module Samples.
Import Ach.

Definition sample_args : Args :=
  {| FTFCU_ROUTENBR := "321180379";
     GL_ACCTNBR := "1234500";
     CASH_BOX_NUMBER := "77";
     EFFDATE := "08112025" |}.

Definition file_header_line : string :=
  "101 061000146 3211803792508110832A094101FRB Atlanta            First Tech Federal Cred        ".

(** Company identification ["1234567890"] at positions 41-50, originating DFI
    ["06100014"] at 80-87. *)
Definition batch_header_line : string :=
  "5220ACME CORP                           1234567890PPDPAYROLL   250811250811   1061000140000007".

(** A credit (22) of 12345 cents to the institution's own route number. *)
Definition onus_detail : string :=
  "622321180379         123456780000012345ID0001         JOHN DOE                1061000140000001".

(** A debit (27) of 50000 cents to another route number. *)
Definition other_detail : string :=
  "627021000021         998877660000050000ID0002         JANE ROE                0061000140000002".

(** A credit (32) of 700 cents to the institution's own route number. *)
Definition onus_detail_2 : string :=
  "632321180379              5550000000700ID0003         MAX MOE                 1061000140000003".

(** An addenda of type 05 with the marker. *)
Definition marker_addenda : string :=
  "705EXT OAO JOHN DOE TRANSFER 001                                                   00010000001".

(** An addenda of type 05 without the marker. *)
Definition plain_addenda : string :=
  "705PAYROLL AUGUST                                                                  00010000003".

(** An addenda of type 10 that carries the marker: it does not start with
    ["705"]. *)
Definition marker_addenda_type_10 : string :=
  "710EXT OAO FOREIGN NAME                                                                0000001".

Definition batch_control_line : string :=
  "822000000400664361130000000500000000000130451234567890                         061000140000007".

Definition file_control_line : string :=
  "9000001000001000000040066436113000000050000000000013045                                       ".

(** A file with one batch and no on-us entry. *)
Definition plain_file : list string :=
  [file_header_line; batch_header_line; other_detail; batch_control_line;
   file_control_line].

(** A file whose on-us credit is followed by the marker addenda of
    type 10. *)
Definition partial_file : list string :=
  [file_header_line; batch_header_line; onus_detail; marker_addenda_type_10;
   other_detail; batch_control_line; file_control_line].

(** A file with an on-us credit that is extracted, a debit, and an on-us
    credit whose addenda lacks the marker. *)
Definition mixed_file : list string :=
  [file_header_line; batch_header_line; onus_detail; marker_addenda;
   other_detail; onus_detail_2; plain_addenda; batch_control_line;
   file_control_line].

(** The file header as the parser stores it, stripped. *)
Definition file_header_text : string :=
  "101 061000146 3211803792508110832A094101FRB Atlanta            First Tech Federal Cred".

(** The kept lines of the batch of [mixed_file]. *)
Definition mixed_kept_lines : list string :=
  [other_detail; onus_detail_2; plain_addenda].

(** Script data as the parser leaves it for [mixed_file]. *)
Definition mixed_parsed : ScriptData :=
  set_all_onus_data
    [[VStr "321180379"; VStr "12345678"; VStr "22"; VInt 12345;
      VStr "061000140000001"; VStr onus_detail;
      VStr (String.append "EXT OAO JOHN DOE TRANSFER 001"
              (String.append (Py.repeat_char " " 51) "00010000"))]]
    (set_newach_data [batch_header_line :: mixed_kept_lines]
       (set_file_header (file_header_text)
          (initialize sample_args))).

(** The state of the parser after the file header, the batch header and the
    on-us credit: the credit is held back. *)
Definition pending_state : PState :=
  {| p_sd := set_file_header (file_header_text)
               (initialize sample_args);
     current_batch := [batch_header_line];
     onus_data := [VStr "321180379"; VStr "12345678"; VStr "22"; VInt 12345;
                   VStr "061000140000001"; VStr onus_detail];
     is_onus := "0000001" |}.

(** A file whose only entry is an on-us credit with the marker addenda. *)
Definition onus_only_file : list string :=
  [file_header_line; batch_header_line; onus_detail; marker_addenda;
   batch_control_line; file_control_line].

(** The on-us credit cut after its discretionary data (78 characters), and
    cut after its addenda indicator (79 characters): with the 15 characters of
    the trace number blank, stripping the line leaves this. *)
Definition short_onus_detail : string :=
  "622321180379         123456780000012345ID0001         JOHN DOE                ".

Definition onus_detail_no_trace : string :=
  "622321180379         123456780000012345ID0001         JOHN DOE                1".

(** The debit cut after the name of the receiver. *)
Definition short_other_detail : string :=
  "627021000021         998877660000050000ID0002         JANE ROE".

End Samples.

(** ** Further notions

    Notions for the properties of the parser, the reconstruction and the
    settlement lines that go beyond the control totals. *)

Module More.
Import Py Ach.

(** The amount field of a detail line as [int] receives it. *)
Definition amount_field (line : string) : string :=
  or_zero (lstrip0 (slice 29 39 line)).

(** The list the parser holds for a detail line whose amount is [z]. *)
Definition candidate_of (line : string) (z : Z) : list PyVal :=
  [VStr (slice 3 12 line); VStr (remove_spaces (slice 12 29 line));
   VStr (slice 1 3 line); VInt z; VStr (slice 79 94 line); VStr line].

(** [line] is a detail line the parser takes as an on-us candidate with the
    amount [z]. *)
Definition from_detail (route line : string) (z : Z) : Prop :=
  onus_match route line = true /\ int (amount_field line) = Ok z /\
  (79 <= String.length line)%nat.

(** An on-us record made from a detail line and from the text that the
    pattern cuts out of an addenda line with the marker. *)
Definition record_of_line (route : string) (data : list PyVal) : Prop :=
  exists line z addenda g,
    data = candidate_of line z ++ [VStr (slice 0 128 (strip g))] /\
    from_detail route line z /\ (80 <= String.length line)%nat /\
    startswith "7" addenda = true /\ contains "EXT OAO" addenda = true /\
    re_match_705 addenda = Some g.

(** Nothing is held back, or a candidate is, with its sequence number as the
    flag. *)
Definition pending_of_line (route : string) (st : PState) : Prop :=
  (onus_data st = [] /\ is_onus st = "") \/
  (exists line z,
     onus_data st = candidate_of line z /\ from_detail route line z /\
     is_onus st = suffix 7 (slice 79 94 line)).

Definition pstate_sound (route : string) (st : PState) : Prop :=
  Forall (record_of_line route) (all_onus_data (p_sd st)) /\
  pending_of_line route st /\ FTFCU_ROUTENBR (args (p_sd st)) = route.

(** A line the loop of the parser passes over: blank once stripped, or of a
    type other than 101, 5, 6, 7, 8 and 9. *)
Definition passed_over (raw : string) : bool :=
  let line := strip raw in
  negb (truthy line) ||
  negb (startswith "101" line || startswith "9" line || startswith "8" line
        || startswith "5" line || startswith "7" line
        || startswith "6" line).

(** Two states of the parser that differ at most in a candidate that the
    flag does not announce. *)
Definition same_but_unannounced (st1 st2 : PState) : Prop :=
  p_sd st1 = p_sd st2 /\ current_batch st1 = current_batch st2 /\
  is_onus st1 = is_onus st2 /\
  (truthy (is_onus st1) = true -> onus_data st1 = onus_data st2).

Definition same_ctl (c1 c2 : Ctl) : Prop :=
  match c1, c2 with
  | Continue st1, Continue st2 => same_but_unannounced st1 st2
  | Break st1, Break st2 => same_but_unannounced st1 st2
  | _, _ => False
  end.

(** The padding lines and the block count for a file whose header and
    batches take [n] lines, as [rebuild_file] computes them. *)
Definition padding_lines (n : nat) : nat :=
  let line_cnt := (1 + Z.of_nat n)%Z in
  let mod_ := (line_cnt mod 10)%Z in
  Z.to_nat (if (mod_ =? 0)%Z then 0%Z else (10 - mod_)%Z).

Definition block_count (n : nat) : Z :=
  ((1 + Z.of_nat n + Z.of_nat (padding_lines n)) / 10)%Z.

(** The sum of the entry hashes of the kept batches, which is what a run adds
    to its running hash. *)
Definition batch_hash_sum (batches : list (list string)) : Z :=
  Spec.sum_Z (map (fun b => Spec.entry_hash (tl b))
                (Spec.kept_batches batches)).

(** The lines [rebuild_file] writes for a header and batches when the run
    totals, after the batches are added, are the given ones. *)
Definition rebuilt_file (header : string) (batches : list (list string))
  (record_cnt hash debit credit : Z) : list string :=
  let body := header :: Spec.rebuilt_batches 0 batches in
  body
  ++ [file_control_footer (Spec.batch_count batches)
        (block_count (List.length body)) record_cnt (Spec.rightmost10 hash)
        debit credit]
  ++ repeat extra_row (padding_lines (List.length body)).

(** The number of places at which two strings differ, a missing character
    counting as a difference. *)
Fixpoint differences (s1 s2 : string) : nat :=
  match s1, s2 with
  | EmptyString, _ => String.length s2
  | _, EmptyString => String.length s1
  | String c1 r1, String c2 r2 =>
      ((if (c1 =? c2)%char then 0 else 1) + differences r1 r2)%nat
  end.

Fixpoint no_space (s : string) : bool :=
  match s with
  | EmptyString => true
  | String c r => negb (c =? " ")%char && no_space r
  end.

End More.

(** ** Facts about the Python primitives *)

Section StringFacts.
Import Py.

Lemma append_assoc (x y z : string) : (x +++ y) +++ z = x +++ y +++ z.
Proof. induction x as [|c x IH]; simpl; [reflexivity | now rewrite IH]. Qed.

Lemma append_empty_r (x : string) : x +++ "" = x.
Proof. induction x as [|c x IH]; simpl; [reflexivity | now rewrite IH]. Qed.

Lemma length_append (x y : string) :
  String.length (x +++ y) = (String.length x + String.length y)%nat.
Proof. induction x as [|c x IH]; simpl; [reflexivity | now rewrite IH]. Qed.

Lemma length_repeat_char (c : ascii) (n : nat) :
  String.length (repeat_char c n) = n.
Proof. induction n as [|n IH]; simpl; [reflexivity | now rewrite IH]. Qed.

Lemma substring_0_0 (s : string) : substring 0 0 s = "".
Proof. destruct s; reflexivity. Qed.

Lemma substring_whole (s : string) (m : nat) :
  (String.length s <= m)%nat -> substring 0 m s = s.
Proof.
  revert m; induction s as [|c s IH]; intros [|m] H; simpl in *;
    try reflexivity; try lia.
  now rewrite IH by lia.
Qed.

Lemma substring_past (s : string) (n m : nat) :
  (String.length s <= n)%nat -> substring n m s = "".
Proof.
  revert n; induction s as [|c s IH]; intros [|n] H; simpl in *;
    try lia.
  - destruct m; reflexivity.
  - reflexivity.
  - apply IH; lia.
Qed.

Lemma substring_head (x y : string) :
  substring 0 (String.length x) (x +++ y) = x.
Proof.
  induction x as [|c x IH]; simpl.
  - apply substring_0_0.
  - now rewrite IH.
Qed.

Lemma substring_skip (x y : string) (n m : nat) :
  substring (String.length x + n) m (x +++ y) = substring n m y.
Proof. induction x as [|c x IH]; simpl; [reflexivity | exact IH]. Qed.

(** A field that follows a prefix of known length. *)
Lemma substring_field (x y z : string) :
  substring (String.length x) (String.length y) (x +++ y +++ z) = y.
Proof.
  replace (String.length x) with (String.length x + 0)%nat by lia.
  rewrite substring_skip. apply substring_head.
Qed.

Lemma length_substring (s : string) (n m : nat) :
  String.length (substring n m s) = Nat.min m (String.length s - n).
Proof.
  revert n m; induction s as [|c s IH]; intros [|n] [|m]; simpl;
    try reflexivity; rewrite ?IH; simpl; lia.
Qed.

Lemma substring_split (s : string) (n : nat) :
  s = substring 0 n s +++ substring n (String.length s - n) s.
Proof.
  revert n; induction s as [|c s IH]; intros [|n]; simpl; try reflexivity.
  - now rewrite substring_whole by lia.
  - now rewrite <- IH.
Qed.

Lemma substring_substring (s : string) (n k m : nat) :
  (m <= k)%nat -> substring 0 m (substring n k s) = substring n m s.
Proof.
  revert n k m; induction s as [|c s IH]; intros n k m H.
  - destruct n, k, m; reflexivity.
  - destruct n as [|n].
    + destruct k as [|k]; destruct m as [|m]; simpl; try reflexivity;
        try lia.
      f_equal. apply (IH 0%nat); lia.
    + simpl. apply IH; exact H.
Qed.

(** [s[-n:]] is what is left once the first [len(s) - n] characters are
    taken away. *)
Lemma suffix_split (s : string) (n : nat) :
  s = substring 0 (String.length s - n) s +++ suffix n s.
Proof.
  unfold suffix.
  rewrite (substring_split s (String.length s - n)) at 1.
  f_equal.
  destruct (Nat.le_gt_cases (String.length s) n) as [H | H].
  - replace (String.length s - n)%nat with 0%nat by lia.
    rewrite Nat.sub_0_r.
    rewrite !substring_whole by lia. reflexivity.
  - f_equal. lia.
Qed.

Lemma length_suffix (s : string) (n : nat) :
  String.length (suffix n s) = Nat.min n (String.length s).
Proof. unfold suffix. rewrite length_substring. lia. Qed.

Lemma get_in_range (s : string) (n : nat) :
  (n < String.length s)%nat -> exists c, get n s = Some c.
Proof.
  revert n; induction s as [|c s IH]; intros [|n] H; simpl in *; try lia.
  - now exists c.
  - apply IH; lia.
Qed.

End StringFacts.

Section DigitFacts.
Import Py Spec.

Local Open Scope Z_scope.

(** What being a digit excludes, and the range of its value. *)
Lemma is_digit_char (c : ascii) :
  is_digit c = true ->
  negb (is_space c) && negb (c =? "+")%char && negb (c =? "-")%char &&
  negb (c =? "_")%char && (0 <=? digit_val c) && (digit_val c <=? 9) &&
  negb (is_space_int c) = true.
Proof.
  destruct c as [[] [] [] [] [] [] [] []]; vm_compute; intros H;
    solve [exact H | reflexivity].
Qed.

Lemma is_digit_not_space (c : ascii) : is_digit c = true -> is_space c = false.
Proof.
  intros H. apply is_digit_char in H.
  destruct (is_space c); [discriminate H | reflexivity].
Qed.

Lemma is_digit_not_space_int (c : ascii) :
  is_digit c = true -> is_space_int c = false.
Proof.
  intros H. apply is_digit_char in H.
  apply andb_prop in H. destruct H as [_ H].
  destruct (is_space_int c); [discriminate H | reflexivity].
Qed.

Lemma digit_val_range (c : ascii) : is_digit c = true -> 0 <= digit_val c <= 9.
Proof.
  intros H. apply is_digit_char in H.
  repeat (apply andb_prop in H; destruct H as [H ?]). lia.
Qed.

Lemma digit_char_spec (d : Z) :
  0 <= d <= 9 -> is_digit (digit_char d) = true /\ digit_val (digit_char d) = d.
Proof.
  intros H.
  assert (E : d = 0 \/ d = 1 \/ d = 2 \/ d = 3 \/ d = 4 \/ d = 5 \/ d = 6 \/
              d = 7 \/ d = 8 \/ d = 9) by lia.
  repeat (destruct E as [E | E]; [subst d; split; reflexivity |]).
  subst d; split; reflexivity.
Qed.

Lemma all_digits_append (x y : string) :
  all_digits (x +++ y) = all_digits x && all_digits y.
Proof.
  induction x as [|c x IH]; simpl; [reflexivity |].
  now rewrite IH, andb_assoc.
Qed.

Lemma digits_value_from_append (acc : Z) (x y : string) :
  digits_value_from acc (x +++ y) =
  digits_value_from (digits_value_from acc x) y.
Proof. revert acc; induction x as [|c x IH]; intros acc; simpl; auto. Qed.

Lemma digits_value_from_shift (acc : Z) (s : string) :
  digits_value_from acc s =
  acc * 10 ^ Z.of_nat (String.length s) + digits_value s.
Proof.
  unfold digits_value. revert acc; induction s as [|c s IH]; intros acc.
  - simpl. lia.
  - cbn [digits_value_from String.length].
    rewrite IH, (IH (10 * 0 + digit_val c)).
    rewrite Nat2Z.inj_succ, Z.pow_succ_r by lia. ring.
Qed.

Lemma digits_value_append (x y : string) :
  digits_value (x +++ y) =
  digits_value x * 10 ^ Z.of_nat (String.length y) + digits_value y.
Proof.
  unfold digits_value at 1. rewrite digits_value_from_append.
  apply digits_value_from_shift.
Qed.

Lemma digits_value_bounds (s : string) :
  all_digits s = true ->
  0 <= digits_value s < 10 ^ Z.of_nat (String.length s).
Proof.
  induction s as [|c s IH]; intros H.
  - cbn. lia.
  - cbn [all_digits] in H. apply andb_prop in H. destruct H as [Hc Hs].
    change (String c s) with (String c "" +++ s).
    rewrite digits_value_append.
    change (digits_value (String c "")) with (10 * 0 + digit_val c).
    specialize (IH Hs). apply digit_val_range in Hc.
    cbn [String.length append]. rewrite Nat2Z.inj_succ, Z.pow_succ_r by lia.
    nia.
Qed.

Lemma digits_value_zeros (n : nat) (s : string) :
  digits_value (repeat_char "0" n +++ s) = digits_value s.
Proof.
  induction n as [|n IH]; [reflexivity |].
  cbn [repeat_char append]. unfold digits_value in *.
  cbn [digits_value_from]. exact IH.
Qed.

Lemma all_digits_zeros (n : nat) : all_digits (repeat_char "0" n) = true.
Proof. induction n as [|n IH]; [reflexivity | exact IH]. Qed.

(** *** [int] on a run of digits *)

Lemma parse_digits_all_digits (s : string) (acc : Z) (prev : bool) :
  all_digits s = true -> s <> "" \/ prev = true ->
  parse_digits s acc prev = Some (digits_value_from acc s).
Proof.
  revert acc prev; induction s as [|c s IH]; intros acc prev H Hne.
  - destruct Hne as [Hne | ->]; [now elim Hne | reflexivity].
  - cbn [all_digits] in H. apply andb_prop in H. destruct H as [Hc Hs].
    cbn [parse_digits digits_value_from]. rewrite Hc.
    apply IH; auto.
Qed.

(** Stripping leaves a run of digits alone, whatever is stripped, as long
    as no digit is. *)
Lemma strip_where_digits (f : ascii -> bool) (s : string) :
  (forall c, is_digit c = true -> f c = false) ->
  all_digits s = true -> rstrip_where f (lstrip_where f s) = s.
Proof.
  intros Hf H.
  assert (E : lstrip_where f s = s).
  { destruct s as [|c s]; [reflexivity |].
    cbn [all_digits] in H. apply andb_prop in H. destruct H as [Hc _].
    cbn [lstrip_where]. now rewrite (Hf c Hc). }
  rewrite E. clear E.
  induction s as [|c s IH]; [reflexivity |].
  cbn [all_digits] in H. apply andb_prop in H. destruct H as [Hc Hs].
  cbn [rstrip_where]. rewrite (Hf c Hc), (IH Hs).
  reflexivity.
Qed.

Lemma rstrip_digits (s : string) :
  all_digits s = true -> rstrip_where is_space s = s.
Proof.
  induction s as [|c s IH]; intros H; [reflexivity |].
  cbn [all_digits] in H. apply andb_prop in H. destruct H as [Hc Hs].
  cbn [rstrip_where]. rewrite (is_digit_not_space c Hc), (IH Hs).
  reflexivity.
Qed.

Lemma strip_digits (s : string) : all_digits s = true -> strip s = s.
Proof.
  intros H. unfold strip.
  exact (strip_where_digits is_space s is_digit_not_space H).
Qed.

Lemma int_digits (s : string) :
  all_digits s = true -> s <> "" -> int s = Ok (digits_value s).
Proof.
  intros H Hne. unfold int.
  rewrite (strip_where_digits is_space_int s is_digit_not_space_int H).
  assert (P : parse_digits s 0 false = Some (digits_value s))
    by (apply parse_digits_all_digits; auto).
  destruct s as [|c s]; [now elim Hne |].
  assert (Hc : is_digit c = true)
    by (cbn [all_digits] in H; apply andb_prop in H; tauto).
  apply is_digit_char in Hc.
  destruct c as [[] [] [] [] [] [] [] []]; try discriminate Hc;
    rewrite P; reflexivity.
Qed.

(** *** [str] of a number that is not negative *)

Lemma digits_fuel_spec (fuel : nat) (n : Z) (acc : string) :
  0 <= n < 2 ^ Z.of_nat fuel -> (0 < fuel)%nat ->
  exists ds, digits_fuel fuel n acc = ds +++ acc /\
             all_digits ds = true /\ ds <> "" /\ digits_value ds = n.
Proof.
  revert n acc; induction fuel as [|f IH]; intros n acc Hn Hf; [lia |].
  cbn [digits_fuel].
  assert (Hm : 0 <= n mod 10 <= 9) by (pose proof (Z.mod_pos_bound n 10); lia).
  destruct (digit_char_spec _ Hm) as [Hd Hv].
  destruct (Z.eqb_spec (n / 10) 0) as [E | E].
  - exists (String (digit_char (n mod 10)) "").
    repeat split.
    + cbn [all_digits]. now rewrite Hd.
    + discriminate.
    + unfold digits_value. cbn [digits_value_from]. rewrite Hv.
      pose proof (Z.div_mod n 10). lia.
  - assert (Hq : 0 <= n / 10 < 2 ^ Z.of_nat f).
    { split; [apply Z.div_pos; lia |].
      apply Z.div_lt_upper_bound; [lia |].
      rewrite Nat2Z.inj_succ, Z.pow_succ_r in Hn by lia. lia. }
    assert (Hf' : (0 < f)%nat).
    { destruct f; [| lia]. cbn in Hq. lia. }
    destruct (IH (n / 10) (String (digit_char (n mod 10)) acc) Hq Hf')
      as (ds & E1 & E2 & E3 & E4).
    exists (ds +++ String (digit_char (n mod 10)) "").
    repeat split.
    + rewrite E1, append_assoc. reflexivity.
    + rewrite all_digits_append, E2. cbn [all_digits]. now rewrite Hd.
    + destruct ds; [now elim E3 | discriminate].
    + rewrite digits_value_append, E4. unfold digits_value.
      cbn [digits_value_from String.length]. rewrite Hv.
      pose proof (Z.div_mod n 10). change (10 ^ Z.of_nat 1) with 10. lia.
Qed.

Lemma str_nonneg_spec (n : Z) :
  0 <= n ->
  all_digits (str_nonneg n) = true /\ str_nonneg n <> "" /\
  digits_value (str_nonneg n) = n.
Proof.
  intros Hn. unfold str_nonneg.
  destruct (digits_fuel_spec (S (Z.to_nat (Z.log2 n))) n "")
    as (ds & E1 & E2 & E3 & E4).
  - split; [exact Hn |].
    rewrite Nat2Z.inj_succ, Z2Nat.id by apply Z.log2_nonneg.
    destruct (Z.eq_dec n 0) as [-> | Hz]; [cbn; lia |].
    apply Z.log2_spec. lia.
  - lia.
  - rewrite E1, append_empty_r. auto.
Qed.

Lemma str_of_nonneg (n : Z) : 0 <= n -> str n = str_nonneg n.
Proof.
  intros H. unfold str. destruct (Z.ltb_spec n 0); [lia | reflexivity].
Qed.

Lemma length_str_nonneg (w : nat) (n : Z) :
  (0 < w)%nat -> 0 <= n < 10 ^ Z.of_nat w ->
  (String.length (str_nonneg n) <= w)%nat.
Proof.
  unfold str_nonneg. generalize (S (Z.to_nat (Z.log2 n))) as fuel.
  intros fuel Hw Hn.
  assert (G : forall fuel n acc w, (0 < fuel)%nat -> (0 < w)%nat ->
              0 <= n < 10 ^ Z.of_nat w ->
              (String.length (digits_fuel fuel n acc)
               <= w + String.length acc)%nat).
  { clear. induction fuel as [|f IH]; intros n acc w Hf Hw Hn; [lia |].
    cbn [digits_fuel]. destruct (Z.eqb_spec (n / 10) 0) as [E | E].
    - cbn [String.length]. lia.
    - destruct w as [|[|w]]; [lia | |].
      + exfalso. apply E. apply Z.div_small. cbn in Hn. lia.
      + destruct f as [|f].
        * cbn [digits_fuel String.length]. lia.
        * specialize (IH (n / 10) (String (digit_char (n mod 10)) acc)
                         (S w)).
          cbn [String.length] in IH.
          assert (0 <= n / 10 < 10 ^ Z.of_nat (S w)).
          { split; [apply Z.div_pos; lia |].
            apply Z.div_lt_upper_bound; [lia |].
            rewrite (Nat2Z.inj_succ (S w)), Z.pow_succ_r in Hn by lia.
            lia. }
          specialize (IH ltac:(lia) ltac:(lia) H). lia. }
  destruct fuel as [|fuel]; [cbn; lia |].
  specialize (G (S fuel) n "" w ltac:(lia) Hw Hn).
  cbn [String.length] in G. lia.
Qed.
End DigitFacts.

Section NumberFacts.
Import Py Spec.

Local Open Scope Z_scope.

Lemma all_digits_suffix (s : string) (k : nat) :
  all_digits s = true -> all_digits (suffix k s) = true.
Proof.
  intros H. rewrite (suffix_split s k), all_digits_append in H.
  apply andb_prop in H. tauto.
Qed.

Lemma digits_value_suffix (s : string) (k : nat) :
  all_digits s = true ->
  digits_value (suffix k s) = digits_value s mod 10 ^ Z.of_nat k.
Proof.
  intros H.
  pose proof (all_digits_suffix s k H) as Hq.
  pose proof (digits_value_bounds _ Hq) as Bq.
  pose proof (length_suffix s k) as Lq.
  rewrite (suffix_split s k) at 2. rewrite digits_value_append.
  destruct (Nat.le_gt_cases (String.length s) k) as [Hk | Hk].
  - replace (String.length s - k)%nat with 0%nat by lia.
    rewrite substring_0_0. cbn [digits_value digits_value_from].
    rewrite Z.mul_0_l, Z.add_0_l. symmetry. apply Z.mod_small.
    split; [lia |].
    apply Z.lt_le_trans with (1 := proj2 Bq).
    apply Z.pow_le_mono_r; lia.
  - rewrite Lq, Nat.min_l in * by lia.
    rewrite Z.add_comm, Z.mod_add by lia.
    symmetry. apply Z.mod_small. lia.
Qed.

(** [int(str(z)[-k:])] keeps the rightmost [k] digits of a [z] that is not
    negative. *)
Lemma int_suffix_str (z : Z) (k : nat) :
  0 <= z -> (0 < k)%nat ->
  int (suffix k (str z)) = Ok (z mod 10 ^ Z.of_nat k).
Proof.
  intros Hz Hk. rewrite str_of_nonneg by exact Hz.
  destruct (str_nonneg_spec z Hz) as (Hd & Hne & Hv).
  rewrite int_digits.
  - now rewrite digits_value_suffix, Hv.
  - now apply all_digits_suffix.
  - intros E. pose proof (length_suffix (str_nonneg z) k) as L.
    rewrite E in L. cbn [String.length] in L.
    destruct (str_nonneg z); [now elim Hne | cbn [String.length] in L; lia].
Qed.

Lemma lstrip0_digits (s : string) :
  all_digits s = true ->
  all_digits (lstrip0 s) = true /\
  digits_value (lstrip0 s) = digits_value s.
Proof.
  unfold lstrip0. induction s as [|c s IH]; intros H; [now split |].
  cbn [lstrip_where]. destruct (Ascii.eqb_spec c "0") as [-> | Hc].
  - cbn [all_digits] in H. apply andb_prop in H. destruct H as [_ Hs].
    destruct (IH Hs) as [I1 I2]. split; [exact I1 |].
    rewrite I2. symmetry. apply (digits_value_zeros 1 s).
  - now split.
Qed.

(** The amount field: [int(field.lstrip('0') or '0')]. *)
Lemma int_amount_field (s : string) :
  all_digits s = true -> int (or_zero (lstrip0 s)) = Ok (digits_value s).
Proof.
  intros H. destruct (lstrip0_digits s H) as [Hd Hv]. unfold or_zero.
  destruct (String.eqb_spec (lstrip0 s) "") as [E | E].
  - rewrite <- Hv, E. reflexivity.
  - rewrite int_digits by assumption. now rewrite Hv.
Qed.

(** *** Zero-padded fields *)

Lemma fmt_0d_nonneg (w : nat) (z : Z) :
  0 <= z -> fmt_0d w z = pad_left "0" w (str_nonneg z).
Proof.
  intros H. unfold fmt_0d. destruct (Z.ltb_spec z 0); [lia | reflexivity].
Qed.

Lemma all_digits_fmt_0d (w : nat) (z : Z) :
  0 <= z -> all_digits (fmt_0d w z) = true.
Proof.
  intros H. rewrite fmt_0d_nonneg by exact H. unfold pad_left.
  rewrite all_digits_append, all_digits_zeros.
  now destruct (str_nonneg_spec z H) as (-> & _).
Qed.

(** A value that fits its field fills it exactly. *)
Lemma length_fmt_0d (w : nat) (z : Z) :
  (0 < w)%nat -> 0 <= z < 10 ^ Z.of_nat w -> String.length (fmt_0d w z) = w.
Proof.
  intros Hw Hz. rewrite fmt_0d_nonneg by lia. unfold pad_left.
  rewrite length_append, length_repeat_char.
  pose proof (length_str_nonneg w z Hw Hz). lia.
Qed.

(** A zero-padded field reads back as the value written. *)
Lemma int_fmt_0d (w : nat) (z : Z) : 0 <= z -> int (fmt_0d w z) = Ok z.
Proof.
  intros H. rewrite int_digits.
  - rewrite fmt_0d_nonneg by exact H. unfold pad_left.
    rewrite digits_value_zeros.
    now destruct (str_nonneg_spec z H) as (_ & _ & ->).
  - now apply all_digits_fmt_0d.
  - rewrite fmt_0d_nonneg by exact H. unfold pad_left.
    destruct (str_nonneg_spec z H) as (_ & Hne & _).
    destruct (repeat_char "0" (w - String.length (str_nonneg z)));
      [exact Hne | discriminate].
Qed.

End NumberFacts.

Section BatchFacts.
Import Py Ach.

Local Open Scope Z_scope.

Lemma endswith_2_not_7 (s : string) :
  endswith "2" s = true -> endswith "7" s = false.
Proof.
  unfold endswith. cbn [String.length]. intros H.
  apply andb_prop in H. destruct H as [_ H].
  apply String.eqb_eq in H. rewrite H. apply andb_false_r.
Qed.

Lemma detail_ok_fields (line : string) :
  Spec.detail_ok line = true ->
  (79 <= String.length line)%nat /\
  all_digits (slice 3 11 line) = true /\
  all_digits (slice 29 39 line) = true.
Proof.
  unfold Spec.detail_ok. intros H.
  apply andb_prop in H. destruct H as [H H3].
  apply andb_prop in H. destruct H as [H1 H2].
  apply Nat.leb_le in H1. auto.
Qed.

(** A well filled entry detail line parses, to the fields at the positions
    the specification gives. *)
Lemma parse_ach_detail_record_ok (line : string) :
  Spec.detail_ok line = true ->
  exists c,
    parse_ach_detail_record line =
    Ok {| rtnbr := Spec.routing_number line;
          acctnbr := remove_spaces (slice 12 29 line);
          ach_tc := Spec.transaction_code line;
          amt := Spec.amount line;
          trace_nbr := slice 79 94 line;
          sequence_nbr := suffix 7 (slice 79 94 line);
          has_addenda := c |}.
Proof.
  intros H. destruct (detail_ok_fields line H) as (Hl & _ & Ha).
  destruct (get_in_range line 78 ltac:(lia)) as [c Hc].
  exists c. unfold parse_ach_detail_record, index.
  rewrite (int_amount_field _ Ha), Hc. reflexivity.
Qed.

Lemma int_routing8 (line : string) :
  Spec.detail_ok line = true ->
  int (slice 0 8 (Spec.routing_number line)) = Ok (Spec.routing8 line) /\
  0 <= Spec.routing8 line.
Proof.
  intros H. destruct (detail_ok_fields line H) as (Hl & Hr & _).
  assert (E : slice 0 8 (Spec.routing_number line) = slice 3 11 line).
  { unfold Spec.routing_number, slice. cbn [Nat.sub].
    apply substring_substring. lia. }
  unfold Spec.routing8. rewrite E. split.
  - apply int_digits; [exact Hr |].
    intros E0. pose proof (length_substring line 3 8) as L.
    unfold slice in E0. cbn [Nat.sub] in E0. rewrite E0 in L.
    cbn [String.length] in L. lia.
  - apply digits_value_bounds. exact Hr.
Qed.

(** Two accumulator records with the same lines agree when their numbers
    do. *)
Ltac acc_eq :=
  cbn [List.length]; rewrite ?Nat2Z.inj_succ; f_equal; f_equal; lia.

(** The accumulators after the loop of [rebuild_batch] over lines that are
    well filled. *)
Lemma rebuild_lines_spec (lines : list string) (acc : BatchAcc) :
  Spec.lines_ok lines = true ->
  rebuild_lines acc lines =
  Ok {| entry_hash_total := entry_hash_total acc + Spec.routing_sum lines;
        debit_total := debit_total acc + Spec.debit_total lines;
        credit_total := credit_total acc + Spec.credit_total lines;
        batch_record_cnt :=
          batch_record_cnt acc + Z.of_nat (List.length lines);
        new_batch := new_batch acc ++ lines |}.
Proof.
  revert acc; induction lines as [|l lines IH]; intros acc H.
  - cbn. rewrite !Z.add_0_r, app_nil_r. now destruct acc.
  - cbn [Spec.lines_ok forallb] in H. apply andb_prop in H.
    destruct H as [Hl Hr].
    cbn [rebuild_lines]. unfold rebuild_line, Spec.is_detail in *.
    unfold Spec.routing_sum, Spec.debit_total, Spec.credit_total.
    cbn [Spec.sum_details]. unfold Spec.is_detail.
    destruct (startswith "6" l) eqn:E6.
    + cbn [implb] in Hl.
      destruct (parse_ach_detail_record_ok l Hl) as [c ->].
      cbn [bind rtnbr].
      destruct (int_routing8 l Hl) as [-> _].
      cbn [bind rtnbr ach_tc amt andb].
      rewrite (IH _ Hr). cbn [entry_hash_total debit_total credit_total
                                batch_record_cnt new_batch].
      unfold Spec.routing_sum, Spec.debit_total, Spec.credit_total.
      rewrite <- app_assoc. cbn [app].
      destruct (endswith "2" (Spec.transaction_code l)) eqn:E2.
      * rewrite (endswith_2_not_7 _ E2). acc_eq.
      * destruct (endswith "7" (Spec.transaction_code l)); acc_eq.
    + cbn [bind andb]. rewrite (IH _ Hr).
      cbn [entry_hash_total debit_total credit_total batch_record_cnt
             new_batch].
      unfold Spec.routing_sum, Spec.debit_total, Spec.credit_total.
      rewrite <- app_assoc. cbn [app]. acc_eq.
Qed.

Lemma routing_sum_nonneg (lines : list string) :
  Spec.lines_ok lines = true -> 0 <= Spec.routing_sum lines.
Proof.
  unfold Spec.routing_sum.
  induction lines as [|l lines IH]; intros H; [cbn; lia |].
  cbn [Spec.lines_ok forallb] in H. apply andb_prop in H.
  destruct H as [Hl Hr]. specialize (IH Hr).
  cbn [Spec.sum_details]. destruct (Spec.is_detail l); cbn [andb implb] in *.
  - destruct (int_routing8 l Hl) as [_ G]. lia.
  - lia.
Qed.

(** [rebuild_batch] on a header followed by well filled lines. *)
Lemma rebuild_batch_spec (sd : ScriptData) (header : string)
  (lines : list string) (n : Z) :
  lines <> [] -> Spec.lines_ok lines = true ->
  rebuild_batch sd (header :: lines) n =
  Ok ((drop_last 7 header +++ fmt_0d 7 n) :: lines ++
        [batch_control_footer (slice 1 4 header)
           (Z.of_nat (List.length lines)) (Spec.entry_hash lines)
           (Spec.debit_total lines) (Spec.credit_total lines)
           (slice 40 49 header) (slice 79 87 header) (fmt_0d 7 n)],
      add_totals (Spec.entry_hash lines) (Spec.credit_total lines)
        (Spec.debit_total lines) (Z.of_nat (List.length lines)) sd).
Proof.
  intros Hne Hok. unfold rebuild_batch.
  rewrite (rebuild_lines_spec lines _ Hok).
  cbn [bind entry_hash_total debit_total credit_total batch_record_cnt
         new_batch].
  rewrite !Z.add_0_l.
  destruct (Z.eqb_spec (Z.of_nat (List.length lines)) 0) as [E | _].
  - destruct lines; [now elim Hne | cbn [List.length] in E; lia].
  - rewrite (int_suffix_str _ 10 (routing_sum_nonneg lines Hok))
      by lia.
    reflexivity.
Qed.

End BatchFacts.

Section FileFacts.
Import Py Ach.

Local Open Scope Z_scope.

Lemma sum_details_app (p : string -> bool) (f : string -> Z)
  (l1 l2 : list string) :
  Spec.sum_details p f (l1 ++ l2) =
  Spec.sum_details p f l1 + Spec.sum_details p f l2.
Proof.
  induction l1 as [|l l1 IH]; cbn [app Spec.sum_details]; [lia |].
  rewrite IH. lia.
Qed.

Lemma rebuild_batch_not_kept (sd : ScriptData) (b : list string) (n : Z) :
  Spec.kept b = false -> rebuild_batch sd b n = Ok ([], sd).
Proof.
  destruct b as [|h [|l lines]]; intros H; try reflexivity.
  discriminate H.
Qed.



(** The loop of [rebuild_file] over batches that are well filled: the count
    of kept batches, their lines, and the run totals. *)
Lemma rebuild_batches_spec (batches : list (list string)) (sd : ScriptData)
  (n : Z) (file : list string) :
  Spec.batches_ok batches = true ->
  exists sd',
    rebuild_batches sd batches n file =
      Ok (n + Spec.batch_count batches,
          file ++ Spec.rebuilt_batches n batches, sd') /\
    Spec.same_inputs sd sd' /\
    entry_hash_cnt sd' =
      entry_hash_cnt sd +
      Spec.sum_Z (map (fun b => Spec.entry_hash (tl b))
                    (Spec.kept_batches batches)) /\
    total_credit sd' = total_credit sd + Spec.file_credit_total batches /\
    total_debit sd' = total_debit sd + Spec.file_debit_total batches /\
    total_record_cnt sd' =
      total_record_cnt sd + Spec.entry_addenda_count batches.
Proof.
  unfold Spec.batch_count, Spec.file_credit_total, Spec.file_debit_total,
    Spec.entry_addenda_count, Spec.kept_batches.
  revert sd n file; induction batches as [|b batches IH]; intros sd n file H.
  - exists sd. cbn. rewrite !Z.add_0_r, app_nil_r.
    repeat split; reflexivity.
  - cbn [Spec.batches_ok forallb] in H. apply andb_prop in H.
    destruct H as [Hb Hr].
    cbn [rebuild_batches filter Spec.rebuilt_batches].
    destruct (Spec.kept b) eqn:K.
    + destruct b as [|header [|l lines]]; try discriminate K.
      cbn [tl] in Hb.
      rewrite (rebuild_batch_spec sd header (l :: lines) (n + 1)
                 ltac:(discriminate) Hb).
      cbn [bind nonempty].
      destruct (IH (add_totals (Spec.entry_hash (l :: lines))
                      (Spec.credit_total (l :: lines))
                      (Spec.debit_total (l :: lines))
                      (Z.of_nat (List.length (l :: lines))) sd)
                  (n + 1)
                  (file ++ Spec.rebuilt_batch (n + 1)
                             (header :: l :: lines)) Hr)
        as (sd' & E & S & H1 & H2 & H3 & H4).
      exists sd'. cbn [Spec.rebuilt_batch] in E |- *.
      rewrite E. cbn [map Spec.sum_Z tl List.length] in *.
      cbn [add_totals entry_hash_cnt total_credit total_debit
             total_record_cnt] in H1, H2, H3, H4.
      rewrite <- app_assoc.
      repeat split; try (apply S); try lia.
      f_equal. f_equal. f_equal. lia.
    + rewrite (rebuild_batch_not_kept sd b (n + 1) K).
      cbn [bind nonempty].
      replace (n + 1 - 1) with n by lia.
      apply IH. exact Hr.
Qed.

(** The run-wide hash, a sum of batch hashes, has the rightmost 10 digits of
    the sum over all the kept lines. *)
Lemma file_hash_of_batch_hashes (batches : list (list string)) :
  Spec.rightmost10
    (Spec.sum_Z (map (fun b => Spec.entry_hash (tl b))
                   (Spec.kept_batches batches))) =
  Spec.file_entry_hash batches.
Proof.
  unfold Spec.file_entry_hash, Spec.all_kept_lines, Spec.rightmost10.
  induction (Spec.kept_batches batches) as [|b bs IH].
  - reflexivity.
  - cbn [map Spec.sum_Z flat_map]. unfold Spec.routing_sum in *.
    rewrite sum_details_app. unfold Spec.entry_hash at 1.
    unfold Spec.rightmost10, Spec.routing_sum.
    rewrite Z.add_mod, IH by lia.
    rewrite Z.mod_mod by lia.
    rewrite <- Z.add_mod by lia. reflexivity.
Qed.

Lemma batch_hashes_nonneg (bs : list (list string)) :
  0 <= Spec.sum_Z (map (fun b => Spec.entry_hash (tl b)) bs).
Proof.
  induction bs as [|b bs IH]; cbn [map Spec.sum_Z]; [lia |].
  unfold Spec.entry_hash at 1, Spec.rightmost10.
  pose proof (Z.mod_pos_bound (Spec.routing_sum (tl b)) (10 ^ 10)). lia.
Qed.

End FileFacts.

Section FileControl.
Import Py Ach.

Local Open Scope Z_scope.

(** The batches are appended to the lines already there. *)
Lemma rebuild_batches_prefix (batches : list (list string))
  (sd : ScriptData) (n : Z) (file : list string)
  (n' : Z) (file' : list string) (sd' : ScriptData) :
  rebuild_batches sd batches n file = Ok (n', file', sd') ->
  exists body, file' = file ++ body.
Proof.
  revert sd n file; induction batches as [|b batches IH]; intros sd n file H.
  - cbn in H. injection H as _ <- _. exists []. now rewrite app_nil_r.
  - cbn [rebuild_batches] in H.
    destruct (rebuild_batch sd b (n + 1)) as [[bf sd1] | e];
      [| discriminate H].
    cbn [bind] in H. destruct (nonempty bf).
    + destruct (IH _ _ _ H) as [body ->]. exists (bf ++ body).
      now rewrite app_assoc.
    + exact (IH _ _ _ H).
Qed.

(** Every batch that is counted adds at least one line. *)
Lemma rebuild_batches_count (batches : list (list string))
  (sd : ScriptData) (n : Z) (file : list string)
  (n' : Z) (file' : list string) (sd' : ScriptData) :
  rebuild_batches sd batches n file = Ok (n', file', sd') ->
  n <= n' /\
  n' - n <= Z.of_nat (List.length file') - Z.of_nat (List.length file).
Proof.
  revert sd n file; induction batches as [|b batches IH]; intros sd n file H.
  - cbn in H. injection H as Hn Hf _. subst n' file'. lia.
  - cbn [rebuild_batches] in H.
    destruct (rebuild_batch sd b (n + 1)) as [[bf sd1] | e];
      [| discriminate H].
    cbn [bind] in H. destruct bf as [|l bf]; cbn [nonempty] in H.
    + apply IH in H. lia.
    + apply IH in H. rewrite length_app in H. cbn [List.length] in H. lia.
Qed.

(** The block arithmetic at the end of [rebuild_file]. *)
Lemma block_arithmetic (len : nat) :
  let line_cnt := 1 + Z.of_nat len in
  let mod_ := line_cnt mod 10 in
  let extra_lines := if mod_ =? 0 then 0 else 10 - mod_ in
  let total := (len + 1 + Z.to_nat extra_lines)%nat in
  0 <= extra_lines <= 9 /\ (total mod 10 = 0)%nat /\
  (line_cnt + extra_lines) / 10 = Z.of_nat (total / 10).
Proof.
  intros line_cnt mod_ extra_lines total.
  assert (Hm : 0 <= mod_ < 10) by (apply Z.mod_pos_bound; lia).
  assert (Hx : 0 <= extra_lines <= 9).
  { subst extra_lines. destruct (Z.eqb_spec mod_ 0); lia. }
  assert (Ht : Z.of_nat total = line_cnt + extra_lines).
  { subst total line_cnt. lia. }
  assert (Hz : (line_cnt + extra_lines) mod 10 = 0).
  { pose proof (Z.div_mod line_cnt 10 ltac:(lia)) as D.
    fold mod_ in D. subst extra_lines.
    destruct (Z.eqb_spec mod_ 0) as [E | E].
    - rewrite Z.add_0_r. exact E.
    - replace (line_cnt + (10 - mod_)) with ((line_cnt / 10 + 1) * 10)
        by lia.
      apply Z.mod_mul. lia. }
  split; [exact Hx |]. split.
  - apply Nat2Z.inj. rewrite Nat2Z.inj_mod, Ht. exact Hz.
  - rewrite Nat2Z.inj_div, Ht. reflexivity.
Qed.

(** What [rebuild_file] returns, whenever it returns: the header, the
    batches, the control record with its block count, and the padding. *)
Lemma rebuild_file_shape (sd : ScriptData) (out : list string)
  (sd' : ScriptData) :
  rebuild_file sd = Ok (out, sd') ->
  exists body bc rc h d c pad,
    out = (file_header sd :: body)
          ++ [file_control_footer bc
                (Z.of_nat (List.length out / 10)) rc h d c]
          ++ repeat extra_row pad /\
    (pad <= 9)%nat /\ (List.length out mod 10 = 0)%nat /\
    0 <= bc <= Z.of_nat (List.length body).
Proof.
  unfold rebuild_file. intros H.
  destruct (rebuild_batches sd (newach_data sd) 0 [file_header sd])
    as [[[bc file] sd1] | e] eqn:E; [| discriminate H].
  cbn [bind] in H.
  pose proof (rebuild_batches_count _ _ _ _ _ _ _ E) as Hbc.
  destruct (rebuild_batches_prefix _ _ _ _ _ _ _ E) as [body ->].
  rewrite length_app in Hbc. cbn [List.length] in Hbc.
  destruct (int (suffix 10 (str (entry_hash_cnt sd1)))) as [h | e];
    [| discriminate H].
  cbn [bind] in H.
  match type of H with
  | Ok (?o, _) = Ok _ => remember o as o' eqn:Eo
  end.
  injection H as Ho Hs. subst out sd'.
  pose proof (block_arithmetic (List.length ([file_header sd] ++ body)))
    as (Hx & Hm & Hb).
  cbv zeta in Hx, Hm, Hb.
  set (extra := if _ =? 0 then 0 else _) in *.
  assert (L : List.length o' =
              (List.length ([file_header sd] ++ body) + 1
               + Z.to_nat extra)%nat).
  { rewrite Eo, !length_app, repeat_length. cbn [List.length]. lia. }
  exists body, bc, (total_record_cnt sd1), h, (total_debit sd1),
    (total_credit sd1), (Z.to_nat extra).
  rewrite L. split; [| split; [lia | split; [exact Hm | lia]]].
  rewrite <- Hb. exact Eo.
Qed.

(** [rebuild_file] from run totals at zero, over batches that are well
    filled. *)
Lemma rebuild_file_spec (sd : ScriptData) :
  Spec.batches_ok (newach_data sd) = true ->
  entry_hash_cnt sd = 0 -> total_credit sd = 0 -> total_debit sd = 0 ->
  total_record_cnt sd = 0 ->
  exists block pad sd',
    rebuild_file sd =
    Ok ((file_header sd :: Spec.rebuilt_batches 0 (newach_data sd))
        ++ [file_control_footer (Spec.batch_count (newach_data sd)) block
              (Spec.entry_addenda_count (newach_data sd))
              (Spec.file_entry_hash (newach_data sd))
              (Spec.file_debit_total (newach_data sd))
              (Spec.file_credit_total (newach_data sd))]
        ++ repeat extra_row pad,
        sd').
Proof.
  intros Hok H1 H2 H3 H4. unfold rebuild_file.
  destruct (rebuild_batches_spec (newach_data sd) sd 0 [file_header sd] Hok)
    as (sd' & E & _ & E1 & E2 & E3 & E4).
  rewrite E. cbn [bind].
  rewrite E1, E2, E3, E4, H1, H2, H3, H4, !Z.add_0_l.
  rewrite (int_suffix_str _ 10 (batch_hashes_nonneg _)) by lia.
  cbn [bind]. change (10 ^ Z.of_nat 10) with (10 ^ 10).
  fold (Spec.rightmost10
          (Spec.sum_Z (map (fun b => Spec.entry_hash (tl b))
                         (Spec.kept_batches (newach_data sd))))).
  rewrite file_hash_of_batch_hashes.
  eexists _, _, sd'. reflexivity.
Qed.

(** *** Running the reconstruction again *)




End FileControl.

Section FileInputs.
Import Py Ach.

Local Open Scope Z_scope.





End FileInputs.

Section ParseFacts.
Import Py Ach.

Lemma pstate_ok_parts (st : PState) :
  Spec.pstate_ok st = true ->
  forallb Spec.onus_record_ok (all_onus_data (p_sd st)) = true /\
  Spec.pending_ok (onus_data st) = true /\
  (truthy (is_onus st) = true -> nonempty (onus_data st) = true).
Proof.
  unfold Spec.pstate_ok. intros H.
  apply andb_prop in H. destruct H as [H H3].
  apply andb_prop in H. destruct H as [H1 H2].
  repeat split; auto.
  intros T. rewrite T in H3. exact H3.
Qed.

Lemma pstate_ok_intro (st : PState) :
  forallb Spec.onus_record_ok (all_onus_data (p_sd st)) = true ->
  Spec.pending_ok (onus_data st) = true ->
  implb (truthy (is_onus st)) (nonempty (onus_data st)) = true ->
  Spec.pstate_ok st = true.
Proof. unfold Spec.pstate_ok. intros -> -> ->. reflexivity. Qed.

Lemma parse_frame_refl (sd : ScriptData) : Spec.parse_frame sd sd.
Proof. repeat split. Qed.

Lemma parse_frame_trans (sd1 sd2 sd3 : ScriptData) :
  Spec.parse_frame sd1 sd2 -> Spec.parse_frame sd2 sd3 ->
  Spec.parse_frame sd1 sd3.
Proof.
  unfold Spec.parse_frame, Spec.same_totals. intuition congruence.
Qed.

(** A candidate that is held back gives its raw line back. *)
Lemma pop_line_pending (data : list PyVal) :
  Spec.pending_ok data = true -> nonempty data = true ->
  exists r a tc z t line,
    data = [VStr r; VStr a; VStr tc; VInt z; VStr t; VStr line] /\
    ((tc =? "22")%string || (tc =? "32")%string) = true /\
    pop_line data = Ok line.
Proof.
  intros H N.
  destruct data as [|[r|] [|[a|] [|[tc|] [|[|z] [|[t|] [|[line|] [|]]]]]]];
    try discriminate H; try discriminate N.
  exists r, a, tc, z, t, line. repeat split. exact H.
Qed.

Lemma flush_pending_inv (st : PState) :
  Spec.pstate_ok st = true ->
  exists st1, flush_pending st = Ok st1 /\ Spec.pstate_ok st1 = true /\
              p_sd st1 = p_sd st.
Proof.
  intros H. destruct (pstate_ok_parts st H) as (H1 & H2 & H3).
  unfold flush_pending.
  destruct (truthy (is_onus st) && nonempty (onus_data st)) eqn:E.
  - apply andb_prop in E. destruct E as [_ N].
    destruct (pop_line_pending _ H2 N) as (r & a & tc & z & t & l & _ & _ & P).
    rewrite P. cbn [bind]. eexists. split; [reflexivity |].
    split; [| reflexivity].
    apply pstate_ok_intro; cbn; auto.
  - exists st. auto.
Qed.

(** The transaction code of a line that matches the on-us pattern. *)
Lemma onus_match_tc (route line : string) :
  onus_match route line = true ->
  ((slice 1 3 line =? "22")%string || (slice 1 3 line =? "32")%string) = true.
Proof.
  unfold onus_match.
  destruct line as [|c0 [|c1 [|c2 rest]]]; try discriminate.
  intros H.
  apply andb_prop in H. destruct H as [H _].
  apply andb_prop in H. destruct H as [H H2].
  apply andb_prop in H. destruct H as [_ H1].
  apply Ascii.eqb_eq in H2. subst c2.
  apply orb_prop in H1. unfold slice. cbn [Nat.sub substring].
  rewrite substring_0_0.
  destruct H1 as [H1 | H1]; apply Ascii.eqb_eq in H1; subst c1; reflexivity.
Qed.

Lemma parse_ach_detail_record_tc (line : string) (d : Detail) :
  parse_ach_detail_record line = Ok d -> ach_tc d = slice 1 3 line.
Proof.
  unfold parse_ach_detail_record.
  destruct (int _) as [z | e]; [| discriminate].
  cbn [bind]. destruct (index 78 line) as [c | e]; [| discriminate].
  cbn [bind]. intros H. injection H as Hd. now subst d.
Qed.

(** One line keeps the state of the parser sound and leaves alone what the
    parser does not own. *)
Lemma parse_line_inv (st : PState) (raw : string) (c : Ctl) :
  Spec.pstate_ok st = true -> parse_line st raw = Ok c ->
  Spec.pstate_ok (ctl_state c) = true /\
  Spec.parse_frame (p_sd st) (p_sd (ctl_state c)).
Proof.
  intros H. destruct (pstate_ok_parts st H) as (H1 & H2 & H3).
  unfold parse_line.
  destruct (negb (truthy (strip raw)));
    [intros E; injection E as E; subst c; split;
     [exact H | apply parse_frame_refl] |].
  destruct (startswith "101" (strip raw)).
  { intros E; injection E as E; subst c. split.
    - apply pstate_ok_intro; cbn; auto.
      destruct (truthy (is_onus st)); cbn; auto.
    - repeat split. }
  destruct (startswith "9" (strip raw));
    [intros E; injection E as E; subst c; split;
     [exact H | apply parse_frame_refl] |].
  destruct (startswith "8" (strip raw)).
  { destruct (nonempty (current_batch st)).
    - destruct (flush_pending_inv st H) as (st1 & -> & K & Es).
      cbn [bind]. intros E; injection E as E; subst c.
      destruct (pstate_ok_parts st1 K) as (K1 & K2 & K3).
      split.
      + apply pstate_ok_intro; cbn; auto.
        destruct (truthy (is_onus st1)); cbn; auto.
      + cbn. rewrite Es. repeat split.
    - intros E; injection E as E; subst c. split;
        [exact H | apply parse_frame_refl]. }
  destruct (startswith "5" (strip raw)).
  { intros E; injection E as E; subst c. split.
    - apply pstate_ok_intro; cbn; auto.
      destruct (truthy (is_onus st)); cbn; auto.
    - repeat split. }
  destruct (startswith "7" (strip raw)).
  { destruct (truthy (is_onus st)) eqn:T; cbn [negb].
    - specialize (H3 eq_refl).
      destruct (pop_line_pending _ H2 H3)
        as (r & a & tc & z & t & l & Ed & Etc & P).
      destruct (negb (contains "EXT OAO" (strip raw))).
      + rewrite P. cbn [bind]. intros E; injection E as E; subst c. split.
        * apply pstate_ok_intro; cbn; auto.
        * repeat split.
      + destruct (re_match_705 (strip raw)) as [g |].
        * intros E; injection E as E; subst c. split.
          -- apply pstate_ok_intro; cbn; auto.
             rewrite forallb_app, H1, Ed. cbn. now rewrite Etc.
          -- repeat split.
        * intros E; injection E as E; subst c. split;
            [exact H | apply parse_frame_refl].
    - intros E; injection E as E; subst c. split.
      + apply pstate_ok_intro; cbn; auto. now rewrite T.
      + repeat split. }
  destruct (startswith "6" (strip raw)).
  { destruct (flush_pending_inv st H) as (st1 & -> & K & Es).
    cbn [bind]. destruct (pstate_ok_parts st1 K) as (K1 & K2 & K3).
    destruct (onus_match _ (strip raw)) eqn:M.
    - destruct (parse_ach_detail_record (strip raw)) as [d | e] eqn:P;
        [| discriminate].
      cbn [bind]. intros E; injection E as E; subst c. split.
      + apply pstate_ok_intro; cbn; auto.
        * rewrite (parse_ach_detail_record_tc _ _ P).
          exact (onus_match_tc _ _ M).
        * destruct (truthy (sequence_nbr d)); reflexivity.
      + cbn. rewrite Es. apply parse_frame_refl.
    - intros E; injection E as E; subst c. split.
      + apply pstate_ok_intro; cbn; auto.
        destruct (truthy (is_onus st1)); cbn; auto.
      + cbn. rewrite Es. apply parse_frame_refl. }
  intros E; injection E as E; subst c. split;
    [exact H | apply parse_frame_refl].
Qed.

Lemma parse_lines_inv (lines : list string) (st st' : PState) :
  Spec.pstate_ok st = true -> parse_lines st lines = Ok st' ->
  Spec.pstate_ok st' = true /\ Spec.parse_frame (p_sd st) (p_sd st').
Proof.
  revert st; induction lines as [|raw lines IH]; intros st H E.
  - cbn in E. injection E as E. subst st'. split;
      [exact H | apply parse_frame_refl].
  - cbn [parse_lines] in E.
    destruct (parse_line st raw) as [c | e] eqn:P; [| discriminate E].
    cbn [bind] in E. destruct (parse_line_inv st raw c H P) as [K F].
    destruct c as [st1 | st1]; cbn [ctl_state] in K, F.
    + destruct (IH st1 K E) as [K' F']. split; [exact K' |].
      exact (parse_frame_trans _ _ _ F F').
    + injection E as E. subst st'. auto.
Qed.

(** After [parse_ach_file], from script data without on-us records: every
    on-us record is well formed, and the rest of the script data is as it
    was. *)
Lemma parse_ach_file_inv (sd sd' : ScriptData) (achfile : list string) :
  all_onus_data sd = [] -> parse_ach_file sd achfile = Ok sd' ->
  forallb Spec.onus_record_ok (all_onus_data sd') = true /\
  Spec.parse_frame sd sd'.
Proof.
  intros H0. unfold parse_ach_file.
  destruct (parse_lines (parse_start sd) achfile) as [st | e] eqn:P;
    [| discriminate].
  cbn [bind]. intros E; injection E as E; subst sd'.
  assert (K : Spec.pstate_ok (parse_start sd) = true).
  { apply pstate_ok_intro; cbn; auto. now rewrite H0. }
  destruct (parse_lines_inv _ _ _ K P) as [K' F]. split; [| exact F].
  now destruct (pstate_ok_parts st K').
Qed.

(** *** Addenda lines *)

Lemma startswith_7 (line : string) :
  startswith "7" line = true -> exists r, line = String "7" r.
Proof.
  destruct line as [|c r]; [discriminate |].
  unfold startswith. cbn [prefix].
  destruct (ascii_dec "7" c) as [<- | _]; [| discriminate].
  intros _. now exists r.
Qed.

Lemma startswith_head_neq (a b : ascii) (p r : string) :
  a <> b -> startswith (String a p) (String b r) = false.
Proof.
  intros N. unfold startswith. cbn [prefix].
  destruct (ascii_dec a b) as [E | _]; [now elim N | reflexivity].
Qed.

(** A line of type 7 reaches the addenda branch of the loop. *)
Lemma parse_line_addenda (st : PState) (raw : string) :
  startswith "7" (strip raw) = true ->
  parse_line st raw =
  (let line := strip raw in
   if negb (truthy (is_onus st)) then
     Ok (Continue {| p_sd := p_sd st;
                     current_batch := current_batch st ++ [line];
                     onus_data := onus_data st;
                     is_onus := is_onus st |})
   else if negb (contains "EXT OAO" line) then
     last_line <- pop_line (onus_data st) ;;
     Ok (Continue {| p_sd := p_sd st;
                     current_batch := current_batch st ++ [last_line; line];
                     onus_data := [];
                     is_onus := "" |})
   else
     match re_match_705 line with
     | Some g =>
         Ok (Continue
               {| p_sd := set_all_onus_data
                            (all_onus_data (p_sd st)
                               ++ [onus_data st
                                     ++ [VStr (slice 0 128 (strip g))]])
                            (p_sd st);
                  current_batch := current_batch st;
                  onus_data := [];
                  is_onus := "" |})
     | None => Ok (Continue st)
     end).
Proof.
  intros H. unfold parse_line.
  destruct (startswith_7 _ H) as [r E]. cbv zeta.
  assert (T : truthy (strip raw) = true) by (rewrite E; reflexivity).
  assert (N : forall a p, a <> "7"%char ->
              startswith (String a p) (strip raw) = false)
    by (intros a p Ha; rewrite E; now apply startswith_head_neq).
  rewrite T, !N, H by discriminate. reflexivity.
Qed.

(** With a candidate pending, an addenda line that carries the marker and
    does not have the shape of the pattern changes nothing. *)
Lemma parse_line_marker_no_match (st : PState) (raw : string) :
  truthy (is_onus st) = true ->
  startswith "7" (strip raw) = true ->
  contains "EXT OAO" (strip raw) = true ->
  re_match_705 (strip raw) = None ->
  parse_line st raw = Ok (Continue st).
Proof.
  intros T H7 M R. rewrite (parse_line_addenda st raw H7).
  cbv zeta. rewrite T, M, R. reflexivity.
Qed.

Lemma parse_lines_app (l1 l2 : list string) (st : PState) :
  parse_lines st (l1 ++ l2) =
  match parse_lines_ctl st l1 with
  | Ok (Continue st1) => parse_lines st1 l2
  | Ok (Break st1) => Ok st1
  | Raise e => Raise e
  end.
Proof.
  revert st; induction l1 as [|raw l1 IH]; intros st; [reflexivity |].
  cbn [app parse_lines parse_lines_ctl].
  destruct (parse_line st raw) as [[st1 | st1] | e]; cbn [bind];
    [apply IH | reflexivity | reflexivity].
Qed.

End ParseFacts.

Section SwimFacts.
Import Py Ach.

Local Open Scope Z_scope.

Lemma onus_record_shape (data : list PyVal) :
  Spec.onus_record_ok data = true ->
  exists r a tc z t line d,
    data = [VStr r; VStr a; VStr tc; VInt z; VStr t; VStr line; VStr d] /\
    (tc = "22" \/ tc = "32")%string.
Proof.
  intros H.
  destruct data
    as [|[r|] [|[a|] [|[tc|] [|[|z] [|[t|] [|[line|] [|[d|] [|]]]]]]]];
    try discriminate H.
  exists r, a, tc, z, t, line, d. split; [reflexivity |].
  cbn in H. apply orb_prop in H.
  destruct H as [H | H]; apply String.eqb_eq in H; auto.
Qed.

(** The formatter does not fail on text fields and a number. *)
Lemma swimFmt_format_total (acct code : string) (amount : Z)
  (eff desc trace cash : string) :
  exists line,
    swimFmt_format
      (swim_args (VStr acct) (VStr code) (VInt amount) (VStr eff) (VStr desc)
         (VStr trace) (VStr cash)) = Ok line.
Proof. eexists. reflexivity. Qed.

(** One on-us record: its line goes to the end of the settlement lines and
    its amount to the running total. *)
Lemma swim_record_spec (sd : ScriptData) (i : SwimFileInfo)
  (data : list PyVal) :
  swim_file_info sd = Some i -> Spec.onus_record_ok data = true ->
  exists line i',
    swim_record sd data =
      Ok (set_swim_file_info (Some i')
            (set_swm_lines (swm_lines sd ++ [line]) sd)) /\
    Spec.settlement_line (args sd) (effDate i) data = Ok line /\
    effDate i' = effDate i /\
    glDrAmt i' = glDrAmt i + Spec.onus_amount data.
Proof.
  intros Hi Hd.
  destruct (onus_record_shape data Hd)
    as (r & a & tc & z & t & l & d & -> & Htc).
  unfold swim_record, create_swim_line, info, Spec.settlement_line.
  cbn [item_int item nth_error bind]. rewrite Hi.
  cbn [bind set_swim_file_info swim_file_info args].
  assert (T : achToDnaTc (VStr tc) = Ok ("DEPD", "OAO External Transfer"))
    by (destruct Htc; subst tc; reflexivity).
  rewrite T. cbn [bind add_glDrAmt effDate].
  destruct (swimFmt_format_total a "DEPD" z (effDate i)
              "OAO External Transfer" t (CASH_BOX_NUMBER (args sd)))
    as [line E].
  unfold Spec.onus_amount. cbn [nth_error].
  rewrite E. cbn [bind set_swm_lines swim_file_info].
  exists line. eexists. split; [reflexivity |].
  split; [reflexivity |]. split; reflexivity.
Qed.

(** The loop over the on-us records. *)
Lemma swim_records_spec (datas : list (list PyVal)) (sd : ScriptData)
  (i : SwimFileInfo) :
  swim_file_info sd = Some i ->
  forallb Spec.onus_record_ok datas = true ->
  exists lines i' sd',
    swim_records sd datas = Ok sd' /\
    swm_lines sd' = swm_lines sd ++ lines /\
    Forall2 (fun data line =>
               Spec.settlement_line (args sd) (effDate i) data = Ok line)
      datas lines /\
    swim_file_info sd' = Some i' /\ effDate i' = effDate i /\
    glDrAmt i' = glDrAmt i + Spec.onus_total datas /\
    args sd' = args sd.
Proof.
  revert sd i; induction datas as [|data datas IH]; intros sd i Hi Hd.
  - exists [], i, sd. cbn. rewrite app_nil_r, Z.add_0_r.
    repeat split; auto.
  - cbn [forallb] in Hd. apply andb_prop in Hd. destruct Hd as [Hd Hr].
    destruct (swim_record_spec sd i data Hi Hd)
      as (line & i1 & E & L & E1 & E2).
    cbn [swim_records]. rewrite E. cbn [bind].
    destruct (IH (set_swim_file_info (Some i1)
                    (set_swm_lines (swm_lines sd ++ [line]) sd))
                i1 eq_refl Hr)
      as (lines & i' & sd' & E' & S & F & I & E3 & E4 & A).
    exists (line :: lines), i', sd'.
    cbn [set_swim_file_info set_swm_lines swm_lines args] in S, F, A.
    rewrite E1 in F, E3.
    repeat split; auto.
    + rewrite S, <- app_assoc. reflexivity.
    + rewrite E4, E2. unfold Spec.onus_total. cbn [map Spec.sum_Z]. lia.
Qed.

(** The whole settlement stage, from settlement fields that
    [get_swim_file_info] has just set and no line written yet. *)
Lemma settlement_stage_spec (sd : ScriptData) :
  swm_lines sd = [] ->
  forallb Spec.onus_record_ok (all_onus_data sd) = true ->
  exists lines offset sd',
    loop_through_onus_data_create_swim_file_and_stage_holds
      (get_swim_file_info sd) =
      Ok (join_lines (lines ++ [offset]), sd') /\
    swm_lines sd' = lines ++ [offset] /\
    Forall2 (fun data line =>
               Spec.settlement_line (args sd) (EFFDATE (args sd)) data
               = Ok line)
      (all_onus_data sd) lines /\
    Spec.offset_line (args sd) (EFFDATE (args sd))
      (Spec.onus_total (all_onus_data sd)) = Ok offset.
Proof.
  intros Hl Hd.
  unfold loop_through_onus_data_create_swim_file_and_stage_holds.
  destruct (swim_records_spec (all_onus_data sd) (get_swim_file_info sd)
              {| effDate := EFFDATE (args sd); swimCt := 0; extPmtCt := 0;
                 glDrAmt := 0; glCrAmt := 0; extPmtAmt := 0 |} eq_refl Hd)
    as (lines & i' & sd1 & E & S & F & I & E1 & E2 & A).
  cbn [get_swim_file_info set_swim_file_info all_onus_data swm_lines args
         effDate glDrAmt] in *.
  rewrite E. cbn [bind]. unfold offset_gl, info. rewrite I. cbn [bind].
  rewrite Hl in S. cbn [app] in S.
  rewrite Z.add_0_l in E2.
  destruct (swimFmt_format_total (GL_ACCTNBR (args sd1)) "GLD" (glDrAmt i')
              (effDate i') "DNA ACH GL debit offset" ""
              (CASH_BOX_NUMBER (args sd1))) as [offset O].
  rewrite O. cbn [bind set_gl_cr_line swm_lines gl_cr_line set_swm_lines].
  exists lines, offset. eexists. rewrite S.
  split; [reflexivity |]. split; [reflexivity |]. split; [exact F |].
  unfold Spec.offset_line. rewrite A, E1, E2 in O. exact O.
Qed.

End SwimFacts.

Section ValidatorFacts.
Import Py Ach.

Local Open Scope Z_scope.

Lemma is_digit_cases (c : ascii) :
  is_digit c = true ->
  In c ["0"; "1"; "2"; "3"; "4"; "5"; "6"; "7"; "8"; "9"]%char.
Proof.
  destruct c as [[] [] [] [] [] [] [] []]; intros H;
    try discriminate H; cbn; tauto.
Qed.

Lemma int_digit_char (c : ascii) :
  is_digit c = true -> int (String c "") = Ok (digit_val c).
Proof.
  intros H. rewrite int_digits.
  - unfold Spec.digits_value. cbn [Spec.digits_value_from]. f_equal; lia.
  - cbn [all_digits]. now rewrite H.
  - discriminate.
Qed.

(** A string of exactly 9 digits, taken apart. *)
Lemma nine_digits_shape (s : string) :
  Spec.nine_digits s = true ->
  exists c1 c2 c3 c4 c5 c6 c7 c8 c9,
    s = String c1 (String c2 (String c3 (String c4 (String c5 (String c6
          (String c7 (String c8 (String c9 "")))))))) /\
    is_digit c1 = true /\ is_digit c2 = true /\ is_digit c3 = true /\
    is_digit c4 = true /\ is_digit c5 = true /\ is_digit c6 = true /\
    is_digit c7 = true /\ is_digit c8 = true /\ is_digit c9 = true.
Proof.
  unfold Spec.nine_digits. intros H.
  apply andb_prop in H. destruct H as [L D]. apply Nat.eqb_eq in L.
  destruct s as [|c1 [|c2 [|c3 [|c4 [|c5 [|c6 [|c7 [|c8 [|c9 [|]]]]]]]]]];
    try discriminate L.
  exists c1, c2, c3, c4, c5, c6, c7, c8, c9. split; [reflexivity |].
  cbn [all_digits] in D.
  repeat (apply andb_prop in D; destruct D as [? D]). auto 12.
Qed.

(** The membership test in the list of districts is the range test of the
    specification. *)
Lemma is_valid_fed_symbol_spec (s : string) :
  Spec.nine_digits s = true -> is_valid_fed_symbol s = Spec.district_ok s.
Proof.
  intros H.
  destruct (nine_digits_shape s H)
    as (c1 & c2 & c3 & c4 & c5 & c6 & c7 & c8 & c9 & -> & _ & _ & D3 & D4
        & _).
  apply is_digit_cases in D3, D4. cbn [In] in D3, D4.
  unfold is_valid_fed_symbol, Spec.district_ok, Spec.digit_at, slice.
  cbn [Nat.sub get substring].
  repeat (destruct D3 as [<- | D3]; [
    repeat (destruct D4 as [<- | D4]; [reflexivity |]); contradiction |]).
  contradiction.
Qed.

Lemma validate_routing_number_checksum_spec (s : string) :
  Spec.nine_digits s = true ->
  validate_routing_number_checksum s = Ok (Spec.checksum_ok s).
Proof.
  intros H.
  destruct (nine_digits_shape s H)
    as (c1 & c2 & c3 & c4 & c5 & c6 & c7 & c8 & c9 & -> & D1 & D2 & D3 & D4
        & D5 & D6 & D7 & D8 & D9).
  unfold validate_routing_number_checksum. cbn [int_each].
  rewrite !int_digit_char by assumption.
  cbn [bind item_Z nth_error].
  unfold Spec.checksum_ok, Spec.weighted_sum, Spec.digit_at.
  cbn [Nat.sub get]. do 2 f_equal. f_equal. ring.
Qed.

End ValidatorFacts.

(** ** The validator on any text *)

Section TextValidatorFacts.
Import Py Ach.

Local Open Scope Z_scope.

(** The value of a decimal digit is a digit. *)
Lemma decimal_range (c : N) (d : Z) : decimal c = Some d -> 0 <= d <= 9.
Proof.
  unfold decimal.
  destruct (find _ decimal_zeros) as [z |] eqn:F; [| discriminate].
  intros H. injection H as <-.
  apply find_some in F. destruct F as [_ F].
  apply andb_prop in F. destruct F as [F1 F2].
  apply N.leb_le in F1. apply N.ltb_lt in F2. lia.
Qed.

Lemma is_decimal_value (c : N) :
  is_decimal c = true -> exists d, decimal c = Some d /\ 0 <= d <= 9.
Proof.
  unfold is_decimal. destruct (decimal c) as [d |] eqn:D; [| discriminate].
  intros _. exists d. split; [reflexivity |]. exact (decimal_range c d D).
Qed.

(** An ASCII digit is a decimal digit, with its value. *)
Lemma decimal_ascii_digit (c : N) :
  (48 <=? c)%N && (c <=? 57)%N = true -> decimal c = Some (Z.of_N c - 48).
Proof.
  intros H. apply andb_prop in H. destruct H as [H1 H2].
  apply N.leb_le in H1. apply N.leb_le in H2.
  unfold decimal, decimal_zeros. cbn [find].
  replace (48 <=? c)%N with true by (symmetry; apply N.leb_le; lia).
  replace (c <? 48 + 10)%N with true by (symmetry; apply N.ltb_lt; lia).
  cbn [andb]. f_equal. lia.
Qed.

(** What [str.isdigit] says of a text whose digits all convert. *)
Lemma isdigit_text_decimals (s : text) :
  Spec.digits_convert s = true ->
  isdigit_text s = negb (Nat.eqb (List.length s) 0) && forallb is_decimal s.
Proof.
  intros H. unfold isdigit_text.
  destruct s as [|c s]; [reflexivity |].
  cbn [List.length Nat.eqb negb andb].
  revert H. generalize (c :: s). clear c s. intros s.
  induction s as [|c s IH]; intros H; [reflexivity |].
  cbn [Spec.digits_convert forallb] in H |- *.
  apply andb_prop in H. destruct H as [Hc Hs].
  rewrite (IH Hs). f_equal.
  unfold is_digit_point in *. destruct (is_decimal c); [reflexivity |].
  cbn [orb] in *. destruct (existsb _ other_digits); [discriminate Hc |].
  reflexivity.
Qed.

(** A text that [str.isdigit] refuses is not made of decimal digits. *)
Lemma not_isdigit_text (s : text) :
  isdigit_text s = false -> Spec.nine_decimals s = false.
Proof.
  unfold Spec.nine_decimals, isdigit_text.
  destruct s as [|c s]; [reflexivity |].
  generalize (c :: s). clear c s. intros s H.
  assert (D : forallb is_decimal s = false).
  { induction s as [|c s IH]; [discriminate H |].
    cbn [forallb] in H |- *. unfold is_digit_point in H.
    destruct (is_decimal c); [| reflexivity].
    cbn [orb andb] in H |- *. exact (IH H). }
  rewrite D. apply andb_false_r.
Qed.

(** [int] converts a text of decimal digits into their values. *)
Lemma int_each_decimals (s : text) :
  forallb is_decimal s = true ->
  OnText.int_each s =
  Ok (map (fun c => match decimal c with Some d => d | None => 0 end) s).
Proof.
  induction s as [|c s IH]; intros H; [reflexivity |].
  cbn [forallb] in H. apply andb_prop in H. destruct H as [Hc Hs].
  cbn [OnText.int_each map]. rewrite (IH Hs).
  unfold int_point, is_decimal in *.
  destruct (decimal c); [reflexivity | discriminate Hc].
Qed.

(** and raises [ValueError] at the first character that is none. *)
Lemma int_each_not_decimals (s : text) :
  forallb is_decimal s = false -> OnText.int_each s = Raise ValueError.
Proof.
  induction s as [|c s IH]; intros H; [discriminate H |].
  cbn [forallb] in H. cbn [OnText.int_each].
  unfold int_point, is_decimal in *.
  destruct (decimal c); [| reflexivity].
  cbn [andb bind] in H |- *. now rewrite (IH H).
Qed.

(** A text of exactly 9 characters, taken apart. *)
Lemma nine_points_shape (s : text) :
  List.length s = 9%nat ->
  exists c1 c2 c3 c4 c5 c6 c7 c8 c9, s = [c1; c2; c3; c4; c5; c6; c7; c8; c9].
Proof.
  intros L.
  destruct s as [|c1 [|c2 [|c3 [|c4 [|c5 [|c6 [|c7 [|c8 [|c9 [|]]]]]]]]]];
    try discriminate L.
  now exists c1, c2, c3, c4, c5, c6, c7, c8, c9.
Qed.

Lemma ascii_digit_cases (c : N) :
  (48 <=? c)%N && (c <=? 57)%N = true ->
  In c [48; 49; 50; 51; 52; 53; 54; 55; 56; 57]%N.
Proof.
  intros H. apply andb_prop in H. destruct H as [H1 H2].
  apply N.leb_le in H1. apply N.leb_le in H2. cbn [In]. lia.
Qed.

Lemma not_ascii_digit_eqb (c k : N) :
  (48 <=? c)%N && (c <=? 57)%N = false -> (48 <= k <= 57)%N ->
  (c =? k)%N = false.
Proof.
  intros H Hk. apply N.eqb_neq. intros ->.
  replace (48 <=? k)%N with true in H by (symmetry; apply N.leb_le; lia).
  replace (k <=? 57)%N with true in H by (symmetry; apply N.leb_le; lia).
  discriminate H.
Qed.

(** The membership test in the list of districts compares code points: it
    holds for the ASCII digits of a district prefix and for nothing else. *)
Lemma is_valid_fed_symbol_text (s : text) :
  List.length s = 9%nat ->
  OnText.is_valid_fed_symbol s = Spec.district_prefix_ok s.
Proof.
  intros L.
  destruct (nine_points_shape s L)
    as (c1 & c2 & c3 & c4 & c5 & c6 & c7 & c8 & c9 & ->).
  unfold OnText.is_valid_fed_symbol, Spec.district_prefix_ok,
    Spec.ascii_digit_at, Spec.value_at, slice_text.
  cbn [Nat.sub skipn firstn nth_error].
  destruct ((48 <=? c3)%N && (c3 <=? 57)%N) eqn:A3.
  - destruct ((48 <=? c4)%N && (c4 <=? 57)%N) eqn:A4.
    + apply ascii_digit_cases in A3, A4. cbn [In] in A3, A4.
      repeat (destruct A3 as [<- | A3]; [
        repeat (destruct A4 as [<- | A4]; [vm_compute; reflexivity |]);
        contradiction |]).
      contradiction.
    + cbn [andb]. unfold fed_districts. cbn [existsb code_points map
        list_ascii_of_string text_eqb].
      repeat match goal with
      | |- context [(c4 =? N_of_ascii ?a)%N] =>
          rewrite (not_ascii_digit_eqb c4 (N_of_ascii a) A4)
            by (vm_compute; split; discriminate)
      end.
      rewrite ?andb_false_r. reflexivity.
  - cbn [andb]. unfold fed_districts. cbn [existsb code_points map
      list_ascii_of_string text_eqb].
    repeat match goal with
    | |- context [(c3 =? N_of_ascii ?a)%N] =>
        rewrite (not_ascii_digit_eqb c3 (N_of_ascii a) A3)
          by (vm_compute; split; discriminate)
    end.
    reflexivity.
Qed.

Lemma validate_routing_number_checksum_text (s : text) :
  Spec.nine_decimals s = true ->
  OnText.validate_routing_number_checksum s = Ok (Spec.value_sum_ok s).
Proof.
  unfold Spec.nine_decimals. intros H.
  apply andb_prop in H. destruct H as [L D]. apply Nat.eqb_eq in L.
  unfold OnText.validate_routing_number_checksum.
  rewrite (int_each_decimals s D).
  destruct (nine_points_shape s L)
    as (c1 & c2 & c3 & c4 & c5 & c6 & c7 & c8 & c9 & ->).
  cbn [map bind item_Z nth_error].
  unfold Spec.value_sum_ok, Spec.weighted_value_sum, Spec.value_at.
  cbn [Nat.sub nth_error]. do 2 f_equal. f_equal. ring.
Qed.

End TextValidatorFacts.

Section Below256.
Import Py Ach.

Local Open Scope Z_scope.

(** On text of code points below 256 the validator on any text is the
    validator on strings. *)

Lemma length_code_points (s : string) :
  List.length (code_points s) = String.length s.
Proof.
  unfold code_points. rewrite length_map.
  induction s as [|c s IH]; [reflexivity |]. cbn. now rewrite IH.
Qed.

Lemma is_digit_point_below_256 (c : ascii) :
  is_digit_point (N_of_ascii c) = is_digit_or_superscript c.
Proof.
  destruct c as [[] [] [] [] [] [] [] []]; vm_compute; reflexivity.
Qed.

Lemma int_point_below_256 (c : ascii) :
  int_point (N_of_ascii c) = int (String c "").
Proof.
  destruct c as [[] [] [] [] [] [] [] []]; vm_compute; reflexivity.
Qed.

Lemma isdigit_text_below_256 (s : string) :
  isdigit_text (code_points s) = isdigit s.
Proof.
  assert (A : forall t, forallb is_digit_point (code_points t)
                        = all_chars is_digit_or_superscript t).
  { induction t as [|c t IH]; [reflexivity |].
    change (code_points (String c t)) with (N_of_ascii c :: code_points t).
    cbn [forallb all_chars]. now rewrite IH, is_digit_point_below_256. }
  unfold isdigit, isdigit_text, truthy.
  destruct s as [|c s]; [reflexivity |].
  rewrite <- A. reflexivity.
Qed.

Lemma eqb_code_point (c d : ascii) :
  (N_of_ascii c =? N_of_ascii d)%N = (c =? d)%char.
Proof.
  destruct (Ascii.eqb_spec c d) as [-> | Hn].
  - apply N.eqb_refl.
  - apply N.eqb_neq. intros E. apply Hn.
    rewrite <- (ascii_N_embedding c), <- (ascii_N_embedding d).
    now rewrite E.
Qed.

Lemma text_eqb_code_points (a b : string) :
  text_eqb (code_points a) (code_points b) = (a =? b)%string.
Proof.
  revert b; induction a as [|c a IH]; intros [|d b]; try reflexivity.
  change (code_points (String c a)) with (N_of_ascii c :: code_points a).
  change (code_points (String d b)) with (N_of_ascii d :: code_points b).
  cbn [text_eqb String.eqb]. rewrite IH, eqb_code_point.
  destruct (c =? d)%char; reflexivity.
Qed.

Lemma code_points_substring (a n : nat) (s : string) :
  code_points (substring a n s) = firstn n (skipn a (code_points s)).
Proof.
  revert a n; induction s as [|c s IH]; intros a n.
  - destruct a, n; reflexivity.
  - change (code_points (String c s)) with (N_of_ascii c :: code_points s).
    destruct a as [|a].
    + destruct n as [|n]; [reflexivity |].
      cbn [substring skipn firstn].
      change (code_points (String c (substring 0 n s)))
        with (N_of_ascii c :: code_points (substring 0 n s)).
      now rewrite (IH 0%nat n).
    + cbn [substring skipn]. apply IH.
Qed.

Lemma is_valid_fed_symbol_below_256 (s : string) :
  OnText.is_valid_fed_symbol (code_points s) = is_valid_fed_symbol s.
Proof.
  unfold OnText.is_valid_fed_symbol, is_valid_fed_symbol, slice_text, slice.
  rewrite <- code_points_substring.
  induction fed_districts as [|d l IH]; [reflexivity |].
  cbn [existsb]. now rewrite IH, text_eqb_code_points.
Qed.

Lemma int_each_below_256 (s : string) :
  OnText.int_each (code_points s) = int_each s.
Proof.
  induction s as [|c s IH]; [reflexivity |].
  change (code_points (String c s)) with (N_of_ascii c :: code_points s).
  cbn [OnText.int_each int_each]. now rewrite IH, int_point_below_256.
Qed.

Lemma validate_route_number_below_256 (s : string) :
  OnText.validate_route_number (code_points s) = validate_route_number s.
Proof.
  unfold OnText.validate_route_number, validate_route_number,
    OnText.validate_routing_number_checksum, validate_routing_number_checksum.
  now rewrite isdigit_text_below_256, length_code_points,
    is_valid_fed_symbol_below_256, int_each_below_256.
Qed.

End Below256.

Section FieldFacts.
Import Py Ach.

Local Open Scope Z_scope.

(** A slice that starts after a prefix is a slice of what follows it. *)
Lemma slice_after (x y : string) (a b : nat) :
  (String.length x <= a)%nat ->
  slice a b (x +++ y) =
  slice (a - String.length x) (b - String.length x) y.
Proof.
  intros H. unfold slice.
  replace a with (String.length x + (a - String.length x))%nat at 1 by lia.
  rewrite substring_skip. f_equal. lia.
Qed.

Lemma slice_head (x y : string) (b : nat) :
  String.length x = b -> slice 0 b (x +++ y) = x.
Proof.
  intros <-. unfold slice. rewrite Nat.sub_0_r. apply substring_head.
Qed.

Lemma sum_details_nonneg (p : string -> bool) (f : string -> Z)
  (lines : list string) :
  (forall l, In l lines -> Spec.is_detail l = true -> 0 <= f l) ->
  0 <= Spec.sum_details p f lines.
Proof.
  induction lines as [|l lines IH]; intros H; cbn [Spec.sum_details];
    [lia |].
  assert (0 <= Spec.sum_details p f lines)
    by (apply IH; intros; apply H; [right |]; assumption).
  destruct (Spec.is_detail l) eqn:D; cbn [andb]; [| lia].
  destruct (p l); [| lia].
  assert (0 <= f l) by (apply H; [left |]; auto). lia.
Qed.

Lemma amount_total_nonneg (p : string -> bool) (lines : list string) :
  Spec.lines_ok lines = true -> 0 <= Spec.sum_details p Spec.amount lines.
Proof.
  intros H. apply sum_details_nonneg. intros l Hin D.
  unfold Spec.lines_ok in H. rewrite forallb_forall in H.
  specialize (H l Hin). rewrite D in H. cbn [implb] in H.
  destruct (detail_ok_fields l H) as (_ & _ & Ha).
  apply digits_value_bounds. exact Ha.
Qed.

(** Steps through a record: past the record type, past a field whose length
    is known, and reading the zero-padded field that comes next. *)
Ltac skip_type :=
  rewrite slice_after by (cbn; lia); cbn [String.length Nat.sub].
Ltac skip L := rewrite slice_after by lia; rewrite L; cbn [Nat.sub].
Ltac read L := rewrite slice_head by exact L; apply int_fmt_0d; lia.


(** The numeric fields of a file control record, likewise. *)
Lemma file_control_fields (bc blk cnt hash debit credit : Z) :
  0 <= bc < 10 ^ 6 -> 0 <= blk < 10 ^ 6 -> 0 <= cnt < 10 ^ 8 ->
  0 <= hash < 10 ^ 10 -> 0 <= debit < 10 ^ 12 -> 0 <= credit < 10 ^ 12 ->
  let r := file_control_footer bc blk cnt hash debit credit in
  int (slice 1 7 r) = Ok bc /\ int (slice 7 13 r) = Ok blk /\
  int (slice 13 21 r) = Ok cnt /\ int (slice 21 31 r) = Ok hash /\
  int (slice 31 43 r) = Ok debit /\ int (slice 43 55 r) = Ok credit.
Proof.
  intros Hb Hl Hc Hh Hd Hk r. subst r. unfold file_control_footer.
  pose proof (length_fmt_0d 6 bc ltac:(lia) Hb) as L0.
  pose proof (length_fmt_0d 6 blk ltac:(lia) Hl) as L1.
  pose proof (length_fmt_0d 8 cnt ltac:(lia) Hc) as L2.
  pose proof (length_fmt_0d 10 hash ltac:(lia) Hh) as L3.
  pose proof (length_fmt_0d 12 debit ltac:(lia) Hd) as L4.
  pose proof (length_fmt_0d 12 credit ltac:(lia) Hk) as L5.
  repeat split.
  - skip_type. read L0.
  - skip_type. skip L0. read L1.
  - skip_type. skip L0. skip L1. read L2.
  - skip_type. skip L0. skip L1. skip L2. read L3.
  - skip_type. skip L0. skip L1. skip L2. skip L3. read L4.
  - skip_type. skip L0. skip L1. skip L2. skip L3. skip L4. read L5.
Qed.

(** The block count of a file control record is read at columns 8-13,
    whatever the fields after it hold, when the two counts fit. *)
Lemma file_control_block_count (bc blk cnt hash debit credit : Z) :
  0 <= bc < 10 ^ 6 -> 0 <= blk < 10 ^ 6 ->
  int (slice 7 13 (file_control_footer bc blk cnt hash debit credit))
  = Ok blk.
Proof.
  intros Hb Hl. unfold file_control_footer.
  pose proof (length_fmt_0d 6 bc ltac:(lia) Hb) as L0.
  pose proof (length_fmt_0d 6 blk ltac:(lia) Hl) as L1.
  skip_type. skip L0. read L1.
Qed.

End FieldFacts.

(** ** The batch and file control records *)

Section ControlRecords.
Import Py Ach.

Local Open Scope Z_scope.



(** C5. Whenever [rebuild_file] returns, its lines are the file header, the
    batch lines, the file control record and from zero to nine padding lines
    of 94 characters ['9']; their number is a multiple of 10, and the block
    count written in the file control record is that number divided by 10:
    it is the second field of the record, and for a file of fewer than 10^6
    lines it is what columns 8-13 of the record read.  It does return for
    batches whose numeric fields are digits, from a run hash that is not
    negative. *)
Theorem rebuild_file_blocks (sd : ScriptData) :
  (Spec.batches_ok (newach_data sd) = true -> 0 <= entry_hash_cnt sd ->
   ok (rebuild_file sd) = true) /\
  (forall out sd',
     rebuild_file sd = Ok (out, sd') ->
     exists body record pad,
       out = (file_header sd :: body) ++ [record] ++ repeat extra_row pad /\
       (pad <= 9)%nat /\ (List.length out mod 10 = 0)%nat /\
       (exists bc rc h d c,
          record = file_control_footer bc (Z.of_nat (List.length out / 10))
                     rc h d c) /\
       (Z.of_nat (List.length out) < 10 ^ 6 ->
        int (slice 7 13 record) = Ok (Z.of_nat (List.length out / 10)))) /\
  extra_row = repeat_char "9" 94 /\ String.length extra_row = 94%nat.
Proof.
  split; [| split; [| split; reflexivity]].
  - intros Hok Hh. unfold rebuild_file.
    destruct (rebuild_batches_spec (newach_data sd) sd 0 [file_header sd]
                Hok) as (sd' & E & _ & E1 & _).
    rewrite E. cbn [bind].
    rewrite int_suffix_str; [reflexivity | | lia].
    rewrite E1. pose proof (batch_hashes_nonneg
                              (Spec.kept_batches (newach_data sd))). lia.
  - intros out sd' H.
    destruct (rebuild_file_shape sd out sd' H)
      as (body & bc & rc & h & d & c & pad & E & Hp & Hm & Hbc).
    exists body,
      (file_control_footer bc (Z.of_nat (List.length out / 10)) rc h d c),
      pad.
    split; [exact E |]. split; [exact Hp |]. split; [exact Hm |].
    split; [now exists bc, rc, h, d, c |].
    intros Hl.
    assert (Lb : Z.of_nat (List.length body) < Z.of_nat (List.length out)).
    { pose proof (f_equal (@List.length string) E) as EL.
      rewrite !length_app in EL. cbn [List.length] in EL. lia. }
    assert (Ld : 0 <= Z.of_nat (List.length out / 10)
                 <= Z.of_nat (List.length out)).
    { split; [lia |]. apply inj_le. apply Nat.Div0.div_le_upper_bound. lia. }
    apply file_control_block_count; lia.
Qed.

Lemma rebuild_file_blocks_witness :
  ok (rebuild_file Samples.mixed_parsed) = true /\
  exists out sd',
    rebuild_file Samples.mixed_parsed = Ok (out, sd') /\
    exists body record pad,
      out = (file_header Samples.mixed_parsed :: body)
            ++ [record] ++ repeat extra_row pad /\
      (List.length out mod 10 = 0)%nat /\
      int (slice 7 13 record) = Ok (Z.of_nat (List.length out / 10)).
Proof.
  split.
  - exact (proj1 (rebuild_file_blocks Samples.mixed_parsed)
             ltac:(vm_compute; reflexivity) ltac:(vm_compute; discriminate)).
  - eexists _, _. split; [vm_compute; reflexivity |].
    destruct (proj1 (proj2 (rebuild_file_blocks Samples.mixed_parsed))
                _ _ ltac:(vm_compute; reflexivity))
      as (body & record & pad & E & _ & Hm & _ & Hr).
    exists body, record, pad.
    split; [exact E |]. split; [exact Hm |].
    apply Hr. vm_compute; reflexivity.
Defined.



Lemma sum_Z_nonneg (l : list Z) : Forall (fun z => 0 <= z) l -> 0 <= Spec.sum_Z l.
Proof.
  induction 1 as [|z l Hz _ IH]; cbn [Spec.sum_Z]; lia.
Qed.

Lemma file_totals_nonneg (batches : list (list string)) :
  Spec.batches_ok batches = true ->
  0 <= Spec.file_debit_total batches /\ 0 <= Spec.file_credit_total batches.
Proof.
  intros H.
  assert (K : Forall (fun b => Spec.lines_ok (tl b) = true)
                (Spec.kept_batches batches)).
  { apply Forall_forall. intros b Hb.
    unfold Spec.kept_batches in Hb. apply filter_In in Hb.
    unfold Spec.batches_ok in H. rewrite forallb_forall in H.
    apply H. tauto. }
  unfold Spec.file_debit_total, Spec.file_credit_total.
  split; apply sum_Z_nonneg; apply Forall_map;
    (eapply Forall_impl; [| exact K]); intros b Hb;
    apply amount_total_nonneg; exact Hb.
Qed.

Lemma entry_addenda_count_nonneg (batches : list (list string)) :
  0 <= Spec.entry_addenda_count batches.
Proof.
  unfold Spec.entry_addenda_count. apply sum_Z_nonneg, Forall_map.
  apply Forall_forall. intros; lia.
Qed.

(** C2, amended.  For every parsed input whose kept entry detail lines have
    digits in their numeric fields, the rewritten file is the file header,
    the kept batches numbered densely, the file control record and padding.
    In the file control record the batch count is the number of kept
    batches; the total record count is the sum over the kept batches of
    their entry/addenda counts, that is of the lines kept after each batch
    header (batch headers and batch control records are not counted); the
    entry hash is the rightmost 10 digits of the sum, over all the kept
    entry detail lines, of the first 8 digits of the routing number; the
    debit and credit totals are the sums of the batch totals.  Values that
    fit their fields are read back at the positions of the record layout. *)
Theorem file_control_record_totals (a : Args) (achfile : list string)
  (sd : ScriptData) :
  parse_ach_file (initialize a) achfile = Ok sd ->
  Spec.batches_ok (newach_data sd) = true ->
  exists block pad out sd',
    let batches := newach_data sd in
    let control :=
      file_control_footer (Spec.batch_count batches) block
        (Spec.entry_addenda_count batches) (Spec.file_entry_hash batches)
        (Spec.file_debit_total batches) (Spec.file_credit_total batches) in
    rebuild_file sd = Ok (out, sd') /\
    out = (file_header sd :: Spec.rebuilt_batches 0 batches)
          ++ [control] ++ repeat extra_row pad /\
    Spec.file_control_record batches out = Some control /\
    (Spec.batch_count batches < 10 ^ 6 -> 0 <= block < 10 ^ 6 ->
     Spec.entry_addenda_count batches < 10 ^ 8 ->
     Spec.file_debit_total batches < 10 ^ 12 ->
     Spec.file_credit_total batches < 10 ^ 12 ->
     int (slice 1 7 control) = Ok (Spec.batch_count batches) /\
     int (slice 13 21 control) = Ok (Spec.entry_addenda_count batches) /\
     int (slice 21 31 control) = Ok (Spec.file_entry_hash batches) /\
     int (slice 31 43 control) = Ok (Spec.file_debit_total batches) /\
     int (slice 43 55 control) = Ok (Spec.file_credit_total batches)).
Proof.
  intros P Hok.
  destruct (parse_ach_file_inv (initialize a) sd achfile eq_refl P)
    as (_ & _ & (T1 & T2 & T3 & T4) & _).
  cbn [initialize entry_hash_cnt total_credit total_debit total_record_cnt]
    in T1, T2, T3, T4.
  destruct (rebuild_file_spec sd Hok (eq_sym T1) (eq_sym T2) (eq_sym T3)
              (eq_sym T4)) as (block & pad & sd' & E).
  exists block, pad. eexists. exists sd'. cbv zeta.
  split; [exact E |]. split; [reflexivity |]. split.
  - unfold Spec.file_control_record.
    rewrite nth_error_app2 by (cbn [List.length]; lia).
    cbn [List.length]. rewrite Nat.sub_diag. reflexivity.
  - intros B1 B2 B3 B4 B5.
    destruct (file_totals_nonneg _ Hok) as [N1 N2].
    pose proof (entry_addenda_count_nonneg (newach_data sd)) as N3.
    assert (N4 : 0 <= Spec.batch_count (newach_data sd))
      by (unfold Spec.batch_count; lia).
    assert (N5 : 0 <= Spec.file_entry_hash (newach_data sd) < 10 ^ 10)
      by (apply Z.mod_pos_bound; lia).
    destruct (file_control_fields (Spec.batch_count (newach_data sd)) block
                (Spec.entry_addenda_count (newach_data sd))
                (Spec.file_entry_hash (newach_data sd))
                (Spec.file_debit_total (newach_data sd))
                (Spec.file_credit_total (newach_data sd))
                ltac:(lia) B2 ltac:(lia) N5 ltac:(lia) ltac:(lia))
      as (F1 & _ & F3 & F4 & F5 & F6).
    auto.
Qed.

Lemma file_control_record_totals_witness :
  exists block pad out sd',
    rebuild_file Samples.mixed_parsed = Ok (out, sd') /\
    out = (Samples.file_header_text
             :: Spec.rebuilt_batches 0
                  [Samples.batch_header_line :: Samples.mixed_kept_lines])
          ++ [file_control_footer 1 block 3 34218039 50000 700]
          ++ repeat extra_row pad.
Proof.
  destruct (file_control_record_totals Samples.sample_args Samples.mixed_file
              Samples.mixed_parsed ltac:(vm_compute; reflexivity)
              ltac:(vm_compute; reflexivity))
    as (block & pad & out & sd' & E & O & _).
  exists block, pad, out, sd'. split; [exact E | exact O].
Defined.

(** C2 as stated fails: for the file with one batch of one entry, the
    rebuilt batch has 3 lines (header, entry, control record), and the total
    record count of the file control record is 1. *)
Lemma record_count_is_not_line_count :
  exists sd,
    parse_ach_file (initialize Samples.sample_args) Samples.plain_file
    = Ok sd /\
    Spec.rebuilt_line_count (newach_data sd) = 3 /\
    ~ Spec.record_count_is_line_count sd.
Proof.
  eexists. split; [vm_compute; reflexivity |]. split; [reflexivity |].
  intros H.
  epose proof (H _ _ _ ltac:(vm_compute; reflexivity)
                 ltac:(vm_compute; reflexivity)) as K.
  vm_compute in K. discriminate K.
Qed.

(** C7.  The control record of a rebuilt batch carries 9 of the 10
    characters of the company identification of the batch header: for the
    header whose positions 41-50 are ["1234567890"], positions 45-54 of the
    control record are ["123456789 "].  The service class code and the
    originating DFI are carried whole. *)
Theorem control_record_cuts_company_id :
  exists header control sd',
    rebuild_batch (initialize Samples.sample_args)
      [Samples.batch_header_line; Samples.other_detail] 1
    = Ok ([header; Samples.other_detail; control], sd') /\
    slice 40 50 Samples.batch_header_line = "1234567890" /\
    slice 40 50 header = "1234567890" /\
    slice 44 54 control = "123456789 " /\
    slice 1 4 control = slice 1 4 Samples.batch_header_line /\
    slice 79 87 control = slice 79 87 Samples.batch_header_line.
Proof.
  eexists _, _, _. split; [vm_compute; reflexivity |].
  repeat split.
Qed.

End ControlRecords.

(** ** The on-us extraction *)

Section Extraction.
Import Py Ach.

Local Open Scope Z_scope.

(** Both files and the status of a run are read off the result of the
    parser. *)
Lemma run_of_parse (a : Args) (f1 f2 : list string) (found : bool) :
  parse_ach_file (initialize a) f1 = parse_ach_file (initialize a) f2 ->
  run a f1 found = run a f2 found.
Proof. intros E. unfold run. now rewrite E. Qed.

(** C10. While a candidate is pending, an addenda line that contains
    ["EXT OAO"] and does not match the pattern (["705"], at least one
    character, three final digits) leaves the whole state of the parser as it
    was: the line is appended neither to the batch nor to the on-us records,
    and the flag and the candidate stay.  The run then writes the same two
    files as for the input without that line. *)
Theorem marker_addenda_without_shape_is_skipped (st : PState)
  (raw : string) :
  truthy (is_onus st) = true ->
  startswith "7" (strip raw) = true ->
  contains "EXT OAO" (strip raw) = true ->
  re_match_705 (strip raw) = None ->
  parse_line st raw = Ok (Continue st) /\
  (forall rest, parse_lines st (raw :: rest) = parse_lines st rest) /\
  (forall a before rest found,
     parse_lines_ctl (parse_start (initialize a)) before = Ok (Continue st) ->
     run a (before ++ raw :: rest) found = run a (before ++ rest) found).
Proof.
  intros T H7 M R.
  pose proof (parse_line_marker_no_match st raw T H7 M R) as E.
  split; [exact E |]. split.
  - intros rest. cbn [parse_lines]. rewrite E. reflexivity.
  - intros a before rest found B. apply run_of_parse.
    unfold parse_ach_file. rewrite !parse_lines_app, B.
    cbn [parse_lines]. rewrite E. reflexivity.
Qed.

Lemma marker_addenda_without_shape_is_skipped_witness :
  parse_line Samples.pending_state Samples.marker_addenda_type_10
  = Ok (Continue Samples.pending_state) /\
  run Samples.sample_args Samples.partial_file true =
  run Samples.sample_args
    [Samples.file_header_line; Samples.batch_header_line;
     Samples.onus_detail; Samples.other_detail;
     Samples.batch_control_line; Samples.file_control_line] true.
Proof.
  destruct (marker_addenda_without_shape_is_skipped Samples.pending_state
              Samples.marker_addenda_type_10
              ltac:(vm_compute; reflexivity) ltac:(vm_compute; reflexivity)
              ltac:(vm_compute; reflexivity) ltac:(vm_compute; reflexivity))
    as (E & _ & F).
  split; [exact E |].
  exact (F Samples.sample_args
           [Samples.file_header_line; Samples.batch_header_line;
            Samples.onus_detail]
           [Samples.other_detail; Samples.batch_control_line;
            Samples.file_control_line] true
           ltac:(vm_compute; reflexivity)).
Defined.

(** C3.  An on-us credit followed by an addenda that carries the marker and
    does not match the pattern is removed in part: the detail line is put
    back into its batch by the next entry, and its addenda line is in neither
    output. *)
Theorem detail_kept_without_its_addenda :
  exists sd,
    parse_ach_file (initialize Samples.sample_args) Samples.partial_file
    = Ok sd /\
    newach_data sd =
      [[Samples.batch_header_line; Samples.onus_detail;
        Samples.other_detail]] /\
    all_onus_data sd = [] /\
    ~ In Samples.marker_addenda_type_10 (concat (newach_data sd)).
Proof.
  eexists. split; [vm_compute; reflexivity |].
  split; [reflexivity |]. split; [reflexivity |].
  cbn. intros [H | [H | [H | []]]]; discriminate H.
Qed.

(** C8.  For an addenda line of 94 characters the description stored with
    the on-us record runs past the payment related information: it is
    characters 4-91 of the line, trimmed, and so ends with the addenda
    sequence number and the first digits of the entry detail sequence number.
    The payment related information, trimmed, is the text before them. *)
Theorem description_runs_past_payment_info :
  exists sd data,
    parse_ach_file (initialize Samples.sample_args) Samples.onus_only_file
    = Ok sd /\
    all_onus_data sd = [data] /\
    nth_error data 6 =
      Some (VStr ("EXT OAO JOHN DOE TRANSFER 001" +++ repeat_char " " 51
                  +++ "00010000")) /\
    nth_error data 6 =
      Some (VStr (slice 0 128 (strip (slice 3 91 Samples.marker_addenda)))) /\
    Spec.description Samples.marker_addenda = "EXT OAO JOHN DOE TRANSFER 001".
Proof.
  eexists _, _. split; [vm_compute; reflexivity |].
  repeat split.
Qed.

End Extraction.

(** ** The settlement file *)

Section Settlement.
Import Py Ach.

Local Open Scope Z_scope.



End Settlement.

(** ** The routing number validator *)

Section Validator.
Import Py Ach.

Local Open Scope Z_scope.

(** C9. On a routing number without a character that [str.isdigit] accepts
    and [int] refuses, [validate_route_number] does not raise.  It passes
    the text exactly when the text is 9 decimal digits, ASCII or not, its
    characters 3-4 are the ASCII digits of a district prefix (01-12, 20-29,
    30-39), and 3 d1 + 7 d2 + d3 + 3 d4 + 7 d5 + d6 + 3 d7 + 7 d8 + d9 is a
    multiple of 10 for the values of the digits.  When it fails it prints
    one line that tells the first check that failed: a text that is not 9
    decimal digits gets one of two messages (it is empty or has a character
    that is no digit, or its length is not 9), a bad district prefix gets a
    third and a bad checksum a fourth. *)
Theorem validate_route_number_decimal_digits (rtnbr : text) :
  Spec.digits_convert rtnbr = true ->
  exists passed printed,
    OnText.validate_route_number rtnbr = Ok (passed, printed) /\
    (passed = true <->
     Spec.nine_decimals rtnbr = true /\
     Spec.district_prefix_ok rtnbr = true /\
     Spec.value_sum_ok rtnbr = true) /\
    (passed = true -> printed = []) /\
    (Spec.nine_decimals rtnbr = false ->
     (isdigit_text rtnbr = false /\
      printed = ["Routing number must be all digits"]) \/
     (isdigit_text rtnbr = true /\ List.length rtnbr <> 9%nat /\
      printed = ["Routing number too short"])) /\
    (Spec.nine_decimals rtnbr = true ->
     Spec.district_prefix_ok rtnbr = false ->
     printed = ["Invalid fed district"]) /\
    (Spec.nine_decimals rtnbr = true ->
     Spec.district_prefix_ok rtnbr = true ->
     Spec.value_sum_ok rtnbr = false -> printed = ["Invalid checksum"]).
Proof.
  intros C. unfold OnText.validate_route_number.
  destruct (isdigit_text rtnbr) eqn:D; cbn [negb].
  - destruct (Nat.eqb_spec (List.length rtnbr) 9) as [L | L]; cbn [negb].
    + assert (N : Spec.nine_decimals rtnbr = true).
      { rewrite (isdigit_text_decimals rtnbr C) in D.
        apply andb_prop in D. destruct D as [_ D].
        unfold Spec.nine_decimals. rewrite L, D. reflexivity. }
      rewrite (is_valid_fed_symbol_text rtnbr L),
        (validate_routing_number_checksum_text rtnbr N).
      destruct (Spec.district_prefix_ok rtnbr); cbn [negb bind].
      * destruct (Spec.value_sum_ok rtnbr); cbn [negb];
          eexists _, _; (split; [reflexivity |]);
          rewrite N; intuition congruence.
      * eexists _, _; (split; [reflexivity |]);
          rewrite N; intuition congruence.
    + assert (N : Spec.nine_decimals rtnbr = false).
      { unfold Spec.nine_decimals.
        destruct (Nat.eqb_spec (List.length rtnbr) 9); [contradiction |].
        reflexivity. }
      eexists _, _; (split; [reflexivity |]);
        rewrite N; intuition congruence.
  - pose proof (not_isdigit_text rtnbr D) as N.
    eexists _, _; (split; [reflexivity |]);
      rewrite N; intuition congruence.
Qed.

Lemma validate_route_number_decimal_digits_witness :
  exists printed,
    OnText.validate_route_number (code_points "321180379")
    = Ok (true, printed).
Proof.
  destruct (validate_route_number_decimal_digits (code_points "321180379")
              ltac:(vm_compute; reflexivity))
    as (passed & printed & E & I & _).
  exists printed.
  assert (P : passed = true) by (apply I; repeat split).
  rewrite P in E. exact E.
Defined.

(** The validator is not about ASCII digits alone.  It passes 32118037
    followed by the fullwidth digit nine (U+FF19), which is no ASCII digit;
    and on 32118037 followed by the superscript two (U+00B2) it raises
    [ValueError] where the claim has it fail with a reason. *)
Lemma validator_is_not_ascii_only :
  OnText.validate_route_number (code_points "32118037" ++ [65305%N])
  = Ok (true, []) /\
  Spec.ascii_digits (code_points "32118037" ++ [65305%N]) = false /\
  OnText.validate_route_number (code_points "32118037" ++ [178%N])
  = Raise ValueError.
Proof.
  repeat split; vm_compute; reflexivity.
Qed.

End Validator.

(** ** More on the parser *)

Section OnusRecords.
Import Py Ach.

Lemma get_some_length (s : string) (n : nat) (c : ascii) :
  get n s = Some c -> (n < String.length s)%nat.
Proof.
  revert n; induction s as [|a s IH]; intros [|n] H; cbn in *;
    try discriminate; try lia.
  apply IH in H. lia.
Qed.

(** What [parse_ach_detail_record] returns, when it returns. *)
Lemma parse_ach_detail_record_fields (line : string) (d : Detail) :
  parse_ach_detail_record line = Ok d ->
  rtnbr d = slice 3 12 line /\
  acctnbr d = remove_spaces (slice 12 29 line) /\
  ach_tc d = slice 1 3 line /\
  int (More.amount_field line) = Ok (amt d) /\
  trace_nbr d = slice 79 94 line /\
  sequence_nbr d = suffix 7 (slice 79 94 line) /\
  get 78 line = Some (has_addenda d) /\
  (79 <= String.length line)%nat.
Proof.
  unfold parse_ach_detail_record, More.amount_field, index.
  destruct (int _) as [z | e]; [| discriminate].
  cbn [bind]. destruct (get 78 line) as [c |] eqn:G; [| discriminate].
  cbn [bind]. intros H. injection H as Hd. subst d. cbn.
  apply get_some_length in G. repeat split; auto.
Qed.

Lemma truthy_sequence_nbr (line : string) :
  truthy (suffix 7 (slice 79 94 line)) = true ->
  (80 <= String.length line)%nat.
Proof.
  unfold truthy. intros H.
  destruct (String.eqb_spec (suffix 7 (slice 79 94 line)) "") as [E | N];
    [discriminate H |].
  destruct (Nat.le_gt_cases 80 (String.length line)) as [L | L]; [exact L |].
  exfalso. apply N.
  assert (Z : slice 79 94 line = "")
    by (unfold slice; apply substring_past; lia).
  rewrite Z. reflexivity.
Qed.

Lemma pstate_sound_keep (route : string) (st : PState) (sd : ScriptData)
  (batch : list string) :
  More.pstate_sound route st ->
  all_onus_data sd = all_onus_data (p_sd st) ->
  args sd = args (p_sd st) ->
  More.pstate_sound route
    {| p_sd := sd; current_batch := batch; onus_data := onus_data st;
       is_onus := is_onus st |}.
Proof.
  intros (H1 & H2 & H3) Ed Ea. unfold More.pstate_sound. cbn.
  rewrite Ed, Ea. repeat split; auto.
Qed.

Lemma pstate_sound_idle (route : string) (st : PState)
  (batch : list string) :
  More.pstate_sound route st ->
  More.pstate_sound route
    {| p_sd := p_sd st; current_batch := batch; onus_data := [];
       is_onus := "" |}.
Proof.
  intros (H1 & H2 & H3). unfold More.pstate_sound. cbn.
  repeat split; auto. left. auto.
Qed.

Lemma flush_pending_sound (route : string) (st st1 : PState) :
  More.pstate_sound route st -> flush_pending st = Ok st1 ->
  More.pstate_sound route st1 /\ p_sd st1 = p_sd st.
Proof.
  intros H. unfold flush_pending.
  destruct (truthy (is_onus st) && nonempty (onus_data st)).
  - destruct (pop_line (onus_data st)) as [l | e]; [| discriminate].
    cbn [bind]. intros E. injection E as E. subst st1. split; [| reflexivity].
    now apply pstate_sound_idle.
  - intros E. injection E as E. subst st1. auto.
Qed.

(** One line keeps the on-us records and the candidate tied to the lines
    they were made from. *)
Lemma parse_line_sound (route : string) (st : PState) (raw : string)
  (c : Ctl) :
  More.pstate_sound route st -> parse_line st raw = Ok c ->
  More.pstate_sound route (ctl_state c).
Proof.
  intros H. pose proof H as (H1 & H2 & H3).
  unfold parse_line.
  destruct (negb (truthy (strip raw)));
    [intros E; injection E as E; subst c; exact H |].
  destruct (startswith "101" (strip raw)).
  { intros E; injection E as E; subst c. cbn [ctl_state].
    apply pstate_sound_keep; auto. }
  destruct (startswith "9" (strip raw));
    [intros E; injection E as E; subst c; exact H |].
  destruct (startswith "8" (strip raw)).
  { destruct (nonempty (current_batch st)).
    - destruct (flush_pending st) as [st1 | e] eqn:F; [| discriminate].
      cbn [bind]. intros E; injection E as E; subst c. cbn [ctl_state].
      destruct (flush_pending_sound route st st1 H F) as [K _].
      apply pstate_sound_keep; auto.
    - intros E; injection E as E; subst c; exact H. }
  destruct (startswith "5" (strip raw)).
  { intros E; injection E as E; subst c. cbn [ctl_state].
    apply pstate_sound_keep; auto. }
  destruct (startswith "7" (strip raw)) eqn:S7.
  { destruct (truthy (is_onus st)) eqn:T; cbn [negb].
    - destruct (contains "EXT OAO" (strip raw)) eqn:M; cbn [negb].
      + destruct (re_match_705 (strip raw)) as [g |] eqn:R.
        * intros E; injection E as E; subst c. cbn [ctl_state].
          unfold More.pstate_sound. cbn.
          split; [| split; [left; auto | exact H3]].
          apply Forall_app. split; [exact H1 |].
          constructor; [| constructor].
          destruct H2 as [[_ Z] | (line & z & Ed & Fd & Es)].
          -- rewrite Z in T. discriminate T.
          -- rewrite Es in T. apply truthy_sequence_nbr in T.
             exists line, z, (strip raw), g. rewrite Ed. auto 7.
        * intros E; injection E as E; subst c; exact H.
      + destruct (pop_line (onus_data st)) as [l | e]; [| discriminate].
        cbn [bind]. intros E; injection E as E; subst c. cbn [ctl_state].
        now apply pstate_sound_idle.
    - intros E; injection E as E; subst c. cbn [ctl_state].
      apply pstate_sound_keep; auto. }
  destruct (startswith "6" (strip raw)).
  { destruct (flush_pending st) as [st1 | e] eqn:F; [| discriminate].
    cbn [bind].
    destruct (flush_pending_sound route st st1 H F) as [K Es].
    pose proof K as (K1 & K2 & K3).
    destruct (onus_match _ (strip raw)) eqn:M.
    - destruct (parse_ach_detail_record (strip raw)) as [d | e] eqn:P;
        [| discriminate].
      cbn [bind]. intros E; injection E as E; subst c. cbn [ctl_state].
      destruct (parse_ach_detail_record_fields _ _ P)
        as (D1 & D2 & D3 & D4 & D5 & D6 & _ & D8).
      unfold More.pstate_sound. cbn.
      split; [exact K1 |]. split; [| exact K3].
      right. exists (strip raw), (amt d).
      rewrite D1, D2, D3, D5, D6. split; [reflexivity |].
      split; [| reflexivity].
      unfold More.from_detail. rewrite <- K3. auto.
    - intros E; injection E as E; subst c. cbn [ctl_state].
      apply pstate_sound_keep; auto. }
  intros E; injection E as E; subst c; exact H.
Qed.

Lemma parse_lines_sound (route : string) (lines : list string)
  (st st' : PState) :
  More.pstate_sound route st -> parse_lines st lines = Ok st' ->
  More.pstate_sound route st'.
Proof.
  revert st; induction lines as [|raw lines IH]; intros st H E.
  - cbn in E. injection E as E. now subst st'.
  - cbn [parse_lines] in E.
    destruct (parse_line st raw) as [c | e] eqn:P; [| discriminate E].
    cbn [bind] in E. pose proof (parse_line_sound route st raw c H P) as K.
    destruct c as [st1 | st1]; cbn [ctl_state] in K.
    + exact (IH st1 K E).
    + injection E as E. now subst st'.
Qed.

(** X1. Every on-us record that [parse_ach_file] extracts is made from one
    line of at least 80 characters that matches the on-us pattern (type 6,
    code 22 or 32, the own route number) and from an addenda line with the
    marker: its first six elements are the slices of that line and its
    amount, and its description is the text the pattern cuts out of the
    addenda, trimmed and cut to 128 characters. *)
Theorem onus_records_come_from_lines (sd sd' : ScriptData)
  (achfile : list string) :
  all_onus_data sd = [] -> parse_ach_file sd achfile = Ok sd' ->
  Forall (More.record_of_line (FTFCU_ROUTENBR (args sd)))
    (all_onus_data sd').
Proof.
  intros H0. unfold parse_ach_file.
  destruct (parse_lines (parse_start sd) achfile) as [st | e] eqn:P;
    [| discriminate].
  cbn [bind]. intros E; injection E as E; subst sd'.
  assert (K : More.pstate_sound (FTFCU_ROUTENBR (args sd)) (parse_start sd)).
  { unfold More.pstate_sound. cbn. rewrite H0.
    split; [constructor |]. split; [left; auto | reflexivity]. }
  now destruct (parse_lines_sound _ _ _ _ K P).
Qed.

Lemma onus_records_come_from_lines_witness :
  Forall (More.record_of_line "321180379")
    (all_onus_data Samples.mixed_parsed).
Proof.
  exact (onus_records_come_from_lines
           (initialize Samples.sample_args) Samples.mixed_parsed
           Samples.mixed_file ltac:(vm_compute; reflexivity)
           ltac:(vm_compute; reflexivity)).
Defined.

End OnusRecords.

Section LineTypes.
Import Py Ach.

Lemma startswith_char (a : ascii) (line : string) :
  startswith (String a "") line = true -> exists r, line = String a r.
Proof.
  destruct line as [|c r]; [discriminate |].
  unfold startswith. cbn [prefix].
  destruct (ascii_dec a c) as [<- | _]; [| discriminate].
  intros _. now exists r.
Qed.

(** A line that no step changes can be taken out of the input. *)
Lemma parse_lines_erase (raw : string) (before rest : list string) :
  (forall st, parse_line st raw = Ok (Continue st)) ->
  forall st,
    parse_lines st (before ++ raw :: rest) = parse_lines st (before ++ rest).
Proof.
  intros H. induction before as [|l before IH]; intros st.
  - cbn [app parse_lines]. rewrite H. reflexivity.
  - cbn [app parse_lines].
    destruct (parse_line st l) as [[st1 | st1] | e]; cbn [bind];
      [apply IH | reflexivity | reflexivity].
Qed.

Lemma passed_over_step (st : PState) (raw : string) :
  More.passed_over raw = true -> parse_line st raw = Ok (Continue st).
Proof.
  unfold More.passed_over, parse_line. cbv zeta.
  destruct (negb (truthy (strip raw))); [reflexivity |].
  cbn [orb]. intros H.
  destruct (startswith "101" (strip raw)); [discriminate H |].
  destruct (startswith "9" (strip raw)); [discriminate H |].
  destruct (startswith "8" (strip raw)); [discriminate H |].
  destruct (startswith "5" (strip raw)); [discriminate H |].
  destruct (startswith "7" (strip raw)); [discriminate H |].
  destruct (startswith "6" (strip raw)); [discriminate H |].
  reflexivity.
Qed.

(** X2. The parser stops at the first line of type 9: whatever follows it in
    the file, padding lines or further batches, has no effect on the
    result. *)
Theorem lines_after_file_control_are_ignored (sd : ScriptData)
  (before : list string) (raw : string) (rest : list string) :
  startswith "9" (strip raw) = true ->
  parse_ach_file sd (before ++ raw :: rest) =
  parse_ach_file sd (before ++ [raw]).
Proof.
  intros H.
  assert (B : forall st, parse_line st raw = Ok (Break st)).
  { intros st. unfold parse_line. cbv zeta.
    destruct (startswith_char _ _ H) as [r E].
    assert (T : truthy (strip raw) = true) by (rewrite E; reflexivity).
    rewrite T, H. cbn [negb]. rewrite E.
    rewrite startswith_head_neq by discriminate. reflexivity. }
  unfold parse_ach_file. rewrite !parse_lines_app.
  destruct (parse_lines_ctl (parse_start sd) before) as [[st1 | st1] | e];
    try reflexivity.
  cbn [parse_lines]. rewrite B. reflexivity.
Qed.

Lemma lines_after_file_control_are_ignored_witness :
  parse_ach_file (initialize Samples.sample_args)
    ([Samples.file_header_line; Samples.batch_header_line;
      Samples.other_detail; Samples.batch_control_line]
     ++ Samples.file_control_line
        :: [extra_row; Samples.batch_header_line; Samples.onus_detail]) =
  parse_ach_file (initialize Samples.sample_args)
    ([Samples.file_header_line; Samples.batch_header_line;
      Samples.other_detail; Samples.batch_control_line]
     ++ [Samples.file_control_line]).
Proof.
  exact (lines_after_file_control_are_ignored
           (initialize Samples.sample_args) _ Samples.file_control_line _
           ltac:(vm_compute; reflexivity)).
Defined.

(** X3. A line that is blank once stripped, or whose type is none of 101, 5,
    6, 7, 8 and 9, is passed over without a trace: the parser gives the same
    result for the file without it. *)
Theorem passed_over_lines_can_be_removed (sd : ScriptData)
  (before : list string) (raw : string) (rest : list string) :
  More.passed_over raw = true ->
  parse_ach_file sd (before ++ raw :: rest) =
  parse_ach_file sd (before ++ rest).
Proof.
  intros H. unfold parse_ach_file.
  rewrite (parse_lines_erase raw before rest); [reflexivity |].
  intros st. now apply passed_over_step.
Qed.

Lemma passed_over_lines_can_be_removed_witness :
  parse_ach_file (initialize Samples.sample_args)
    ([Samples.file_header_line] ++ "   " :: Samples.batch_header_line
       :: "1 a line of type 1 that is no file header"
       :: [Samples.other_detail; Samples.batch_control_line]) =
  parse_ach_file (initialize Samples.sample_args)
    ([Samples.file_header_line] ++ Samples.batch_header_line
       :: "1 a line of type 1 that is no file header"
       :: [Samples.other_detail; Samples.batch_control_line]).
Proof.
  exact (passed_over_lines_can_be_removed (initialize Samples.sample_args)
           [Samples.file_header_line] "   " _
           ltac:(vm_compute; reflexivity)).
Defined.

(** With no candidate announced, a line that does not match the on-us
    pattern cannot make the parser fail, and no candidate is announced
    after it. *)
Lemma parse_line_no_candidate (st : PState) (raw : string) :
  is_onus st = "" ->
  onus_match (FTFCU_ROUTENBR (args (p_sd st))) (strip raw) = false ->
  exists c,
    parse_line st raw = Ok c /\ is_onus (ctl_state c) = "" /\
    all_onus_data (p_sd (ctl_state c)) = all_onus_data (p_sd st) /\
    args (p_sd (ctl_state c)) = args (p_sd st).
Proof.
  intros Z M. unfold parse_line, flush_pending. rewrite Z.
  cbn [truthy String.eqb negb andb bind]. rewrite M.
  destruct (negb (truthy (strip raw))); [eexists; repeat split; auto |].
  destruct (startswith "101" (strip raw)); [eexists; repeat split; auto |].
  destruct (startswith "9" (strip raw)); [eexists; repeat split; auto |].
  destruct (startswith "8" (strip raw)).
  { destruct (nonempty (current_batch st)); eexists; repeat split; auto. }
  destruct (startswith "5" (strip raw)); [eexists; repeat split; auto |].
  destruct (startswith "7" (strip raw)); [eexists; repeat split; auto |].
  destruct (startswith "6" (strip raw)); eexists; repeat split; auto.
Qed.

(** X4. A file none of whose lines matches the on-us pattern is always
    parsed (no field of its lines is read, so none can be malformed), and
    no on-us record is extracted from it. *)
Theorem no_candidate_nothing_extracted (sd : ScriptData)
  (achfile : list string) :
  Forall (fun raw =>
            onus_match (FTFCU_ROUTENBR (args sd)) (strip raw) = false)
    achfile ->
  exists sd',
    parse_ach_file sd achfile = Ok sd' /\
    all_onus_data sd' = all_onus_data sd.
Proof.
  intros H. unfold parse_ach_file.
  assert (G : forall st,
            is_onus st = "" -> args (p_sd st) = args sd ->
            exists st', parse_lines st achfile = Ok st' /\
                        all_onus_data (p_sd st') = all_onus_data (p_sd st)).
  { induction H as [|raw lines Hr _ IH]; intros st Z A.
    - exists st. auto.
    - rewrite <- A in Hr.
      destruct (parse_line_no_candidate st raw Z Hr)
        as (c & E & Zc & Dc & Ac).
      cbn [parse_lines]. rewrite E. cbn [bind].
      destruct c as [st1 | st1]; cbn [ctl_state] in *.
      + destruct (IH st1 Zc ltac:(congruence)) as (st' & E' & D').
        exists st'. split; [exact E' | congruence].
      + exists st1. auto. }
  destruct (G (parse_start sd) eq_refl eq_refl) as (st' & E & D).
  rewrite E. cbn [bind]. exists (p_sd st'). auto.
Qed.

Lemma no_candidate_nothing_extracted_witness :
  exists sd',
    parse_ach_file (initialize Samples.sample_args) Samples.plain_file
    = Ok sd' /\
    all_onus_data sd' = [].
Proof.
  exact (no_candidate_nothing_extracted (initialize Samples.sample_args)
           Samples.plain_file
           ltac:(repeat constructor; vm_compute; reflexivity)).
Defined.

End LineTypes.

Section Candidates.
Import Py Ach.

Lemma onus_match_type (route line : string) :
  onus_match route line = true -> exists r, line = String "6" r.
Proof.
  unfold onus_match.
  destruct line as [|c0 [|c1 [|c2 rest]]]; try discriminate.
  intros H.
  apply andb_prop in H. destruct H as [H _].
  apply andb_prop in H. destruct H as [H _].
  apply andb_prop in H. destruct H as [H _].
  apply Ascii.eqb_eq in H. subst c0. eauto.
Qed.

(** The branch of the loop that a line starting with [c] reaches. *)
Lemma line_types (c : ascii) (r : string) :
  truthy (String c r) = true /\
  startswith (String c "") (String c r) = true /\
  (forall a p, a <> c -> startswith (String a p) (String c r) = false).
Proof.
  split; [reflexivity |]. split.
  - unfold startswith. cbn [prefix].
    destruct (ascii_dec c c) as [_ | N]; [| now elim N].
    now destruct r.
  - intros a p N. now apply startswith_head_neq.
Qed.

(** A line of type 6 reaches the entry detail branch of the loop. *)
Lemma parse_line_detail (st : PState) (raw : string) :
  startswith "6" (strip raw) = true ->
  parse_line st raw =
  (let line := strip raw in
   st1 <- flush_pending st ;;
   if onus_match (FTFCU_ROUTENBR (args (p_sd st1))) line then
     d <- parse_ach_detail_record line ;;
     Ok (Continue
           {| p_sd := p_sd st1;
              current_batch := current_batch st1;
              onus_data := [VStr (rtnbr d); VStr (acctnbr d);
                            VStr (ach_tc d); VInt (amt d);
                            VStr (trace_nbr d); VStr line];
              is_onus := sequence_nbr d |})
   else
     Ok (Continue {| p_sd := p_sd st1;
                     current_batch := current_batch st1 ++ [line];
                     onus_data := onus_data st1;
                     is_onus := is_onus st1 |})).
Proof.
  intros H. unfold parse_line. cbv zeta.
  destruct (startswith_char _ _ H) as [r E].
  destruct (line_types "6" r) as (T & _ & N). rewrite <- E in T, N.
  rewrite T, !N, H by discriminate. reflexivity.
Qed.

(** A line of type 8 reaches the batch control branch of the loop. *)
Lemma parse_line_batch_control (st : PState) (raw : string) :
  startswith "8" (strip raw) = true ->
  parse_line st raw =
  (if nonempty (current_batch st) then
     st1 <- flush_pending st ;;
     Ok (Continue
           {| p_sd := set_newach_data
                        (newach_data (p_sd st1) ++ [current_batch st1])
                        (p_sd st1);
              current_batch := [];
              onus_data := onus_data st1;
              is_onus := is_onus st1 |})
   else Ok (Continue st)).
Proof.
  intros H. unfold parse_line. cbv zeta.
  destruct (startswith_char _ _ H) as [r E].
  destruct (line_types "8" r) as (T & _ & N). rewrite <- E in T, N.
  rewrite T, !N, H by discriminate. reflexivity.
Qed.

Lemma flush_pending_idle (st : PState) :
  truthy (is_onus st) = false -> flush_pending st = Ok st.
Proof. intros T. unfold flush_pending. now rewrite T. Qed.

Lemma sequence_nbr_truthy (line : string) :
  (80 <= String.length line)%nat ->
  truthy (suffix 7 (slice 79 94 line)) = true.
Proof.
  intros L. unfold truthy.
  destruct (String.eqb_spec (suffix 7 (slice 79 94 line)) "") as [E | N];
    [| reflexivity].
  pose proof (length_suffix (slice 79 94 line) 7) as Ls.
  unfold slice in Ls at 2. rewrite length_substring, E in Ls.
  cbn [String.length] in Ls. lia.
Qed.

Lemma parse_ach_detail_record_from (route line : string) (z : Z) :
  More.from_detail route line z ->
  exists c,
    parse_ach_detail_record line =
    Ok {| rtnbr := slice 3 12 line;
          acctnbr := remove_spaces (slice 12 29 line);
          ach_tc := slice 1 3 line;
          amt := z;
          trace_nbr := slice 79 94 line;
          sequence_nbr := suffix 7 (slice 79 94 line);
          has_addenda := c |}.
Proof.
  intros (_ & A & L).
  destruct (get_in_range line 78 ltac:(lia)) as [c G]. exists c.
  unfold parse_ach_detail_record, index.
  unfold More.amount_field in A. rewrite A, G. reflexivity.
Qed.

(** The step that holds a candidate back. *)
Lemma parse_line_candidate (st : PState) (raw : string) (z : Z) :
  truthy (is_onus st) = false ->
  More.from_detail (FTFCU_ROUTENBR (args (p_sd st))) (strip raw) z ->
  parse_line st raw =
  Ok (Continue {| p_sd := p_sd st;
                  current_batch := current_batch st;
                  onus_data := More.candidate_of (strip raw) z;
                  is_onus := suffix 7 (slice 79 94 (strip raw)) |}).
Proof.
  intros T F. pose proof F as (M & _).
  destruct (onus_match_type _ _ M) as [r E].
  assert (S6 : startswith "6" (strip raw) = true)
    by (rewrite E; apply line_types).
  rewrite (parse_line_detail st raw S6). cbv zeta.
  rewrite (flush_pending_idle st T). cbn [bind]. rewrite M.
  destruct (parse_ach_detail_record_from _ _ _ F) as [c ->].
  reflexivity.
Qed.

(** X5. An on-us credit and, right after it, an addenda line with the marker
    that matches the pattern: both lines are taken out of the batch, and one
    on-us record is added, made of the fields of the credit and of the text
    cut from the addenda.  The parser holds no candidate afterwards. *)
Theorem onus_entry_is_extracted (st : PState) (raw_detail raw_addenda : string)
  (z : Z) (g : string) :
  truthy (is_onus st) = false ->
  More.from_detail (FTFCU_ROUTENBR (args (p_sd st))) (strip raw_detail) z ->
  (80 <= String.length (strip raw_detail))%nat ->
  startswith "7" (strip raw_addenda) = true ->
  contains "EXT OAO" (strip raw_addenda) = true ->
  re_match_705 (strip raw_addenda) = Some g ->
  parse_lines st [raw_detail; raw_addenda] =
  Ok {| p_sd := set_all_onus_data
                  (all_onus_data (p_sd st)
                   ++ [More.candidate_of (strip raw_detail) z
                       ++ [VStr (slice 0 128 (strip g))]])
                  (p_sd st);
        current_batch := current_batch st;
        onus_data := [];
        is_onus := "" |}.
Proof.
  intros T F L S7 M R. cbn [parse_lines].
  rewrite (parse_line_candidate st raw_detail z T F). cbn [bind].
  rewrite (parse_line_addenda _ raw_addenda S7). cbv zeta.
  cbn [is_onus onus_data p_sd current_batch].
  rewrite (sequence_nbr_truthy _ L), M, R. reflexivity.
Qed.

Lemma onus_entry_is_extracted_witness :
  parse_lines
    {| p_sd := initialize Samples.sample_args;
       current_batch := [Samples.batch_header_line];
       onus_data := []; is_onus := "" |}
    [Samples.onus_detail; Samples.marker_addenda] =
  Ok {| p_sd := set_all_onus_data
                  ([] ++ [More.candidate_of (strip Samples.onus_detail) 12345
                          ++ [VStr (slice 0 128
                                      (strip (slice 3 91
                                                Samples.marker_addenda)))]])
                  (initialize Samples.sample_args);
        current_batch := [Samples.batch_header_line];
        onus_data := [];
        is_onus := "" |}.
Proof.
  exact (onus_entry_is_extracted
           {| p_sd := initialize Samples.sample_args;
              current_batch := [Samples.batch_header_line];
              onus_data := []; is_onus := "" |}
           Samples.onus_detail Samples.marker_addenda 12345
           (slice 3 91 Samples.marker_addenda)
           ltac:(vm_compute; reflexivity)
           ltac:(repeat split; vm_compute; solve [reflexivity | lia | intros K; discriminate K])
           ltac:(vm_compute; lia)
           ltac:(vm_compute; reflexivity) ltac:(vm_compute; reflexivity)
           ltac:(vm_compute; reflexivity)).
Defined.

(** X6. An on-us credit that is not finalized goes back into its batch, in
    its place: before its addenda when the addenda lacks the marker, before
    the next entry when that is no candidate, and at the end of the batch
    when the batch control record comes. *)
Theorem candidate_is_put_back (st : PState) (raw_detail raw_next : string)
  (z : Z) :
  truthy (is_onus st) = false ->
  More.from_detail (FTFCU_ROUTENBR (args (p_sd st))) (strip raw_detail) z ->
  (80 <= String.length (strip raw_detail))%nat ->
  (startswith "7" (strip raw_next) = true ->
   contains "EXT OAO" (strip raw_next) = false ->
   parse_lines st [raw_detail; raw_next] =
   Ok {| p_sd := p_sd st;
         current_batch :=
           current_batch st ++ [strip raw_detail; strip raw_next];
         onus_data := []; is_onus := "" |}) /\
  (startswith "6" (strip raw_next) = true ->
   onus_match (FTFCU_ROUTENBR (args (p_sd st))) (strip raw_next) = false ->
   parse_lines st [raw_detail; raw_next] =
   Ok {| p_sd := p_sd st;
         current_batch :=
           (current_batch st ++ [strip raw_detail]) ++ [strip raw_next];
         onus_data := []; is_onus := "" |}) /\
  (startswith "8" (strip raw_next) = true ->
   nonempty (current_batch st) = true ->
   parse_lines st [raw_detail; raw_next] =
   Ok {| p_sd := set_newach_data
                   (newach_data (p_sd st)
                    ++ [current_batch st ++ [strip raw_detail]])
                   (p_sd st);
         current_batch := []; onus_data := []; is_onus := "" |}).
Proof.
  intros T F L.
  pose proof (parse_line_candidate st raw_detail z T F) as E.
  pose proof (sequence_nbr_truthy _ L) as Q.
  assert (P : forall batch,
            flush_pending
              {| p_sd := p_sd st; current_batch := batch;
                 onus_data := More.candidate_of (strip raw_detail) z;
                 is_onus := suffix 7 (slice 79 94 (strip raw_detail)) |} =
            Ok {| p_sd := p_sd st;
                  current_batch := batch ++ [strip raw_detail];
                  onus_data := []; is_onus := "" |}).
  { intros batch. unfold flush_pending. cbn [is_onus onus_data].
    rewrite Q. reflexivity. }
  split; [| split].
  - intros S7 M. cbn [parse_lines]. rewrite E. cbn [bind].
    rewrite (parse_line_addenda _ raw_next S7). cbv zeta.
    cbn [is_onus onus_data p_sd current_batch]. rewrite Q, M.
    reflexivity.
  - intros S6 M. cbn [parse_lines]. rewrite E. cbn [bind].
    rewrite (parse_line_detail _ raw_next S6). cbv zeta.
    rewrite P. cbn [bind p_sd current_batch onus_data is_onus].
    rewrite M. reflexivity.
  - intros S8 N. cbn [parse_lines]. rewrite E. cbn [bind].
    rewrite (parse_line_batch_control _ raw_next S8).
    cbn [current_batch]. rewrite N, P. reflexivity.
Qed.

Lemma candidate_is_put_back_witness :
  parse_lines
    {| p_sd := initialize Samples.sample_args;
       current_batch := [Samples.batch_header_line];
       onus_data := []; is_onus := "" |}
    [Samples.onus_detail_2; Samples.plain_addenda] =
  Ok {| p_sd := initialize Samples.sample_args;
        current_batch :=
          [Samples.batch_header_line]
          ++ [strip Samples.onus_detail_2; strip Samples.plain_addenda];
        onus_data := []; is_onus := "" |}.
Proof.
  exact (proj1 (candidate_is_put_back
                  {| p_sd := initialize Samples.sample_args;
                     current_batch := [Samples.batch_header_line];
                     onus_data := []; is_onus := "" |}
                  Samples.onus_detail_2 Samples.plain_addenda 700
                  ltac:(vm_compute; reflexivity)
                  ltac:(repeat split; vm_compute; solve [reflexivity | lia | intros K; discriminate K])
                  ltac:(vm_compute; lia))
           ltac:(vm_compute; reflexivity) ltac:(vm_compute; reflexivity)).
Defined.

End Candidates.

Section MalformedCandidates.
Import Py Ach.

Lemma get_out_of_range (s : string) (n : nat) :
  (String.length s <= n)%nat -> get n s = None.
Proof.
  revert n; induction s as [|c s IH]; intros [|n] H; cbn in *;
    try reflexivity; try lia.
  apply IH. lia.
Qed.

Lemma parse_ach_detail_record_short (line : string) :
  (String.length line <= 78)%nat ->
  exists e, parse_ach_detail_record line = Raise e.
Proof.
  intros L. unfold parse_ach_detail_record, index.
  destruct (int _) as [z | e]; cbn [bind]; [| eauto].
  rewrite (get_out_of_range line 78 L). cbn [bind]. eauto.
Qed.

Lemma flush_pending_sd (st st1 : PState) :
  flush_pending st = Ok st1 -> p_sd st1 = p_sd st.
Proof.
  unfold flush_pending.
  destruct (truthy (is_onus st) && nonempty (onus_data st)).
  - destruct (pop_line (onus_data st)); [| discriminate].
    cbn [bind]. intros E. injection E as E. now subst st1.
  - intros E. injection E as E. now subst st1.
Qed.

(** The arguments of the run are the same after any line. *)
Lemma parse_line_args (st : PState) (raw : string) (c : Ctl) :
  parse_line st raw = Ok c -> args (p_sd (ctl_state c)) = args (p_sd st).
Proof.
  unfold parse_line.
  destruct (negb (truthy (strip raw)));
    [intros E; injection E as E; now subst c |].
  destruct (startswith "101" (strip raw));
    [intros E; injection E as E; now subst c |].
  destruct (startswith "9" (strip raw));
    [intros E; injection E as E; now subst c |].
  destruct (startswith "8" (strip raw)).
  { destruct (nonempty (current_batch st)).
    - destruct (flush_pending st) as [st1 | e] eqn:F; [| discriminate].
      cbn [bind]. intros E; injection E as E; subst c. cbn.
      now rewrite (flush_pending_sd _ _ F).
    - intros E; injection E as E; now subst c. }
  destruct (startswith "5" (strip raw));
    [intros E; injection E as E; now subst c |].
  destruct (startswith "7" (strip raw)).
  { destruct (negb (truthy (is_onus st)));
      [intros E; injection E as E; now subst c |].
    destruct (negb (contains "EXT OAO" (strip raw))).
    - destruct (pop_line (onus_data st)); [| discriminate].
      cbn [bind]. intros E; injection E as E; now subst c.
    - destruct (re_match_705 (strip raw));
        intros E; injection E as E; now subst c. }
  destruct (startswith "6" (strip raw)).
  { destruct (flush_pending st) as [st1 | e] eqn:F; [| discriminate].
    cbn [bind]. apply flush_pending_sd in F.
    destruct (onus_match _ (strip raw)).
    - destruct (parse_ach_detail_record (strip raw)); [| discriminate].
      cbn [bind]. intros E; injection E as E; subst c. cbn. now rewrite F.
    - intros E; injection E as E; subst c. cbn. now rewrite F. }
  intros E; injection E as E; now subst c.
Qed.

Lemma parse_lines_ctl_args (lines : list string) (st : PState) (c : Ctl) :
  parse_lines_ctl st lines = Ok c ->
  args (p_sd (ctl_state c)) = args (p_sd st).
Proof.
  revert st; induction lines as [|raw lines IH]; intros st E.
  - cbn in E. injection E as E. now subst c.
  - cbn [parse_lines_ctl] in E.
    destruct (parse_line st raw) as [c1 | e] eqn:P; [| discriminate E].
    cbn [bind] in E. apply parse_line_args in P.
    destruct c1 as [st1 | st1]; cbn [ctl_state] in P.
    + apply IH in E. congruence.
    + injection E as E. subst c. exact P.
Qed.

Lemma short_candidate_step (st : PState) (raw : string) :
  onus_match (FTFCU_ROUTENBR (args (p_sd st))) (strip raw) = true ->
  (String.length (strip raw) <= 78)%nat ->
  exists e, parse_line st raw = Raise e.
Proof.
  intros M L. destruct (onus_match_type _ _ M) as [r E].
  assert (S6 : startswith "6" (strip raw) = true)
    by (rewrite E; apply line_types).
  rewrite (parse_line_detail st raw S6). cbv zeta.
  destruct (flush_pending st) as [st1 | e] eqn:F; cbn [bind]; [| eauto].
  rewrite (flush_pending_sd _ _ F), M.
  destruct (parse_ach_detail_record_short _ L) as [e ->]. cbn [bind]. eauto.
Qed.

(** X7. A line that matches the on-us pattern and has fewer than 79
    characters once stripped stops the parser with an exception wherever the
    loop reaches it: the run fails and writes neither file. *)
Theorem short_candidate_stops_the_run (a : Args) (before : list string)
  (st : PState) (raw : string) (rest : list string) (found : bool) :
  parse_lines_ctl (parse_start (initialize a)) before = Ok (Continue st) ->
  onus_match (FTFCU_ROUTENBR a) (strip raw) = true ->
  (String.length (strip raw) <= 78)%nat ->
  (exists e, parse_ach_file (initialize a) (before ++ raw :: rest) = Raise e)
  /\
  run a (before ++ raw :: rest) found =
  {| new_ach_file_text := None; swim_file_text := None; status := false |}.
Proof.
  intros B M L.
  pose proof (parse_lines_ctl_args _ _ _ B) as A.
  cbn [ctl_state parse_start p_sd initialize args] in A.
  rewrite <- A in M.
  destruct (short_candidate_step st raw M L) as [e E].
  assert (P : parse_ach_file (initialize a) (before ++ raw :: rest)
              = Raise e).
  { unfold parse_ach_file. rewrite parse_lines_app, B.
    cbn [parse_lines]. rewrite E. reflexivity. }
  split; [eauto |]. unfold run. rewrite P. reflexivity.
Qed.

Lemma short_candidate_stops_the_run_witness :
  run Samples.sample_args
    ([Samples.file_header_line; Samples.batch_header_line]
     ++ Samples.short_onus_detail
        :: [Samples.batch_control_line; Samples.file_control_line]) true =
  {| new_ach_file_text := None; swim_file_text := None; status := false |}.
Proof.
  exact (proj2 (short_candidate_stops_the_run Samples.sample_args
                  [Samples.file_header_line; Samples.batch_header_line]
                  _ Samples.short_onus_detail
                  [Samples.batch_control_line; Samples.file_control_line]
                  true ltac:(vm_compute; reflexivity)
                  ltac:(vm_compute; reflexivity) ltac:(vm_compute; lia))).
Defined.

(** *** A candidate without a sequence number *)

Lemma flush_pending_unannounced (st1 st2 : PState) :
  More.same_but_unannounced st1 st2 ->
  Spec.res_rel More.same_but_unannounced
    (flush_pending st1) (flush_pending st2).
Proof.
  intros H. pose proof H as (Hs & Hb & Hi & Hd).
  unfold flush_pending. rewrite <- Hi.
  destruct (truthy (is_onus st1)) eqn:T; cbn [andb]; [| exact H].
  rewrite <- (Hd eq_refl).
  destruct (nonempty (onus_data st1)); [| exact H].
  destruct (pop_line (onus_data st1)); cbn; [| reflexivity].
  rewrite Hs, Hb. repeat split; auto.
Qed.

(** The steps of the loop do not look at a candidate that the flag does not
    announce. *)
Lemma parse_line_unannounced (st1 st2 : PState) (raw : string) :
  More.same_but_unannounced st1 st2 ->
  Spec.res_rel More.same_ctl (parse_line st1 raw) (parse_line st2 raw).
Proof.
  intros H. pose proof H as (Hs & Hb & Hi & Hd). unfold parse_line.
  destruct (negb (truthy (strip raw))); [exact H |].
  destruct (startswith "101" (strip raw)).
  { cbn. rewrite Hs. repeat split; auto. }
  destruct (startswith "9" (strip raw)); [exact H |].
  destruct (startswith "8" (strip raw)).
  { rewrite <- Hb. destruct (nonempty (current_batch st1)); [| exact H].
    pose proof (flush_pending_unannounced st1 st2 H) as F.
    destruct (flush_pending st1) as [s1 | e1],
             (flush_pending st2) as [s2 | e2]; cbn in F; try contradiction;
      [| exact F].
    destruct F as (Fs & Fb & Fi & Fd). cbn. rewrite Fs, Fb.
    repeat split; auto. }
  destruct (startswith "5" (strip raw)).
  { cbn. repeat split; auto. }
  destruct (startswith "7" (strip raw)).
  { rewrite <- Hi. destruct (truthy (is_onus st1)) eqn:T; cbn [negb].
    - rewrite <- (Hd eq_refl), <- Hb, <- Hs.
      destruct (negb (contains "EXT OAO" (strip raw))).
      + destruct (pop_line (onus_data st1)); cbn; [| reflexivity].
        repeat split; auto.
      + destruct (re_match_705 (strip raw)); cbn; repeat split; auto.
    - cbn. rewrite Hb. repeat split; auto.
      cbn [is_onus]. rewrite T. intros K. discriminate K. }
  destruct (startswith "6" (strip raw)); [| exact H].
  pose proof (flush_pending_unannounced st1 st2 H) as F.
  destruct (flush_pending st1) as [s1 | e1],
           (flush_pending st2) as [s2 | e2]; cbn in F; try contradiction;
    [| exact F].
  destruct F as (Fs & Fb & Fi & Fd). cbn [bind]. rewrite <- Fs.
  destruct (onus_match _ (strip raw)).
  - destruct (parse_ach_detail_record (strip raw)); cbn; [| reflexivity].
    rewrite Fb. repeat split; auto.
  - cbn. rewrite Fb. repeat split; auto.
Qed.

Lemma parse_lines_unannounced (lines : list string) (st1 st2 : PState) :
  More.same_but_unannounced st1 st2 ->
  map_res p_sd (parse_lines st1 lines) = map_res p_sd (parse_lines st2 lines).
Proof.
  revert st1 st2; induction lines as [|raw lines IH]; intros st1 st2 H.
  - cbn. f_equal. apply H.
  - cbn [parse_lines].
    pose proof (parse_line_unannounced st1 st2 raw H) as P.
    destruct (parse_line st1 raw) as [[s1 | s1] | e1],
             (parse_line st2 raw) as [[s2 | s2] | e2];
      cbn in P; try contradiction; cbn [bind].
    + now apply IH.
    + cbn. f_equal. apply P.
    + cbn. now subst.
Qed.

(** X8. A line that matches the on-us pattern and ends with its addenda
    indicator (79 characters once stripped, as when the trace number is
    blank) is lost: with no candidate pending when the loop reaches it, the
    parser gives the result it gives for the file without the line, so the
    line is in no batch and makes no on-us record. *)
Theorem candidate_without_trace_is_lost (sd : ScriptData)
  (before : list string) (st : PState) (raw : string) (z : Z)
  (rest : list string) :
  parse_lines_ctl (parse_start sd) before = Ok (Continue st) ->
  truthy (is_onus st) = false ->
  More.from_detail (FTFCU_ROUTENBR (args (p_sd st))) (strip raw) z ->
  String.length (strip raw) = 79%nat ->
  parse_ach_file sd (before ++ raw :: rest) =
  parse_ach_file sd (before ++ rest).
Proof.
  intros B T F L. unfold parse_ach_file. rewrite !parse_lines_app, B.
  cbn [parse_lines]. rewrite (parse_line_candidate st raw z T F).
  cbn [bind].
  assert (Z : suffix 7 (slice 79 94 (strip raw)) = "").
  { unfold slice. rewrite (substring_past (strip raw) 79) by lia.
    reflexivity. }
  rewrite Z.
  assert (R : More.same_but_unannounced
                {| p_sd := p_sd st; current_batch := current_batch st;
                   onus_data := More.candidate_of (strip raw) z;
                   is_onus := "" |} st).
  { unfold truthy in T. destruct (String.eqb_spec (is_onus st) "") as [E | N];
      [| discriminate T].
    unfold More.same_but_unannounced. cbn. rewrite E.
    repeat split. intros K. discriminate K. }
  pose proof (parse_lines_unannounced rest _ _ R) as P.
  destruct (parse_lines _ rest) as [s1 | e1], (parse_lines st rest) as [s2 | e2];
    cbn in P; try discriminate P; cbn [bind]; congruence.
Qed.

Lemma candidate_without_trace_is_lost_witness :
  parse_ach_file (initialize Samples.sample_args)
    ([Samples.file_header_line; Samples.batch_header_line]
     ++ Samples.onus_detail_no_trace
        :: [Samples.marker_addenda; Samples.other_detail;
            Samples.batch_control_line; Samples.file_control_line]) =
  parse_ach_file (initialize Samples.sample_args)
    ([Samples.file_header_line; Samples.batch_header_line]
     ++ [Samples.marker_addenda; Samples.other_detail;
         Samples.batch_control_line; Samples.file_control_line]).
Proof.
  exact (candidate_without_trace_is_lost (initialize Samples.sample_args)
           [Samples.file_header_line; Samples.batch_header_line] _
           Samples.onus_detail_no_trace 12345 _
           ltac:(vm_compute; reflexivity) ltac:(vm_compute; reflexivity)
           ltac:(repeat split; vm_compute;
                 solve [reflexivity | lia | intros K; discriminate K])
           ltac:(vm_compute; reflexivity)).
Defined.

End MalformedCandidates.

(** ** More on the reconstruction *)

Section Reconstruction.
Import Py Ach.

Local Open Scope Z_scope.

Lemma rebuild_line_short (acc : BatchAcc) (line : string) :
  startswith "6" line = true -> (String.length line <= 78)%nat ->
  exists e, rebuild_line acc line = Raise e.
Proof.
  intros S L. unfold rebuild_line. rewrite S.
  destruct (parse_ach_detail_record_short line L) as [e ->].
  cbn [bind]. eauto.
Qed.

Lemma rebuild_lines_short (lines : list string) (acc : BatchAcc)
  (line : string) :
  In line lines -> startswith "6" line = true ->
  (String.length line <= 78)%nat ->
  exists e, rebuild_lines acc lines = Raise e.
Proof.
  intros I S L. revert acc.
  induction lines as [|l lines IH]; intros acc; [contradiction |].
  cbn [rebuild_lines].
  destruct I as [-> | I].
  - destruct (rebuild_line_short acc line S L) as [e ->]. cbn [bind]. eauto.
  - destruct (rebuild_line acc l) as [acc1 | e]; cbn [bind]; [| eauto].
    exact (IH I acc1).
Qed.

Lemma rebuild_batches_short (batches : list (list string)) (sd : ScriptData)
  (n : Z) (file : list string) (batch : list string) (line : string) :
  In batch batches -> In line (tl batch) -> startswith "6" line = true ->
  (String.length line <= 78)%nat ->
  exists e, rebuild_batches sd batches n file = Raise e.
Proof.
  intros Ib Il S L. revert sd n file.
  induction batches as [|b batches IH]; intros sd n file; [contradiction |].
  cbn [rebuild_batches].
  destruct Ib as [-> | Ib].
  - destruct batch as [|header lines]; [contradiction |]. cbn [tl] in Il.
    unfold rebuild_batch.
    destruct (rebuild_lines_short lines
                {| entry_hash_total := 0; debit_total := 0;
                   credit_total := 0; batch_record_cnt := 0;
                   new_batch := [drop_last 7 header +++ fmt_0d 7 (n + 1)] |}
                line Il S L) as [e ->].
    cbn [bind]. eauto.
  - destruct (rebuild_batch sd b (n + 1)) as [[bf sd1] | e]; cbn [bind];
      [| eauto].
    destruct (nonempty bf); apply (IH Ib).
Qed.

(** X9. The parser keeps an entry detail line that is no on-us candidate
    without reading it, and the reconstruction reads every entry detail line
    of a batch: a kept line of type 6 with fewer than 79 characters makes
    [rebuild_file] raise, so the run fails and writes neither file. *)
Theorem short_kept_detail_stops_the_run (a : Args) (achfile : list string)
  (sd : ScriptData) (batch : list string) (line : string) (found : bool) :
  parse_ach_file (initialize a) achfile = Ok sd ->
  In batch (newach_data sd) -> In line (tl batch) ->
  startswith "6" line = true -> (String.length line <= 78)%nat ->
  (exists e, rebuild_file sd = Raise e) /\
  run a achfile found =
  {| new_ach_file_text := None; swim_file_text := None; status := false |}.
Proof.
  intros P Ib Il S L.
  destruct (rebuild_batches_short (newach_data sd) sd 0 [file_header sd]
              batch line Ib Il S L) as [e E].
  assert (R : rebuild_file sd = Raise e)
    by (unfold rebuild_file; rewrite E; reflexivity).
  split; [eauto |].
  unfold run, write_new_ach_file. rewrite P, R. reflexivity.
Qed.

Lemma short_kept_detail_stops_the_run_witness :
  run Samples.sample_args
    [Samples.file_header_line; Samples.batch_header_line;
     Samples.short_other_detail; Samples.batch_control_line;
     Samples.file_control_line] true =
  {| new_ach_file_text := None; swim_file_text := None; status := false |}.
Proof.
  refine (proj2 (short_kept_detail_stops_the_run Samples.sample_args _
                   _ [Samples.batch_header_line; Samples.short_other_detail]
                   Samples.short_other_detail true _ _ _ _ _)).
  - vm_compute; reflexivity.
  - left; reflexivity.
  - left; reflexivity.
  - vm_compute; reflexivity.
  - vm_compute; lia.
Defined.

(** *** The run totals *)

Lemma block_arithmetic_more (n : nat) :
  let line_cnt := 1 + Z.of_nat n in
  let mod_ := line_cnt mod 10 in
  let extra_lines := if mod_ =? 0 then 0 else 10 - mod_ in
  Z.to_nat extra_lines = More.padding_lines n /\
  (line_cnt + extra_lines) / 10 = More.block_count n.
Proof.
  cbv zeta. unfold More.block_count, More.padding_lines. split;
    [reflexivity |].
  rewrite Z2Nat.id; [reflexivity |].
  pose proof (Z.mod_pos_bound (1 + Z.of_nat n) 10 ltac:(lia)).
  destruct (_ =? 0); lia.
Qed.

(** [rebuild_file] from any run totals with a hash that is not negative. *)
Lemma rebuild_file_from_totals (sd : ScriptData) :
  Spec.batches_ok (newach_data sd) = true -> 0 <= entry_hash_cnt sd ->
  exists sd',
    rebuild_file sd =
    Ok (More.rebuilt_file (file_header sd) (newach_data sd)
          (total_record_cnt sd + Spec.entry_addenda_count (newach_data sd))
          (entry_hash_cnt sd + More.batch_hash_sum (newach_data sd))
          (total_debit sd + Spec.file_debit_total (newach_data sd))
          (total_credit sd + Spec.file_credit_total (newach_data sd)),
        sd') /\
    Spec.same_inputs sd sd' /\
    total_record_cnt sd' =
      total_record_cnt sd + Spec.entry_addenda_count (newach_data sd) /\
    entry_hash_cnt sd' =
      entry_hash_cnt sd + More.batch_hash_sum (newach_data sd) /\
    total_debit sd' =
      total_debit sd + Spec.file_debit_total (newach_data sd) /\
    total_credit sd' =
      total_credit sd + Spec.file_credit_total (newach_data sd).
Proof.
  intros Hok Hh. unfold rebuild_file.
  destruct (rebuild_batches_spec (newach_data sd) sd 0 [file_header sd] Hok)
    as (sd' & E & S & E1 & E2 & E3 & E4).
  rewrite E. cbn [bind].
  fold (More.batch_hash_sum (newach_data sd)) in E1.
  pose proof (batch_hashes_nonneg (Spec.kept_batches (newach_data sd))) as N.
  fold (More.batch_hash_sum (newach_data sd)) in N.
  rewrite (int_suffix_str (entry_hash_cnt sd') 10) by lia.
  cbn [bind]. exists sd'.
  split; [| repeat split; auto; apply S].
  destruct (block_arithmetic_more
              (List.length ([file_header sd]
                            ++ Spec.rebuilt_batches 0 (newach_data sd))))
    as [B1 B2].
  cbv zeta in B1, B2. rewrite B1, B2, E1, E2, E3, E4.
  reflexivity.
Qed.

(** X10. [rebuild_file] adds the totals of the batches to the run totals it
    finds and writes the sums: from run totals at zero the file control
    record holds the totals of the batches, and a second call on the script
    data that the first call returned writes the same lines except for a
    file control record with twice the record count, twice the debit and
    credit totals and the rightmost 10 digits of twice the hash sum. *)
Theorem rebuild_file_accumulates (sd : ScriptData) :
  Spec.batches_ok (newach_data sd) = true ->
  entry_hash_cnt sd = 0 -> total_credit sd = 0 -> total_debit sd = 0 ->
  total_record_cnt sd = 0 ->
  let batches := newach_data sd in
  exists sd1 sd2,
    rebuild_file sd =
      Ok (More.rebuilt_file (file_header sd) batches
            (Spec.entry_addenda_count batches) (More.batch_hash_sum batches)
            (Spec.file_debit_total batches) (Spec.file_credit_total batches),
          sd1) /\
    rebuild_file sd1 =
      Ok (More.rebuilt_file (file_header sd) batches
            (2 * Spec.entry_addenda_count batches)
            (2 * More.batch_hash_sum batches)
            (2 * Spec.file_debit_total batches)
            (2 * Spec.file_credit_total batches),
          sd2).
Proof.
  intros Hok H1 H2 H3 H4 batches. subst batches.
  destruct (rebuild_file_from_totals sd Hok ltac:(lia))
    as (sd1 & E & S & T1 & T2 & T3 & T4).
  pose proof S as (_ & Sd & _ & Sh & _).
  pose proof (batch_hashes_nonneg (Spec.kept_batches (newach_data sd))) as N.
  fold (More.batch_hash_sum (newach_data sd)) in N.
  rewrite H1, H2, H3, H4, !Z.add_0_l in *.
  destruct (rebuild_file_from_totals sd1) as (sd2 & E' & _).
  - now rewrite <- Sd.
  - lia.
  - exists sd1, sd2. split; [exact E |].
    rewrite E'. rewrite <- Sd, <- Sh, T1, T2, T3, T4.
    do 2 f_equal; f_equal; lia.
Qed.

Lemma rebuild_file_accumulates_witness :
  exists sd1 sd2,
    rebuild_file Samples.mixed_parsed =
      Ok (More.rebuilt_file Samples.file_header_text
            [Samples.batch_header_line :: Samples.mixed_kept_lines]
            3 34218039 50000 700, sd1) /\
    rebuild_file sd1 =
      Ok (More.rebuilt_file Samples.file_header_text
            [Samples.batch_header_line :: Samples.mixed_kept_lines]
            6 68436078 100000 1400, sd2).
Proof.
  exact (rebuild_file_accumulates Samples.mixed_parsed
           ltac:(vm_compute; reflexivity) ltac:(vm_compute; reflexivity)
           ltac:(vm_compute; reflexivity) ltac:(vm_compute; reflexivity)
           ltac:(vm_compute; reflexivity)).
Defined.

End Reconstruction.

Section RecordWidths.
Import Py Ach.

Local Open Scope Z_scope.

Lemma rebuild_batches_none_kept (batches : list (list string))
  (sd : ScriptData) (n : Z) (file : list string) :
  forallb (fun b => negb (Spec.kept b)) batches = true ->
  rebuild_batches sd batches n file = Ok (n, file, sd).
Proof.
  revert n; induction batches as [|b batches IH]; intros n H;
    [reflexivity |].
  cbn [forallb] in H. apply andb_prop in H. destruct H as [Hb Hr].
  cbn [rebuild_batches].
  rewrite (rebuild_batch_not_kept sd b (n + 1))
    by (now destruct (Spec.kept b)).
  cbn [bind nonempty]. replace (n + 1 - 1) with n by lia.
  now apply IH.
Qed.

(** X11. With no batch to keep (no batch at all, or only batches reduced to
    their header), the rewritten file is the file header, a file control
    record with batch count 0, block count 1 and the run totals as they are,
    and eight padding lines; the script data is unchanged. *)
Theorem rebuild_file_without_batches (sd : ScriptData) :
  forallb (fun b => negb (Spec.kept b)) (newach_data sd) = true ->
  0 <= entry_hash_cnt sd ->
  rebuild_file sd =
  Ok ([file_header sd;
       file_control_footer 0 1 (total_record_cnt sd)
         (Spec.rightmost10 (entry_hash_cnt sd)) (total_debit sd)
         (total_credit sd)]
      ++ repeat extra_row 8, sd).
Proof.
  intros H Hh. unfold rebuild_file.
  rewrite (rebuild_batches_none_kept _ sd 0 [file_header sd] H).
  cbn [bind]. rewrite (int_suffix_str _ 10 Hh) by lia. reflexivity.
Qed.

Lemma rebuild_file_without_batches_witness :
  rebuild_file
    (set_newach_data [[Samples.batch_header_line]]
       (set_file_header Samples.file_header_text
          (initialize Samples.sample_args))) =
  Ok ([Samples.file_header_text; file_control_footer 0 1 0 0 0 0]
      ++ repeat extra_row 8,
      set_newach_data [[Samples.batch_header_line]]
        (set_file_header Samples.file_header_text
           (initialize Samples.sample_args))).
Proof.
  exact (rebuild_file_without_batches
           (set_newach_data [[Samples.batch_header_line]]
              (set_file_header Samples.file_header_text
                 (initialize Samples.sample_args)))
           ltac:(vm_compute; reflexivity) ltac:(vm_compute; discriminate)).
Defined.

Lemma length_drop_last (s : string) (n : nat) :
  String.length (drop_last n s) = (String.length s - n)%nat.
Proof. unfold drop_last. rewrite length_substring. lia. Qed.

Lemma length_slice (s : string) (a b : nat) :
  (b <= String.length s)%nat ->
  String.length (slice a b s) = (b - a)%nat.
Proof. intros H. unfold slice. rewrite length_substring. lia. Qed.

(** X12. The records that the reconstruction writes have the width of the
    format when the values fit their fields: for a batch header of at least
    87 characters, a batch number below 10^7, fewer than 10^6 kept lines and
    totals below 10^12, the renumbered header is as long as the original one
    and the batch control record has 94 characters; a file control record
    whose counts and totals fit has 94 characters. *)
Theorem rebuilt_records_have_fixed_width (sd : ScriptData) (header : string)
  (lines : list string) (n : Z) :
  lines <> [] -> Spec.lines_ok lines = true ->
  (87 <= String.length header)%nat -> 0 <= n < 10 ^ 7 ->
  Z.of_nat (List.length lines) < 10 ^ 6 ->
  Spec.debit_total lines < 10 ^ 12 -> Spec.credit_total lines < 10 ^ 12 ->
  (exists new_header control sd',
     rebuild_batch sd (header :: lines) n =
     Ok (new_header :: lines ++ [control], sd') /\
     String.length new_header = String.length header /\
     String.length control = 94%nat) /\
  (forall bc blk cnt hash debit credit,
     0 <= bc < 10 ^ 6 -> 0 <= blk < 10 ^ 6 -> 0 <= cnt < 10 ^ 8 ->
     0 <= hash < 10 ^ 10 -> 0 <= debit < 10 ^ 12 ->
     0 <= credit < 10 ^ 12 ->
     String.length (file_control_footer bc blk cnt hash debit credit)
     = 94%nat).
Proof.
  intros Hne Hok Hh Hn Hc Hd Hk. split.
  - eexists _, _, _. split; [apply rebuild_batch_spec; assumption |].
    pose proof (length_fmt_0d 7 n ltac:(lia) Hn) as L7.
    split.
    + rewrite length_append, length_drop_last, L7. lia.
    + pose proof (amount_total_nonneg
                    (fun l => endswith "7" (Spec.transaction_code l))
                    lines Hok) as Bd.
      pose proof (amount_total_nonneg
                    (fun l => endswith "2" (Spec.transaction_code l))
                    lines Hok) as Bk.
      fold (Spec.debit_total lines) in Bd.
      fold (Spec.credit_total lines) in Bk.
      assert (Bh : 0 <= Spec.entry_hash lines < 10 ^ 10)
        by (apply Z.mod_pos_bound; lia).
      unfold batch_control_footer.
      rewrite !length_append, !length_slice by lia.
      rewrite (length_fmt_0d 6), (length_fmt_0d 10), !(length_fmt_0d 12), L7
        by lia.
      reflexivity.
  - intros bc blk cnt hash debit credit B1 B2 B3 B4 B5 B6.
    unfold file_control_footer. rewrite !length_append.
    rewrite !(length_fmt_0d 6), (length_fmt_0d 8), (length_fmt_0d 10),
      !(length_fmt_0d 12) by lia.
    reflexivity.
Qed.

Lemma rebuilt_records_have_fixed_width_witness :
  exists new_header control sd',
    rebuild_batch (initialize Samples.sample_args)
      (Samples.batch_header_line :: Samples.mixed_kept_lines) 1 =
    Ok (new_header :: Samples.mixed_kept_lines ++ [control], sd') /\
    String.length new_header = String.length Samples.batch_header_line /\
    String.length control = 94%nat.
Proof.
  refine (proj1 (rebuilt_records_have_fixed_width
                   (initialize Samples.sample_args)
                   Samples.batch_header_line Samples.mixed_kept_lines 1
                   _ _ _ _ _ _ _)).
  - discriminate.
  - vm_compute; reflexivity.
  - vm_compute; lia.
  - lia.
  - vm_compute; reflexivity.
  - vm_compute; reflexivity.
  - vm_compute; reflexivity.
Defined.

End RecordWidths.

(** ** More on the settlement lines *)

Section SettlementLines.
Import Py Ach.

Local Open Scope Z_scope.

Lemma length_pad_left (c : ascii) (w : nat) (s : string) :
  String.length (pad_left c w s) = Nat.max w (String.length s).
Proof.
  unfold pad_left. rewrite length_append, length_repeat_char. lia.
Qed.

Lemma length_pad_right (c : ascii) (w : nat) (s : string) :
  String.length (pad_right c w s) = Nat.max w (String.length s).
Proof.
  unfold pad_right. rewrite length_append, length_repeat_char. lia.
Qed.

Lemma fmt_r0d_nonneg (w : nat) (z : Z) : 0 <= z -> fmt_r0d w z = fmt_0d w z.
Proof.
  intros H. unfold fmt_r0d. now rewrite str_of_nonneg, fmt_0d_nonneg.
Qed.

(** The formatter pads every field to its width and cuts none. *)
Lemma settlement_line_shape (acct code : string) (amount : Z)
  (eff desc trace cash : string) :
  exists line,
    swimFmt_format
      (swim_args (VStr acct) (VStr code) (VInt amount) (VStr eff) (VStr desc)
         (VStr trace) (VStr cash)) = Ok line /\
    String.length line =
      (Nat.max 17 (String.length acct) + Nat.max 4 (String.length code)
       + Nat.max 10 (String.length (str amount)) + 6
       + Nat.max 8 (String.length eff) + Nat.max 45 (String.length desc)
       + Nat.max 15 (String.length trace) + Nat.max 10 (String.length cash)
       + 39)%nat.
Proof.
  eexists. split; [reflexivity |].
  rewrite !length_append, !length_pad_left, !length_pad_right.
  unfold fmt_r0d. rewrite length_pad_left. cbn [String.length]. lia.
Qed.

(** Past a field whose length is known. *)
Ltac past L := rewrite slice_after by lia; rewrite L; cbn [Nat.sub].

(** X13. The settlement formatter pads its fields and never cuts one: a line
    has 154 characters when every field fits its width and is longer by the
    excess of every field that does not.  When the account, the code and the
    amount fit (17 and 4 characters, 0 to 10^10 - 1), the account is read
    back zero-padded in columns 1-17, the code in columns 18-21 and the
    amount in columns 22-31. *)
Theorem settlement_line_layout (acct code : string) (amount : Z)
  (eff desc trace cash : string) :
  exists line,
    swimFmt_format
      (swim_args (VStr acct) (VStr code) (VInt amount) (VStr eff) (VStr desc)
         (VStr trace) (VStr cash)) = Ok line /\
    String.length line =
      (Nat.max 17 (String.length acct) + Nat.max 4 (String.length code)
       + Nat.max 10 (String.length (str amount)) + 6
       + Nat.max 8 (String.length eff) + Nat.max 45 (String.length desc)
       + Nat.max 15 (String.length trace) + Nat.max 10 (String.length cash)
       + 39)%nat /\
    ((String.length acct <= 17)%nat -> (String.length code <= 4)%nat ->
     0 <= amount < 10 ^ 10 ->
     slice 0 17 line = pad_left "0" 17 acct /\
     slice 17 21 line = pad_right " " 4 code /\
     int (slice 21 31 line) = Ok amount).
Proof.
  eexists. split; [reflexivity |]. split.
  - rewrite !length_append, !length_pad_left, !length_pad_right.
    unfold fmt_r0d. rewrite length_pad_left. cbn [String.length]. lia.
  - intros La Lc Hz.
    assert (L1 : String.length (pad_left "0" 17 acct) = 17%nat)
      by (rewrite length_pad_left; lia).
    assert (L2 : String.length (pad_right " " 4 code) = 4%nat)
      by (rewrite length_pad_right; lia).
    rewrite (fmt_r0d_nonneg 10 amount) by lia.
    pose proof (length_fmt_0d 10 amount ltac:(lia) Hz) as L3.
    split; [now apply slice_head |]. split.
    + past L1. now apply slice_head.
    + past L1. past L2. rewrite slice_head by exact L3.
      apply int_fmt_0d. lia.
Qed.

Lemma settlement_line_layout_witness :
  exists line,
    swimFmt_format
      (swim_args (VStr "12345678") (VStr "DEPD") (VInt 12345)
         (VStr "08112025") (VStr "OAO External Transfer")
         (VStr "061000140000001") (VStr "77")) = Ok line /\
    String.length line = 154%nat /\
    slice 0 17 line = "00000000012345678" /\
    slice 17 21 line = "DEPD" /\
    int (slice 21 31 line) = Ok 12345.
Proof.
  destruct (settlement_line_layout "12345678" "DEPD" 12345 "08112025"
              "OAO External Transfer" "061000140000001" "77")
    as (line & E & L & F).
  destruct (F ltac:(vm_compute; lia) ltac:(vm_compute; lia) ltac:(lia))
    as (F1 & F2 & F3).
  exists line. split; [exact E |]. split; [exact L |].
  split; [exact F1 |]. split; [exact F2 | exact F3].
Defined.

Lemma swim_record_unmapped (sd : ScriptData) (data : list PyVal)
  (tc : string) :
  nth_error data 2 = Some (VStr tc) -> tc <> "22" -> tc <> "32" ->
  exists e, swim_record sd data = Raise e.
Proof.
  intros H N1 N2. unfold swim_record.
  destruct (item_int data 3) as [a | e]; cbn [bind]; [| eauto].
  destruct (info sd) as [i | e]; cbn [bind]; [| eauto].
  unfold create_swim_line.
  destruct (item data 3) as [v | e]; cbn [bind]; [| eauto].
  destruct (info _) as [i1 | e]; cbn [bind]; [| eauto].
  unfold item at 1. rewrite H. cbn [bind achToDnaTc].
  destruct (String.eqb_spec tc "22") as [E | _]; [contradiction |].
  destruct (String.eqb_spec tc "32") as [E | _]; [contradiction |].
  cbn [bind]. eauto.
Qed.

(** X14. A transaction code other than 22 and 32 in an on-us record makes
    the settlement stage raise: no line is written with a default code or
    description, and the stage writes no file. *)
Theorem unmapped_code_stops_the_settlement (sd : ScriptData)
  (data : list PyVal) (tc : string) :
  In data (all_onus_data sd) ->
  nth_error data 2 = Some (VStr tc) -> tc <> "22" -> tc <> "32" ->
  exists e,
    loop_through_onus_data_create_swim_file_and_stage_holds sd = Raise e.
Proof.
  intros I H N1 N2.
  unfold loop_through_onus_data_create_swim_file_and_stage_holds.
  assert (G : forall datas sd0,
            In data datas -> exists e, swim_records sd0 datas = Raise e).
  { induction datas as [|d datas IH]; intros sd0 Hin; [contradiction |].
    cbn [swim_records]. destruct Hin as [-> | Hin].
    - destruct (swim_record_unmapped sd0 data tc H N1 N2) as [e ->].
      cbn [bind]. eauto.
    - destruct (swim_record sd0 d) as [sd1 | e]; cbn [bind]; [| eauto].
      now apply IH. }
  destruct (G (all_onus_data sd) sd I) as [e ->]. cbn [bind]. eauto.
Qed.

Lemma unmapped_code_stops_the_settlement_witness :
  exists e,
    loop_through_onus_data_create_swim_file_and_stage_holds
      (get_swim_file_info
         (set_all_onus_data
            [[VStr "321180379"; VStr "12345678"; VStr "27"; VInt 12345;
              VStr "061000140000001"; VStr "a line"; VStr "a description"]]
            (initialize Samples.sample_args))) = Raise e.
Proof.
  refine (unmapped_code_stops_the_settlement _ _ "27" _ _ _ _).
  - left; reflexivity.
  - reflexivity.
  - discriminate.
  - discriminate.
Defined.

End SettlementLines.

(** ** More on the routing number checks *)

Section Checksum.
Import Py Ach.

Local Open Scope Z_scope.

Lemma digit_val_inj (c1 c2 : ascii) :
  is_digit c1 = true -> is_digit c2 = true ->
  digit_val c1 = digit_val c2 -> c1 = c2.
Proof.
  intros D1 D2. apply is_digit_cases in D1, D2. cbn [In] in D1, D2.
  repeat (destruct D1 as [<- | D1]; [
    repeat (destruct D2 as [<- | D2];
            [intros E; solve [reflexivity | discriminate E] |]);
    contradiction |]).
  contradiction.
Qed.

Lemma Ok_inj (A : Type) (a b : A) : Ok a = Ok b -> a = b.
Proof. intros H. now injection H. Qed.

(** X15. The checksum tells every substitution of one digit: of two strings
    of 9 digits that differ in exactly one place, at most one passes
    [validate_routing_number_checksum]. *)
Theorem checksum_detects_one_wrong_digit (s1 s2 : string) :
  Spec.nine_digits s1 = true -> Spec.nine_digits s2 = true ->
  More.differences s1 s2 = 1%nat ->
  validate_routing_number_checksum s1 = Ok true ->
  validate_routing_number_checksum s2 = Ok false.
Proof.
  intros N1 N2 D.
  rewrite (validate_routing_number_checksum_spec s1 N1),
    (validate_routing_number_checksum_spec s2 N2).
  destruct (nine_digits_shape s1 N1)
    as (a1 & a2 & a3 & a4 & a5 & a6 & a7 & a8 & a9 & -> & A1 & A2 & A3 & A4
        & A5 & A6 & A7 & A8 & A9).
  destruct (nine_digits_shape s2 N2)
    as (b1 & b2 & b3 & b4 & b5 & b6 & b7 & b8 & b9 & -> & B1 & B2 & B3 & B4
        & B5 & B6 & B7 & B8 & B9).
  unfold Spec.checksum_ok, Spec.weighted_sum, Spec.digit_at.
  cbn [Nat.sub get]. cbn [More.differences String.length] in D.
  intros H. apply Ok_inj in H. apply Z.eqb_eq in H.
  f_equal. apply Z.eqb_neq.
  pose proof (digit_val_range _ A1). pose proof (digit_val_range _ A2).
  pose proof (digit_val_range _ A3). pose proof (digit_val_range _ A4).
  pose proof (digit_val_range _ A5). pose proof (digit_val_range _ A6).
  pose proof (digit_val_range _ A7). pose proof (digit_val_range _ A8).
  pose proof (digit_val_range _ A9).
  pose proof (digit_val_range _ B1). pose proof (digit_val_range _ B2).
  pose proof (digit_val_range _ B3). pose proof (digit_val_range _ B4).
  pose proof (digit_val_range _ B5). pose proof (digit_val_range _ B6).
  pose proof (digit_val_range _ B7). pose proof (digit_val_range _ B8).
  pose proof (digit_val_range _ B9).
  pose proof (digit_val_inj a1 b1 A1 B1). pose proof (digit_val_inj a2 b2 A2 B2).
  pose proof (digit_val_inj a3 b3 A3 B3). pose proof (digit_val_inj a4 b4 A4 B4).
  pose proof (digit_val_inj a5 b5 A5 B5). pose proof (digit_val_inj a6 b6 A6 B6).
  pose proof (digit_val_inj a7 b7 A7 B7). pose proof (digit_val_inj a8 b8 A8 B8).
  pose proof (digit_val_inj a9 b9 A9 B9).
  destruct (Ascii.eqb_spec a1 b1); destruct (Ascii.eqb_spec a2 b2);
    try (exfalso; lia);
    destruct (Ascii.eqb_spec a3 b3); try (exfalso; lia);
    destruct (Ascii.eqb_spec a4 b4); try (exfalso; lia);
    destruct (Ascii.eqb_spec a5 b5); try (exfalso; lia);
    destruct (Ascii.eqb_spec a6 b6); try (exfalso; lia);
    destruct (Ascii.eqb_spec a7 b7); try (exfalso; lia);
    destruct (Ascii.eqb_spec a8 b8); try (exfalso; lia);
    destruct (Ascii.eqb_spec a9 b9); try (exfalso; lia);
    subst.
  all: intros Hsnd;
    apply Z.mod_divide in H; [| lia]; apply Z.mod_divide in Hsnd; [| lia];
    destruct H as [k1 K1], Hsnd as [k2 K2];
    match goal with
    | N : ?a <> ?b, I : digit_val ?a = digit_val ?b -> ?a = ?b |- _ =>
        assert (digit_val a <> digit_val b) by (intros E; exact (N (I E)))
    end.
  all: lia.
Qed.

Lemma checksum_detects_one_wrong_digit_witness :
  validate_routing_number_checksum "321180379" = Ok true /\
  validate_routing_number_checksum "321180349" = Ok false.
Proof.
  assert (P : validate_routing_number_checksum "321180379" = Ok true)
    by (vm_compute; reflexivity).
  split; [exact P |].
  exact (checksum_detects_one_wrong_digit "321180379" "321180349"
           ltac:(vm_compute; reflexivity) ltac:(vm_compute; reflexivity)
           ltac:(vm_compute; reflexivity) P).
Defined.

Lemma int_not_digit (c : ascii) :
  is_digit c = false -> int (String c "") = Raise ValueError.
Proof.
  destruct c as [[] [] [] [] [] [] [] []]; intros H;
    solve [discriminate H | vm_compute; reflexivity].
Qed.

Lemma int_each_digits (s : string) :
  all_digits s = true ->
  int_each s = Ok (map digit_val (list_ascii_of_string s)).
Proof.
  induction s as [|c s IH]; intros H; [reflexivity |].
  cbn [all_digits] in H. apply andb_prop in H. destruct H as [Hc Hs].
  cbn [int_each list_ascii_of_string map].
  rewrite (int_digit_char c Hc). cbn [bind]. rewrite (IH Hs). reflexivity.
Qed.

Lemma int_each_not_digits (s : string) :
  all_digits s = false -> int_each s = Raise ValueError.
Proof.
  induction s as [|c s IH]; intros H; [discriminate H |].
  cbn [all_digits] in H. cbn [int_each].
  destruct (is_digit c) eqn:D.
  - rewrite (int_digit_char c D). cbn [bind]. cbn [andb] in H.
    rewrite (IH H). reflexivity.
  - rewrite (int_not_digit c D). reflexivity.
Qed.

Lemma length_list_ascii (s : string) :
  List.length (list_ascii_of_string s) = String.length s.
Proof. induction s as [|c s IH]; cbn; [reflexivity | now rewrite IH]. Qed.

Lemma nth_error_digit (s : string) (i : nat) :
  nth_error (map digit_val (list_ascii_of_string s)) i =
  option_map digit_val (get i s).
Proof.
  revert i; induction s as [|c s IH]; intros [|i]; cbn; auto.
Qed.

(** X16. Called on its own, [validate_routing_number_checksum] converts every
    character before it looks at the first nine: it raises [ValueError] when
    any character, even after the ninth, is not a digit, raises [IndexError]
    on fewer than nine digits, and on nine digits or more returns the check
    of the first nine. *)
Theorem checksum_on_its_own (s : string) :
  (all_digits s = false ->
   validate_routing_number_checksum s = Raise ValueError) /\
  (all_digits s = true -> (String.length s < 9)%nat ->
   validate_routing_number_checksum s = Raise IndexError) /\
  (all_digits s = true -> (9 <= String.length s)%nat ->
   validate_routing_number_checksum s = Ok (Spec.checksum_ok s)).
Proof.
  unfold validate_routing_number_checksum. split; [| split].
  - intros H. rewrite (int_each_not_digits s H). reflexivity.
  - intros H L. rewrite (int_each_digits s H). cbn [bind].
    unfold item_Z. rewrite !nth_error_digit.
    destruct s as [|c1 [|c2 [|c3 [|c4 [|c5 [|c6 [|c7 [|c8 [|c9 r]]]]]]]]];
      cbn [String.length] in L; try lia; reflexivity.
  - intros H L. rewrite (int_each_digits s H). cbn [bind].
    unfold item_Z. rewrite !nth_error_digit.
    destruct s as [|c1 [|c2 [|c3 [|c4 [|c5 [|c6 [|c7 [|c8 [|c9 r]]]]]]]]];
      cbn [String.length] in L; try lia.
    cbn [get option_map bind].
    unfold Spec.checksum_ok, Spec.weighted_sum, Spec.digit_at.
    cbn [Nat.sub get]. do 2 f_equal. f_equal. ring.
Qed.

Lemma checksum_on_its_own_witness :
  validate_routing_number_checksum "32118037900x" = Raise ValueError /\
  validate_routing_number_checksum "32118037" = Raise IndexError /\
  validate_routing_number_checksum "3211803791234"
  = Ok (Spec.checksum_ok "3211803791234").
Proof.
  split; [| split].
  - exact (proj1 (checksum_on_its_own "32118037900x")
             ltac:(vm_compute; reflexivity)).
  - exact (proj1 (proj2 (checksum_on_its_own "32118037"))
             ltac:(vm_compute; reflexivity) ltac:(vm_compute; lia)).
  - exact (proj2 (proj2 (checksum_on_its_own "3211803791234"))
             ltac:(vm_compute; reflexivity) ltac:(vm_compute; lia)).
Defined.

End Checksum.

(** ** Whole runs *)

Section WholeRuns.
Import Py Ach.

Local Open Scope Z_scope.

Lemma parse_line_file_header (st : PState) (raw : string) :
  startswith "101" (strip raw) = true ->
  parse_line st raw =
  Ok (Continue {| p_sd := set_file_header (strip raw) (p_sd st);
                  current_batch := current_batch st;
                  onus_data := onus_data st;
                  is_onus := is_onus st |}).
Proof.
  intros H. unfold parse_line. cbv zeta. rewrite H.
  destruct (strip raw) as [|c r]; [discriminate H | reflexivity].
Qed.

Lemma parse_line_batch_header (st : PState) (raw : string) :
  startswith "5" (strip raw) = true ->
  parse_line st raw =
  Ok (Continue {| p_sd := p_sd st;
                  current_batch := [strip raw];
                  onus_data := onus_data st;
                  is_onus := is_onus st |}).
Proof.
  intros H. unfold parse_line. cbv zeta.
  destruct (startswith_char _ _ H) as [r E].
  destruct (line_types "5" r) as (T & _ & N). rewrite <- E in T, N.
  rewrite T, !N, H by discriminate. reflexivity.
Qed.

Lemma candidate_record_ok (route line : string) (z : Z) (d : string) :
  onus_match route line = true ->
  Spec.onus_record_ok (More.candidate_of line z ++ [VStr d]) = true.
Proof. intros M. cbn. exact (onus_match_tc route line M). Qed.

(** X17. A file with one batch whose only entry is an on-us credit with its
    marker addenda: the run succeeds, the batch is left out of the rewritten
    file, which is the file header, a file control record of zeros with
    block count 1 and eight padding lines, and the settlement file has two
    lines, the line of the credit and the ledger offset for its amount. *)
Theorem lone_onus_entry_empties_its_batch (a : Args)
  (raw1 raw5 raw_detail raw_addenda raw8 : string) (z : Z) (g : string) :
  startswith "101" (strip raw1) = true ->
  startswith "5" (strip raw5) = true ->
  More.from_detail (FTFCU_ROUTENBR a) (strip raw_detail) z ->
  (80 <= String.length (strip raw_detail))%nat ->
  startswith "7" (strip raw_addenda) = true ->
  contains "EXT OAO" (strip raw_addenda) = true ->
  re_match_705 (strip raw_addenda) = Some g ->
  startswith "8" (strip raw8) = true ->
  exists line offset,
    run a [raw1; raw5; raw_detail; raw_addenda; raw8] true =
    {| new_ach_file_text :=
         Some (join_lines ([strip raw1; file_control_footer 0 1 0 0 0 0]
                           ++ repeat extra_row 8));
       swim_file_text := Some (join_lines ([line] ++ [offset]));
       status := true |} /\
    Spec.settlement_line a (EFFDATE a)
      (More.candidate_of (strip raw_detail) z
       ++ [VStr (slice 0 128 (strip g))]) = Ok line /\
    Spec.offset_line a (EFFDATE a) z = Ok offset.
Proof.
  intros H1 H5 F L H7 M R H8.
  set (rec := More.candidate_of (strip raw_detail) z
              ++ [VStr (slice 0 128 (strip g))]).
  set (sd := set_newach_data [[strip raw5]]
               (set_all_onus_data [rec]
                  (set_file_header (strip raw1) (initialize a)))).
  assert (P : parse_ach_file (initialize a)
                [raw1; raw5; raw_detail; raw_addenda; raw8] = Ok sd).
  { unfold parse_ach_file. cbn [parse_lines].
    rewrite (parse_line_file_header _ raw1 H1). cbn [bind].
    rewrite (parse_line_batch_header _ raw5 H5). cbn [bind].
    erewrite parse_line_candidate; [| reflexivity | exact F]. cbn [bind].
    rewrite (parse_line_addenda _ raw_addenda H7). cbv zeta.
    cbn [is_onus onus_data p_sd current_batch].
    rewrite (sequence_nbr_truthy _ L), M, R. cbn [negb bind].
    rewrite (parse_line_batch_control _ raw8 H8).
    cbn [current_batch nonempty]. rewrite flush_pending_idle by reflexivity.
    reflexivity. }
  assert (W : write_new_ach_file sd =
              Ok (join_lines ([strip raw1; file_control_footer 0 1 0 0 0 0]
                              ++ repeat extra_row 8), sd)).
  { unfold write_new_ach_file, rebuild_file.
    rewrite (rebuild_batches_none_kept (newach_data sd) sd 0
               [file_header sd] eq_refl).
    cbn [bind]. rewrite (int_suffix_str (entry_hash_cnt sd) 10) by
      (cbn; lia).
    reflexivity. }
  destruct (settlement_stage_spec sd eq_refl)
    as (lines & offset & sd3 & E & _ & F2 & O).
  { cbn [sd all_onus_data set_newach_data set_all_onus_data forallb].
    destruct F as (Mo & _). unfold rec.
    now rewrite (candidate_record_ok (FTFCU_ROUTENBR a) (strip raw_detail) z
                   (slice 0 128 (strip g)) Mo). }
  cbn [sd all_onus_data set_newach_data set_all_onus_data] in F2, O.
  inversion F2 as [| x y xs ys Hxy Hrest]; subst.
  inversion Hrest; subst.
  exists y, offset. split; [| split].
  - unfold run. rewrite P, W. cbn [negb]. rewrite E. reflexivity.
  - exact Hxy.
  - unfold Spec.onus_total in O. cbn [map Spec.sum_Z] in O.
    replace (Spec.onus_amount rec + 0) with z in O; [exact O |].
    unfold Spec.onus_amount, rec. cbn [More.candidate_of app nth_error].
    lia.
Qed.

Lemma lone_onus_entry_empties_its_batch_witness :
  exists line offset,
    run Samples.sample_args
      [Samples.file_header_line; Samples.batch_header_line;
       Samples.onus_detail; Samples.marker_addenda;
       Samples.batch_control_line] true =
    {| new_ach_file_text :=
         Some (join_lines ([strip Samples.file_header_line;
                            file_control_footer 0 1 0 0 0 0]
                           ++ repeat extra_row 8));
       swim_file_text := Some (join_lines ([line] ++ [offset]));
       status := true |}.
Proof.
  destruct (lone_onus_entry_empties_its_batch Samples.sample_args
              Samples.file_header_line Samples.batch_header_line
              Samples.onus_detail Samples.marker_addenda
              Samples.batch_control_line 12345
              (slice 3 91 Samples.marker_addenda)
              ltac:(vm_compute; reflexivity) ltac:(vm_compute; reflexivity)
              ltac:(repeat split; vm_compute;
                    solve [reflexivity | lia | intros K; discriminate K])
              ltac:(vm_compute; lia)
              ltac:(vm_compute; reflexivity) ltac:(vm_compute; reflexivity)
              ltac:(vm_compute; reflexivity) ltac:(vm_compute; reflexivity))
    as (line & offset & R & _).
  exists line, offset. exact R.
Defined.

Lemma endswith_2_of_code (tc : string) :
  ((tc =? "22")%string || (tc =? "32")%string) = true ->
  endswith "2" tc = true.
Proof.
  intros H. apply orb_prop in H.
  destruct H as [H | H]; apply String.eqb_eq in H; subst tc; reflexivity.
Qed.

(** X18. A file with one batch whose only entry is an on-us credit with an
    addenda that lacks the marker: the run succeeds, both lines stay in the
    batch as they are, between the renumbered header and a batch control
    record that counts 2 lines and the amount of the credit, and the
    settlement file has the ledger offset line alone, for the amount 0. *)
Theorem disqualified_entry_stays_in_its_batch (a : Args)
  (raw1 raw5 raw_detail raw_addenda raw8 : string) :
  let header := strip raw5 in
  let detail := strip raw_detail in
  let addenda := strip raw_addenda in
  startswith "101" (strip raw1) = true ->
  startswith "5" header = true ->
  onus_match (FTFCU_ROUTENBR a) detail = true ->
  Spec.detail_ok detail = true ->
  (80 <= String.length detail)%nat ->
  startswith "7" addenda = true ->
  contains "EXT OAO" addenda = false ->
  startswith "8" (strip raw8) = true ->
  exists offset,
    run a [raw1; raw5; raw_detail; raw_addenda; raw8] true =
    {| new_ach_file_text :=
         Some (join_lines
                 ([strip raw1; drop_last 7 header +++ fmt_0d 7 1; detail;
                   addenda;
                   batch_control_footer (slice 1 4 header) 2
                     (Spec.rightmost10 (Spec.routing8 detail)) 0
                     (Spec.amount detail) (slice 40 49 header)
                     (slice 79 87 header) (fmt_0d 7 1);
                   file_control_footer 1 1 2
                     (Spec.rightmost10 (Spec.routing8 detail)) 0
                     (Spec.amount detail)]
                  ++ repeat extra_row 4));
       swim_file_text := Some (join_lines ([] ++ [offset]));
       status := true |} /\
    Spec.offset_line a (EFFDATE a) 0 = Ok offset.
Proof.
  intros header detail addenda H1 H5 Mo Dok L H7 M H8.
  subst header detail addenda.
  destruct (detail_ok_fields _ Dok) as (L79 & _ & Ha).
  assert (F : More.from_detail (FTFCU_ROUTENBR a) (strip raw_detail)
                (Spec.amount (strip raw_detail))).
  { split; [exact Mo |]. split; [| exact L79].
    unfold More.amount_field. now apply int_amount_field. }
  set (sd := set_newach_data
               [[strip raw5; strip raw_detail; strip raw_addenda]]
               (set_file_header (strip raw1) (initialize a))).
  assert (P : parse_ach_file (initialize a)
                [raw1; raw5; raw_detail; raw_addenda; raw8] = Ok sd).
  { unfold parse_ach_file. cbn [parse_lines].
    rewrite (parse_line_file_header _ raw1 H1). cbn [bind].
    rewrite (parse_line_batch_header _ raw5 H5). cbn [bind].
    erewrite parse_line_candidate; [| reflexivity | exact F]. cbn [bind].
    rewrite (parse_line_addenda _ raw_addenda H7). cbv zeta.
    cbn [is_onus onus_data p_sd current_batch].
    rewrite (sequence_nbr_truthy _ L), M.
    cbn [negb bind pop_line rev app More.candidate_of].
    rewrite (parse_line_batch_control _ raw8 H8).
    cbn [current_batch nonempty app].
    rewrite flush_pending_idle by reflexivity.
    reflexivity. }
  destruct (onus_match_type _ _ Mo) as [r Er].
  assert (D6 : Spec.is_detail (strip raw_detail) = true)
    by (unfold Spec.is_detail; rewrite Er; apply line_types).
  destruct (startswith_char _ _ H7) as [r7 E7].
  assert (A6 : Spec.is_detail (strip raw_addenda) = false)
    by (unfold Spec.is_detail; rewrite E7;
        apply startswith_head_neq; discriminate).
  pose proof (endswith_2_of_code _ (onus_match_tc _ _ Mo)) as C2.
  pose proof (endswith_2_not_7 _ C2) as C7.
  assert (Lok : Spec.lines_ok [strip raw_detail; strip raw_addenda] = true).
  { cbn [Spec.lines_ok forallb]. rewrite D6, A6, Dok. reflexivity. }
  assert (Eh : Spec.routing_sum [strip raw_detail; strip raw_addenda]
               = Spec.routing8 (strip raw_detail)).
  { unfold Spec.routing_sum. cbn [Spec.sum_details].
    rewrite D6, A6. cbn [andb]. lia. }
  assert (Ed : Spec.debit_total [strip raw_detail; strip raw_addenda] = 0).
  { unfold Spec.debit_total. cbn [Spec.sum_details].
    unfold Spec.transaction_code. rewrite D6, A6, C7. cbn [andb]. lia. }
  assert (Ec : Spec.credit_total [strip raw_detail; strip raw_addenda]
               = Spec.amount (strip raw_detail)).
  { unfold Spec.credit_total. cbn [Spec.sum_details].
    unfold Spec.transaction_code. rewrite D6, A6, C2. cbn [andb]. lia. }
  assert (Bh : 0 <= Spec.rightmost10 (Spec.routing8 (strip raw_detail)))
    by (apply Z.mod_pos_bound; lia).
  assert (W : exists sd2,
            write_new_ach_file sd =
            Ok (join_lines
                  ([strip raw1; drop_last 7 (strip raw5) +++ fmt_0d 7 1;
                    strip raw_detail; strip raw_addenda;
                    batch_control_footer (slice 1 4 (strip raw5)) 2
                      (Spec.rightmost10 (Spec.routing8 (strip raw_detail))) 0
                      (Spec.amount (strip raw_detail))
                      (slice 40 49 (strip raw5)) (slice 79 87 (strip raw5))
                      (fmt_0d 7 1);
                    file_control_footer 1 1 2
                      (Spec.rightmost10 (Spec.routing8 (strip raw_detail))) 0
                      (Spec.amount (strip raw_detail))]
                   ++ repeat extra_row 4), sd2) /\
            all_onus_data sd2 = [] /\ swm_lines sd2 = [] /\ args sd2 = a).
  { unfold write_new_ach_file, rebuild_file, sd.
    cbn [newach_data set_newach_data rebuild_batches].
    rewrite (rebuild_batch_spec _ (strip raw5)
               [strip raw_detail; strip raw_addenda] (0 + 1)
               ltac:(discriminate) Lok).
    cbn [bind nonempty]. unfold Spec.entry_hash.
    rewrite Eh, Ed, Ec.
    cbn [add_totals entry_hash_cnt total_credit total_debit total_record_cnt
           set_newach_data set_file_header initialize file_header].
    rewrite (int_suffix_str _ 10) by lia. cbn [bind].
    rewrite !Z.add_0_l.
    change (10 ^ Z.of_nat 10) with (10 ^ 10).
    assert (Em : Spec.rightmost10 (Spec.routing8 (strip raw_detail))
                 mod 10 ^ 10
                 = Spec.rightmost10 (Spec.routing8 (strip raw_detail)))
      by (unfold Spec.rightmost10; apply Z.mod_mod; lia).
    rewrite Em.
    eexists. split; [reflexivity |]. repeat split. }
  destruct W as (sd2 & W & Wd & Wl & Wa).
  destruct (settlement_stage_spec sd2 Wl)
    as (lines & offset & sd3 & E & _ & F2 & O).
  { now rewrite Wd. }
  rewrite Wd in F2, O. inversion F2; subst lines.
  rewrite Wa in O.
  exists offset. split; [| exact O].
  unfold run. rewrite P, W. cbn [negb]. rewrite E. reflexivity.
Qed.

Lemma disqualified_entry_stays_in_its_batch_witness :
  exists new_text offset,
    run Samples.sample_args
      [Samples.file_header_line; Samples.batch_header_line;
       Samples.onus_detail_2; Samples.plain_addenda;
       Samples.batch_control_line] true =
    {| new_ach_file_text := Some new_text;
       swim_file_text := Some (join_lines ([] ++ [offset]));
       status := true |}.
Proof.
  destruct (disqualified_entry_stays_in_its_batch Samples.sample_args
              Samples.file_header_line Samples.batch_header_line
              Samples.onus_detail_2 Samples.plain_addenda
              Samples.batch_control_line
              ltac:(vm_compute; reflexivity) ltac:(vm_compute; reflexivity)
              ltac:(vm_compute; reflexivity) ltac:(vm_compute; reflexivity)
              ltac:(vm_compute; lia)
              ltac:(vm_compute; reflexivity) ltac:(vm_compute; reflexivity)
              ltac:(vm_compute; reflexivity))
    as (offset & R & _).
  eexists _, offset. exact R.
Defined.

End WholeRuns.

(** ** Detail fields and the length of settlement lines

    The fields that [parse_ach_detail_record] cuts out of an entry detail
    line, and what they mean for the line that [create_swim_line] writes. *)

Section DetailFields.
Import Py Ach.

Local Open Scope Z_scope.

Lemma remove_spaces_spec (s : string) :
  More.no_space (remove_spaces s) = true /\
  (String.length (remove_spaces s) <= String.length s)%nat.
Proof.
  induction s as [|c s [IH1 IH2]]; [split; [reflexivity | cbn; lia] |].
  cbn [remove_spaces].
  destruct (Ascii.eqb_spec c " ") as [-> | N].
  - split; [exact IH1 | cbn [String.length]; lia].
  - cbn [More.no_space String.length]. split; [| lia].
    rewrite IH1. destruct (Ascii.eqb_spec c " "); [contradiction |].
    reflexivity.
Qed.

(** X19. What [parse_ach_detail_record] returns has bounded fields: a
    routing number of 9 characters, a transaction code of 2, an account
    number of at most 17 characters without a space, a trace number of at
    most 15 characters and, as the sequence number, its last 7; an amount
    field of digits gives its value, from 0 to 10^10 - 1.  It returns only
    for lines of at least 79 characters. *)
Theorem detail_fields_are_bounded (line : string) (d : Detail) :
  parse_ach_detail_record line = Ok d ->
  (79 <= String.length line)%nat /\
  String.length (rtnbr d) = 9%nat /\ String.length (ach_tc d) = 2%nat /\
  (String.length (acctnbr d) <= 17)%nat /\
  More.no_space (acctnbr d) = true /\
  (String.length (trace_nbr d) <= 15)%nat /\
  sequence_nbr d = suffix 7 (trace_nbr d) /\
  (String.length (sequence_nbr d) <= 7)%nat /\
  (all_digits (slice 29 39 line) = true ->
   amt d = Spec.amount line /\ 0 <= amt d < 10 ^ 10).
Proof.
  intros P.
  destruct (parse_ach_detail_record_fields line d P)
    as (D1 & D2 & D3 & D4 & D5 & D6 & _ & L).
  destruct (remove_spaces_spec (slice 12 29 line)) as [S1 S2].
  rewrite D1, D2, D3, D5, D6.
  split; [exact L |].
  split; [unfold slice; rewrite length_substring; lia |].
  split; [unfold slice; rewrite length_substring; lia |].
  split; [unfold slice in *; rewrite length_substring in S2; lia |].
  split; [exact S1 |].
  split; [unfold slice; rewrite length_substring; lia |].
  split; [reflexivity |].
  split; [rewrite length_suffix; lia |].
  intros A. unfold More.amount_field in D4.
  rewrite (int_amount_field _ A) in D4. apply Ok_inj in D4.
  split; [now rewrite <- D4 |].
  rewrite <- D4. pose proof (digits_value_bounds _ A) as B.
  rewrite length_slice in B by lia. cbn in B. lia.
Qed.

Lemma detail_fields_are_bounded_witness :
  exists d,
    parse_ach_detail_record Samples.onus_detail = Ok d /\
    (String.length (acctnbr d) <= 17)%nat.
Proof.
  eexists. split; [vm_compute; reflexivity |].
  refine (proj1 (proj2 (proj2 (proj2
            (detail_fields_are_bounded Samples.onus_detail _ _))))).
  vm_compute; reflexivity.
Defined.

(** X20. The settlement line that [create_swim_line] writes for an on-us
    record of the parser has 154 characters, whatever the line the record
    was made from, when the amount field of that line is digits, the
    effective date has at most 8 characters and the cash box number at most
    10. *)
Theorem parsed_records_give_lines_of_154 (sd : ScriptData)
  (i : SwimFileInfo) (route : string) (data : list PyVal) :
  swim_file_info sd = Some i ->
  More.record_of_line route data ->
  (forall line, nth_error data 5 = Some (VStr line) ->
                all_digits (slice 29 39 line) = true) ->
  (String.length (effDate i) <= 8)%nat ->
  (String.length (CASH_BOX_NUMBER (args sd)) <= 10)%nat ->
  exists text,
    create_swim_line sd data = Ok text /\ String.length text = 154%nat.
Proof.
  intros Hi (line & z & addenda & g & -> & (Mo & Hz & L79) & _) Hd Le Lc.
  specialize (Hd line eq_refl).
  unfold More.amount_field in Hz.
  rewrite (int_amount_field _ Hd) in Hz. apply Ok_inj in Hz.
  pose proof (digits_value_bounds _ Hd) as B.
  rewrite length_slice in B by lia.
  assert (Bz : 0 <= z < 10 ^ 10) by (rewrite <- Hz; cbn in B; lia).
  pose proof (onus_match_tc _ _ Mo) as Tc.
  unfold create_swim_line, info. rewrite Hi.
  cbn [More.candidate_of app item nth_error bind achToDnaTc].
  apply orb_prop in Tc.
  assert (T : (if (slice 1 3 line =? "22")%string
               then Ok ("DEPD", "OAO External Transfer")
               else if (slice 1 3 line =? "32")%string
                    then Ok ("DEPD", "OAO External Transfer")
                    else Raise KeyError)
              = Ok ("DEPD", "OAO External Transfer")).
  { destruct Tc as [-> | E]; [reflexivity |].
    rewrite E. now destruct (_ =? "22")%string. }
  rewrite T. cbn [bind].
  destruct (settlement_line_shape (remove_spaces (slice 12 29 line)) "DEPD" z
              (effDate i) "OAO External Transfer" (slice 79 94 line)
              (CASH_BOX_NUMBER (args sd)))
    as (text & E & Lt).
  exists text. split; [exact E |]. rewrite Lt.
  destruct (remove_spaces_spec (slice 12 29 line)) as [_ S2].
  unfold slice in *. rewrite length_substring in S2 |- *.
  assert (Ls : (String.length (str z) <= 10)%nat).
  { rewrite str_of_nonneg by lia. apply length_str_nonneg; lia. }
  cbn [String.length]. lia.
Qed.

Lemma parsed_records_give_lines_of_154_witness :
  exists text,
    create_swim_line (get_swim_file_info Samples.mixed_parsed)
      (More.candidate_of Samples.onus_detail 12345
       ++ [VStr (slice 0 128 (strip (slice 3 91 Samples.marker_addenda)))])
    = Ok text /\
    String.length text = 154%nat.
Proof.
  refine (parsed_records_give_lines_of_154
            (get_swim_file_info Samples.mixed_parsed)
            {| effDate := "08112025"; swimCt := 0; extPmtCt := 0;
               glDrAmt := 0; glCrAmt := 0; extPmtAmt := 0 |}
            "321180379" _ _ _ _ _ _).
  - vm_compute; reflexivity.
  - exists Samples.onus_detail, 12345, Samples.marker_addenda,
      (slice 3 91 Samples.marker_addenda).
    repeat split; vm_compute;
      solve [reflexivity | lia | intros K; discriminate K].
  - intros line H. vm_compute in H. injection H as <-.
    vm_compute; reflexivity.
  - vm_compute; lia.
  - vm_compute; lia.
Defined.

End DetailFields.

(** ** Digits that are no decimal digits *)

Section DigitsThatIntRefuses.
Import Py Ach.

Local Open Scope Z_scope.

Lemma isdigit_text_not_decimals (s : text) :
  isdigit_text s = true -> Spec.digits_convert s = false ->
  forallb is_decimal s = false.
Proof.
  unfold isdigit_text, Spec.digits_convert.
  destruct s as [|c s]; [discriminate |].
  generalize (c :: s). clear c s. intros s.
  induction s as [|c s IH]; intros D C; [discriminate C |].
  cbn [forallb] in *. apply andb_prop in D. destruct D as [Dc Ds].
  rewrite Dc in C. cbn [implb] in C.
  destruct (is_decimal c); [| reflexivity].
  cbn [andb] in *. exact (IH Ds C).
Qed.

(** X21. [validate_route_number] raises in one case only, and then
    [ValueError]: the text passes the first three checks (every character
    is one that [str.isdigit] accepts, there are 9, characters 3-4 are a
    district prefix) and has a character that [int] refuses, a superscript
    or a circled digit for instance.  The checksum is then never computed
    and no reason is printed. *)
Theorem digit_that_int_refuses_raises (rtnbr : text) :
  (isdigit_text rtnbr = true -> List.length rtnbr = 9%nat ->
   Spec.district_prefix_ok rtnbr = true ->
   Spec.digits_convert rtnbr = false ->
   OnText.validate_route_number rtnbr = Raise ValueError) /\
  (forall e,
     OnText.validate_route_number rtnbr = Raise e ->
     e = ValueError /\ isdigit_text rtnbr = true /\
     List.length rtnbr = 9%nat /\ Spec.district_prefix_ok rtnbr = true /\
     Spec.digits_convert rtnbr = false).
Proof.
  split.
  - intros D L F C. unfold OnText.validate_route_number.
    rewrite D, L, (is_valid_fed_symbol_text rtnbr L), F. cbn [negb Nat.eqb].
    unfold OnText.validate_routing_number_checksum.
    now rewrite (int_each_not_decimals rtnbr
                   (isdigit_text_not_decimals rtnbr D C)).
  - intros e. unfold OnText.validate_route_number.
    destruct (isdigit_text rtnbr) eqn:D; cbn [negb]; [| discriminate].
    destruct (Nat.eqb_spec (List.length rtnbr) 9) as [L | L]; cbn [negb];
      [| discriminate].
    rewrite (is_valid_fed_symbol_text rtnbr L).
    destruct (Spec.district_prefix_ok rtnbr); cbn [negb]; [| discriminate].
    destruct (forallb is_decimal rtnbr) eqn:A.
    + assert (N : Spec.nine_decimals rtnbr = true)
        by (unfold Spec.nine_decimals; now rewrite L, A).
      rewrite (validate_routing_number_checksum_text rtnbr N). cbn [bind].
      destruct (negb _); discriminate.
    + unfold OnText.validate_routing_number_checksum.
      rewrite (int_each_not_decimals rtnbr A). cbn [bind].
      intros H. injection H as <-.
      split; [reflexivity |]. split; [reflexivity |].
      split; [exact L |]. split; [reflexivity |].
      destruct (Spec.digits_convert rtnbr) eqn:C; [| reflexivity].
      rewrite (isdigit_text_decimals rtnbr C) in D.
      apply andb_prop in D. destruct D as [_ D]. congruence.
Qed.

Lemma digit_that_int_refuses_raises_witness :
  OnText.validate_route_number (code_points "3211803" ++ [9319%N; 57%N])
  = Raise ValueError.
Proof.
  apply (proj1 (digit_that_int_refuses_raises
                  (code_points "3211803" ++ [9319%N; 57%N])));
    vm_compute; reflexivity.
Defined.

End DigitsThatIntRefuses.
